(** * Amazon tax-library downloader: row parser, filter engine, status store
      and download loop

    A shallow embedding of the content script of the extension, in its two
    generations: the first [content.js] (module-level functions) and the
    optimized script listed in the implementation guide (classes
    [InvoiceDataManager], [DirectDownloadManager], [FilterManager] and
    [InvoiceDownloader]).

    Conventions of the embedding.
    - A JavaScript string is a [string], one [ascii] per code unit (code units
      below 256).
    - A call that can raise returns a [Completion]: [Normal v] or [Throw e].
    - A [Map] whose insertion order is observed ([filterCache]) is an
      association list in insertion order; the maps and sets whose order is
      never observed ([downloadStatus], [downloadedInvoices], the attributes of
      an element) are [gmap]s and [gset]s.
    - An array that is shared between a field and the filter cache lives in a
      heap of arrays and is named by its reference, so that object identity can
      be stated.
    - An [async] function is a step function: a call runs up to its next
      [await] and leaves its local variables with the object; an event
      resumes it. The fields of the object are shared by all calls. *)

From Stdlib Require Import ZArith Ascii String List Bool Lia Sorted.
From stdpp Require Import gmap strings list fin_maps.

Local Open Scope Z_scope.

(** ** JavaScript values that the script handles *)

(** Abrupt completions. The only exceptions inside the modelled code are the
    [RangeError] of [Date.prototype.toISOString] and the [Error]s raised by the
    download step. *)
Inductive Completion (A : Type) : Type :=
| Normal (v : A)
| Throw (e : string).
Arguments Normal {A} v.
Arguments Throw {A} e.

Definition bindC {A B : Type} (c : Completion A) (k : A -> Completion B) : Completion B :=
  match c with
  | Normal v => k v
  | Throw e => Throw e
  end.

#[global] Instance Completion_ret : MRet Completion := fun A v => Normal v.
#[global] Instance Completion_bind : MBind Completion :=
  fun A B k c => bindC c k.

Definition isNormal {A : Type} (c : Completion A) : bool :=
  match c with
  | Normal _ => true
  | Throw _ => false
  end.

(** A property value that is a string, [null] or [undefined]. *)
Inductive JSValue : Type :=
| JSUndefined
| JSNull
| JSString (s : string).

(** [v || ''] for such a value: [undefined], [null] and [''] are falsy. *)
Definition orEmpty (v : JSValue) : string :=
  match v with
  | JSString s => s
  | _ => EmptyString
  end.

(** ToBoolean of a string: only the empty string is falsy. *)
Definition truthy (s : string) : bool :=
  match s with
  | EmptyString => false
  | String _ _ => true
  end.

(** ** String primitives *)

Definition code (c : ascii) : N := N_of_ascii c.

Definition inRange (lo hi : N) (c : ascii) : bool :=
  ((lo <=? code c) && (code c <=? hi))%N.

(** [WhiteSpace] and [LineTerminator] code units below 256: TAB, LF, VT, FF,
    CR, SP and NBSP. [String.prototype.trim] and the class [\s] use this set. *)
Definition isWhiteSpace (c : ascii) : bool :=
  (inRange 9 13 c || (code c =? 32) || (code c =? 160))%N.

Definition isDigit (c : ascii) : bool := inRange 48 57 c.
Definition isUpper (c : ascii) : bool := inRange 65 90 c.
Definition isLower (c : ascii) : bool := inRange 97 122 c.

(** The class [\w]: [A-Za-z0-9_]. *)
Definition isWord (c : ascii) : bool :=
  (isUpper c || isLower c || isDigit c || (code c =? 95))%N.

Fixpoint trimStart (s : string) : string :=
  match s with
  | EmptyString => EmptyString
  | String c r => if isWhiteSpace c then trimStart r else s
  end.

Fixpoint trimEnd (s : string) : string :=
  match s with
  | EmptyString => EmptyString
  | String c r =>
      match trimEnd r with
      | EmptyString => if isWhiteSpace c then EmptyString else String c EmptyString
      | r' => String c r'
      end
  end.

Definition trim (s : string) : string := trimEnd (trimStart s).

(** [toLowerCase] on one code unit: [A-Z], and the Latin-1 capitals
    0xC0..0xDE except the multiplication sign 0xD7. *)
Definition lowerChar (c : ascii) : ascii :=
  if (isUpper c || (inRange 192 222 c && negb (code c =? 215)))%N
  then ascii_of_N (code c + 32)
  else c.

Fixpoint toLowerCase (s : string) : string :=
  match s with
  | EmptyString => EmptyString
  | String c r => String (lowerChar c) (toLowerCase r)
  end.

Definition startsWith (s pat : string) : bool := String.prefix pat s.

Fixpoint includes (s pat : string) : bool :=
  String.prefix pat s ||
  match s with
  | EmptyString => false
  | String _ r => includes r pat
  end.

Fixpoint dropChars (n : nat) (s : string) : string :=
  match n, s with
  | O, _ => s
  | S _, EmptyString => EmptyString
  | S n', String _ r => dropChars n' r
  end.

(** [s.replace(pat, '')] with a string pattern: the first occurrence of [pat]
    is removed. *)
Fixpoint replaceFirstByEmpty (s pat : string) : string :=
  if String.prefix pat s then dropChars (String.length pat) s
  else match s with
       | EmptyString => EmptyString
       | String c r => String c (replaceFirstByEmpty r pat)
       end.

(** Comparison of two strings with [<]: lexicographic on code units. *)
Definition strLt (a b : string) : bool :=
  match String.compare a b with
  | Lt => true
  | _ => false
  end.

Definition strGt (a b : string) : bool := strLt b a.

(** ** Regular expressions

    The two patterns of the script use character classes, sequencing and
    repetition only. They are matched by derivatives. *)
Inductive regex : Type :=
| RNone
| REps
| RClass (p : ascii -> bool)
| RSeq (r1 r2 : regex)
| RAlt (r1 r2 : regex)
| RStar (r : regex).

Fixpoint nullable (r : regex) : bool :=
  match r with
  | RNone => false
  | REps => true
  | RClass _ => false
  | RSeq r1 r2 => nullable r1 && nullable r2
  | RAlt r1 r2 => nullable r1 || nullable r2
  | RStar _ => true
  end.

Definition rseq (r1 r2 : regex) : regex :=
  match r1, r2 with
  | RNone, _ => RNone
  | _, RNone => RNone
  | REps, _ => r2
  | _, _ => RSeq r1 r2
  end.

Definition ralt (r1 r2 : regex) : regex :=
  match r1, r2 with
  | RNone, _ => r2
  | _, RNone => r1
  | _, _ => RAlt r1 r2
  end.

Fixpoint deriv (c : ascii) (r : regex) : regex :=
  match r with
  | RNone => RNone
  | REps => RNone
  | RClass p => if p c then REps else RNone
  | RSeq r1 r2 =>
      if nullable r1 then ralt (rseq (deriv c r1) r2) (deriv c r2)
      else rseq (deriv c r1) r2
  | RAlt r1 r2 => ralt (deriv c r1) (deriv c r2)
  | RStar r1 => rseq (deriv c r1) (RStar r1)
  end.

(** [/^r$/.test(s)]: the whole of [s] matches [r]. *)
Fixpoint matchesWhole (r : regex) (s : string) : bool :=
  match s with
  | EmptyString => nullable r
  | String c rest => matchesWhole (deriv c r) rest
  end.

(** [/^r/.test(s)]: some prefix of [s] matches [r]. *)
Fixpoint matchesPrefix (r : regex) (s : string) : bool :=
  nullable r ||
  match s with
  | EmptyString => false
  | String c rest => matchesPrefix (deriv c r) rest
  end.

Definition rplus (r : regex) : regex := RSeq r (RStar r).

Fixpoint rrepeat (n : nat) (r : regex) : regex :=
  match n with
  | O => REps
  | S n' => RSeq r (rrepeat n' r)
  end.

Definition rchar (c : ascii) : regex := RClass (Ascii.eqb c).

(** [/^[A-Z]{2}-[A-Z]+-\d+-\d+$/] *)
Definition invoiceIdPattern : regex :=
  RSeq (rrepeat 2 (RClass isUpper))
    (RSeq (rchar "-")
       (RSeq (rplus (RClass isUpper))
          (RSeq (rchar "-")
             (RSeq (rplus (RClass isDigit))
                (RSeq (rchar "-") (rplus (RClass isDigit))))))).

(** [/^\w{3}\s\w{3}\s\d{2}/] *)
Definition datePattern : regex :=
  RSeq (rrepeat 3 (RClass isWord))
    (RSeq (RClass isWhiteSpace)
       (RSeq (rrepeat 3 (RClass isWord))
          (RSeq (RClass isWhiteSpace) (rrepeat 2 (RClass isDigit))))).

(** ** [JSON.stringify] of a filter object *)

Definition quoteChar : ascii := ascii_of_nat 34.
Definition backslashChar : ascii := ascii_of_nat 92.

Definition hexDigit (n : N) : ascii :=
  if (n <? 10)%N then ascii_of_N (48 + n) else ascii_of_N (87 + n).

Definition str1 (c : ascii) : string := String c EmptyString.
Definition str2 (c d : ascii) : string := String c (String d EmptyString).

(** QuoteJSONString on one code unit: the quote and the backslash are escaped,
    the control characters are written [\b \t \n \f \r] or [\u00xx]. *)
Definition jsonEscapeChar (c : ascii) : string :=
  if Ascii.eqb c quoteChar then str2 backslashChar quoteChar
  else if Ascii.eqb c backslashChar then str2 backslashChar backslashChar
  else if (code c =? 8)%N then str2 backslashChar "b"
  else if (code c =? 9)%N then str2 backslashChar "t"
  else if (code c =? 10)%N then str2 backslashChar "n"
  else if (code c =? 12)%N then str2 backslashChar "f"
  else if (code c =? 13)%N then str2 backslashChar "r"
  else if (code c <? 32)%N then
    String backslashChar
      (String "u" (String "0" (String "0"
         (str2 (hexDigit (code c / 16)) (hexDigit (code c mod 16))))))
  else str1 c.

Fixpoint jsonEscape (s : string) : string :=
  match s with
  | EmptyString => EmptyString
  | String c r => String.append (jsonEscapeChar c) (jsonEscape r)
  end.

Definition jsonQuote (s : string) : string :=
  String quoteChar (String.append (jsonEscape s) (str1 quoteChar)).

(** The filter object of [FilterManager]: its four properties are strings and
    are created in this order ([currentFilters]). *)
Record FilterSpec : Type := mkFilterSpec {
  f_marketplace : string;
  f_dateFrom : string;
  f_dateTo : string;
  f_status : string
}.

Definition jsonProperty (name value : string) : string :=
  String.append (jsonQuote name) (String ":" (jsonQuote value)).

Definition JSON_stringify (filters : FilterSpec) : string :=
  String "{"
    (String.append (jsonProperty "marketplace" (f_marketplace filters))
       (String ","
          (String.append (jsonProperty "dateFrom" (f_dateFrom filters))
             (String ","
                (String.append (jsonProperty "dateTo" (f_dateTo filters))
                   (String ","
                      (String.append (jsonProperty "status" (f_status filters))
                         "}"%string))))))).

(** ** Dates

    A [Date] object holds a time value in milliseconds since the epoch, or NaN
    (an invalid date), here [None]. *)
Definition DateValue : Type := option Z.

Definition msPerDay : Z := 86400000.

(** TimeClip: a time value beyond 8.64e15 ms in magnitude is NaN. *)
Definition TimeClip (t : option Z) : DateValue :=
  match t with
  | Some v => if Z.abs v <=? 8640000000000000 then Some v else None
  | None => None
  end.

(** Year, month (1..12) and day of the month of a day number counted from the
    epoch, in the proleptic Gregorian calendar (YearFromTime, MonthFromTime and
    DateFromTime). *)
Definition civilFromDays (days : Z) : Z * Z * Z :=
  let z := days + 719468 in
  let era := z / 146097 in
  let doe := z - era * 146097 in
  let yoe := (doe - doe / 1460 + doe / 36524 - doe / 146096) / 365 in
  let y := yoe + era * 400 in
  let doy := doe - (365 * yoe + yoe / 4 - yoe / 100) in
  let mp := (5 * doy + 2) / 153 in
  let d := doy - (153 * mp + 2) / 5 + 1 in
  let m := if mp <? 10 then mp + 3 else mp - 9 in
  (if m <=? 2 then y + 1 else y, m, d).

(** Day number of a civil date, the inverse of [civilFromDays] (MakeDay). *)
Definition daysFromCivil (y m d : Z) : Z :=
  let y' := if m <=? 2 then y - 1 else y in
  let era := y' / 400 in
  let yoe := y' - era * 400 in
  let mp := if m <=? 2 then m + 9 else m - 3 in
  let doy := (153 * mp + 2) / 5 + d - 1 in
  let doe := yoe * 365 + yoe / 4 - yoe / 100 + doy in
  era * 146097 + doe - 719468.

Definition digitChar (n : Z) : ascii := ascii_of_N (48 + Z.to_N (n mod 10)).

(** The last [width] decimal digits of a non-negative number, zero padded. *)
Fixpoint padDigits (width : nat) (n : Z) (acc : string) : string :=
  match width with
  | O => acc
  | S w => padDigits w (n / 10) (String (digitChar n) acc)
  end.

Definition isoYear (y : Z) : string :=
  if (0 <=? y) && (y <=? 9999) then padDigits 4 y EmptyString
  else String (if y <? 0 then "-"%char else "+"%char) (padDigits 6 (Z.abs y) EmptyString).

(** [Date.prototype.toISOString]: [YYYY-MM-DDTHH:mm:ss.sssZ], and a
    [RangeError] on an invalid date. *)
Definition toISOString (d : DateValue) : Completion string :=
  match d with
  | None => Throw "RangeError: Invalid time value"
  | Some t =>
      let '(y, m, dd) := civilFromDays (t / msPerDay) in
      let ms := t mod msPerDay in
      Normal
        (String.concat EmptyString
           [isoYear y; "-"; padDigits 2 m EmptyString;
            "-"; padDigits 2 dd EmptyString;
            "T"; padDigits 2 (ms / 3600000) EmptyString;
            ":"; padDigits 2 (ms / 60000 mod 60) EmptyString;
            ":"; padDigits 2 (ms / 1000 mod 60) EmptyString;
            "."; padDigits 3 (ms mod 1000) EmptyString; "Z"]%string)
  end.

(** [s.split('T')[0]]: the part of [s] before the first [T]. *)
Fixpoint beforeFirst (sep : ascii) (s : string) : string :=
  match s with
  | EmptyString => EmptyString
  | String c r => if Ascii.eqb c sep then EmptyString else String c (beforeFirst sep r)
  end.

(** [s.split(' ')]: the fields of [s] between occurrences of [sep]. *)
Fixpoint splitOn (sep : ascii) (s : string) : list string :=
  match s with
  | EmptyString => [EmptyString]
  | String c r =>
      if Ascii.eqb c sep then EmptyString :: splitOn sep r
      else match splitOn sep r with
           | [] => [str1 c]
           | w :: ws => String c w :: ws
           end
  end.

(** *** A reference host for [Date.parse]

    What [Date.parse] accepts beyond the ISO format is left to the host, so
    the parser is a parameter of the row parser below. The examples are
    evaluated on this reference host: its local time zone is UTC and it
    recognises the [toDateString] form [Www Mmm DD YYYY], optionally followed
    by [HH:MM:SS]; an out-of-range day, hour, minute or second, like any text
    it does not recognise, gives NaN. *)
Fixpoint parseDigits (s : string) (acc : Z) : option Z :=
  match s with
  | EmptyString => Some acc
  | String c r =>
      if isDigit c then parseDigits r (acc * 10 + (Z.of_N (code c) - 48)) else None
  end.

Definition parseNumber (s : string) : option Z :=
  match s with
  | EmptyString => None
  | _ => parseDigits s 0
  end.

Definition monthNames : list string :=
  ["jan"; "feb"; "mar"; "apr"; "may"; "jun";
   "jul"; "aug"; "sep"; "oct"; "nov"; "dec"]%string.

Fixpoint indexOfString (x : string) (l : list string) (i : Z) : option Z :=
  match l with
  | [] => None
  | y :: r => if String.eqb x y then Some i else indexOfString x r (i + 1)
  end.

Definition parseClock (s : string) : option Z :=
  match splitOn ":" s with
  | [h; mi; se] =>
      h' ← parseNumber h; mi' ← parseNumber mi; se' ← parseNumber se;
      if (h' <=? 23) && (mi' <=? 59) && (se' <=? 59)
      then Some (((h' * 60) + mi') * 60000 + se' * 1000)
      else None
  | _ => None
  end.

Definition refDateParse (text : string) : option Z :=
  match splitOn " " text with
  | _ :: mon :: day :: year :: rest =>
      m ← indexOfString (toLowerCase mon) monthNames 1;
      d ← parseNumber day;
      y ← parseNumber year;
      clock ← match rest with
              | [] => Some 0
              | [c] => parseClock c
              | _ => None
              end;
      if (1 <=? d) && (d <=? 31)
      then Some (daysFromCivil y m d * msPerDay + clock)
      else None
  | _ => None
  end.

(** The host's [Date.parse] for a text that is not in the ISO format. *)
Class DateHost : Type := { Date_parse : string -> option Z }.

Definition refHost : DateHost := {| Date_parse := refDateParse |}.

(** ** The page: table rows, cells and the view button *)

Record Button : Type := mkButton {
  button_value : string;
  button_attributes : gmap string string
}.

(** [button.getAttribute(name)]: the value, or [null] when the attribute is
    absent. *)
Definition getAttribute (b : Button) (name : string) : JSValue :=
  match button_attributes b !! name with
  | Some v => JSString v
  | None => JSNull
  end.

(** A [tr]: the [textContent] of its [td] cells in order, its own
    [textContent], and the button matched by
    [button[id*="view_invoice_button"]], if any. *)
Record Row : Type := mkRow {
  row_cells : list string;
  row_textContent : string;
  row_viewButton : option Button
}.

(** A JavaScript object whose properties are strings or [null]. *)
Abbreviation JSObject := (gmap string JSValue).

(** Reading a property: [undefined] when the object does not have it. *)
Definition getProp (o : JSObject) (name : string) : JSValue :=
  default JSUndefined (o !! name).

(** The row data object built by [parseRowData]. *)
Record RowData : Type := mkRowData {
  element : Row;
  index : nat;
  invoiceId : string;
  startDate : string;
  endDate : string;
  marketplace : string;
  textContent : string;
  documentVersionId : string;
  buttonData : JSObject;
  isVisible : bool;
  isSelected : bool
}.

(** ** Row parser of the optimized script ([InvoiceDataManager]) *)

Definition extractButtonData (button : option Button) : JSObject :=
  match button with
  | None => ∅
  | Some b =>
      <["endDate" := getAttribute b "data-enddate"]>
      (<["fileType" := getAttribute b "data-filetype"]>
      (<["filterName" := getAttribute b "data-filtername"]>
      (<["invoice" := getAttribute b "data-invoice"]>
      (<["payeeRegistrationNumber" := getAttribute b "data-payeeregistrationnumber"]>
      (<["rarId" := getAttribute b "data-rarid"]>
      (<["shedDocumentName" := getAttribute b "data-sheddocumentname"]> ∅))))))
  end%string.

Fixpoint extractInvoiceId (cells : list string) : string :=
  match cells with
  | [] => EmptyString
  | cell :: rest =>
      let text := trim cell in
      if matchesWhole invoiceIdPattern text then text else extractInvoiceId rest
  end.

Fixpoint extractMarketplace (cells : list string) : string :=
  match cells with
  | [] => "unknown"%string
  | cell :: rest =>
      let text := trim cell in
      if startsWith text "Amazon."
      then toLowerCase (replaceFirstByEmpty text "Amazon.")
      else extractMarketplace rest
  end.

Section RowParser.
Context {host : DateHost}.

(** [new Date(text)] *)
Definition newDate (text : string) : DateValue := TimeClip (Date_parse text).

(** [new Date(text).toISOString().split('T')[0]] *)
Definition isoDateOf (text : string) : Completion string :=
  iso ← toISOString (newDate text); mret (beforeFirst "T" iso).

(** The loop of [extractDate]; [dateCount] is its counter. *)
Fixpoint extractDateFrom (cells : list string) (occurrence dateCount : nat)
  : Completion string :=
  match cells with
  | [] => Normal EmptyString
  | cell :: rest =>
      let text := trim cell in
      if matchesPrefix datePattern text then
        if Nat.eqb dateCount occurrence then isoDateOf text
        else extractDateFrom rest occurrence (S dateCount)
      else extractDateFrom rest occurrence dateCount
  end.

Definition extractDate (cells : list string) (occurrence : nat) : Completion string :=
  extractDateFrom cells occurrence 0.

(** The object literal of [parseRowData], its properties evaluated in
    source order. *)
Definition buildRowData (row : Row) (index : nat) : Completion RowData :=
  let cells := row_cells row in
  let viewButton := row_viewButton row in
  let invoiceId := extractInvoiceId cells in
  startDate ← extractDate cells 0;
  endDate ← extractDate cells 1;
  mret {| element := row;
          index := index;
          invoiceId := invoiceId;
          startDate := startDate;
          endDate := endDate;
          marketplace := extractMarketplace cells;
          textContent := toLowerCase (row_textContent row);
          documentVersionId :=
            match viewButton with
            | Some b => button_value b
            | None => EmptyString
            end;
          buttonData := extractButtonData viewButton;
          isVisible := true;
          isSelected := false |}.

(** *** Row parser of the first script ([content.js]) *)

Fixpoint content_extractInvoiceId (cells : list string) : string :=
  match cells with
  | [] => EmptyString
  | cell :: rest =>
      let text := trim cell in
      if matchesWhole invoiceIdPattern text then text
      else content_extractInvoiceId rest
  end.

Fixpoint content_extractStartDate (cells : list string) : Completion string :=
  match cells with
  | [] => Normal EmptyString
  | cell :: rest =>
      let text := trim cell in
      if matchesPrefix datePattern text then isoDateOf text
      else content_extractStartDate rest
  end.

Fixpoint content_extractEndDateFrom (cells : list string) (dateCount : nat)
  : Completion string :=
  match cells with
  | [] => Normal EmptyString
  | cell :: rest =>
      let text := trim cell in
      if matchesPrefix datePattern text then
        if Nat.eqb (S dateCount) 2 then isoDateOf text
        else content_extractEndDateFrom rest (S dateCount)
      else content_extractEndDateFrom rest dateCount
  end.

Definition content_extractEndDate (cells : list string) : Completion string :=
  content_extractEndDateFrom cells 0.

(** The three values that [enhanceTable] stores in the [dataset] of a row. *)
Definition content_rowDataset (row : Row) : Completion (string * string * string) :=
  let invoiceId := content_extractInvoiceId (row_cells row) in
  startDate ← content_extractStartDate (row_cells row);
  endDate ← content_extractEndDate (row_cells row);
  mret (invoiceId, startDate, endDate).
End RowParser.

(** ** [InvoiceDataManager] *)

Definition RETRY_ATTEMPTS : Z := 3.

(** A value of the [downloadStatus] map. [markAsDownloaded] writes no [error]
    property. *)
Record StatusEntry : Type := mkStatusEntry {
  status : string;
  timestamp : Z;
  attempts : Z;
  error : option string
}.

(** References: a row data object is named by its position in [allRows], an
    array of row references by its position in the heap [arrays]. *)
Definition RowRef : Type := nat.
Definition ArrayRef : Type := nat.

Record InvoiceDataManager : Type := mkInvoiceDataManager {
  allRows : list RowData;
  arrays : list (list RowRef);
  filteredRows : ArrayRef;
  downloadedInvoices : gset string;
  rowDataCache : gmap nat RowData;
  filterCache : list (string * ArrayRef);
  isInitialized : bool;
  downloadStatus : gmap string StatusEntry
}.

(** The constructor; the array of [filteredRows] is allocated at reference 0. *)
Definition newInvoiceDataManager : InvoiceDataManager :=
  {| allRows := [];
     arrays := [[]];
     filteredRows := 0%nat;
     downloadedInvoices := ∅;
     rowDataCache := ∅;
     filterCache := [];
     isInitialized := false;
     downloadStatus := ∅ |}.

Definition setStatusStore (dm : InvoiceDataManager)
    (downloaded : gset string) (st : gmap string StatusEntry) : InvoiceDataManager :=
  {| allRows := allRows dm;
     arrays := arrays dm;
     filteredRows := filteredRows dm;
     downloadedInvoices := downloaded;
     rowDataCache := rowDataCache dm;
     filterCache := filterCache dm;
     isInitialized := isInitialized dm;
     downloadStatus := st |}.

Definition setFiltered (dm : InvoiceDataManager)
    (heap : list (list RowRef)) (current : ArrayRef)
    (cache : list (string * ArrayRef)) : InvoiceDataManager :=
  {| allRows := allRows dm;
     arrays := heap;
     filteredRows := current;
     downloadedInvoices := downloadedInvoices dm;
     rowDataCache := rowDataCache dm;
     filterCache := cache;
     isInitialized := isInitialized dm;
     downloadStatus := downloadStatus dm |}.

Definition setRows (dm : InvoiceDataManager)
    (rows : list RowData) (cache : gmap nat RowData) : InvoiceDataManager :=
  {| allRows := rows;
     arrays := arrays dm;
     filteredRows := filteredRows dm;
     downloadedInvoices := downloadedInvoices dm;
     rowDataCache := cache;
     filterCache := filterCache dm;
     isInitialized := isInitialized dm;
     downloadStatus := downloadStatus dm |}.

(** *** Status store *)

(** [this.downloadStatus.get(invoiceId)?.attempts || 0] *)
Definition attemptsOr0 (e : option StatusEntry) : Z :=
  match e with
  | Some s => attempts s
  | None => 0
  end.

(** [now] is the value of [Date.now()] at the call. *)
Definition markAsDownloaded (invoiceId : string) (now : Z)
    (dm : InvoiceDataManager) : InvoiceDataManager :=
  setStatusStore dm
    ({[invoiceId]} ∪ downloadedInvoices dm)
    (<[invoiceId := {| status := "downloaded";
                       timestamp := now;
                       attempts := attemptsOr0 (downloadStatus dm !! invoiceId) + 1;
                       error := None |}]> (downloadStatus dm)).

Definition markAsFailed (invoiceId : string) (err : string) (now : Z)
    (dm : InvoiceDataManager) : InvoiceDataManager :=
  let current := attemptsOr0 (downloadStatus dm !! invoiceId) in
  setStatusStore dm
    (downloadedInvoices dm)
    (<[invoiceId := {| status := "failed";
                       timestamp := now;
                       attempts := current + 1;
                       error := Some err |}]> (downloadStatus dm)).

Definition getDownloadStatus (dm : InvoiceDataManager) (invoiceId : string) : string :=
  if decide (invoiceId ∈ downloadedInvoices dm) then "downloaded"%string
  else
    match downloadStatus dm !! invoiceId with
    | Some s =>
        if String.eqb (status s) "failed" && (RETRY_ATTEMPTS <=? attempts s)
        then "failed"%string
        else "pending"%string
    | None => "pending"%string
    end.

Definition clearDownloadHistory (dm : InvoiceDataManager) : InvoiceDataManager :=
  setStatusStore dm ∅ ∅.

(** *** Row cache *)

Section RowCache.
Context {host : DateHost}.

Definition parseRowData (row : Row) (index : nat) (dm : InvoiceDataManager)
  : Completion (InvoiceDataManager * RowData) :=
  match rowDataCache dm !! index with
  | Some data => Normal (dm, data)
  | None =>
      data ← buildRowData row index;
      mret (setRows dm (allRows dm) (<[index := data]> (rowDataCache dm)), data)
  end.

(** [chunk.forEach]: each row is parsed at the index [allRows.length] and
    pushed. *)
Fixpoint processChunk (chunk : list Row) (dm : InvoiceDataManager)
  : Completion InvoiceDataManager :=
  match chunk with
  | [] => Normal dm
  | row :: rest =>
      let globalIndex := length (allRows dm) in
      '(dm1, data) ← parseRowData row globalIndex dm;
      processChunk rest (setRows dm1 (allRows dm1 ++ [data]) (rowDataCache dm1))
  end.
End RowCache.

(** *** Filter engine *)

(** An insertion-ordered [Map] with string keys. *)
Section OrderedMap.
Context {V : Type}.

Fixpoint Map_get (k : string) (m : list (string * V)) : option V :=
  match m with
  | [] => None
  | (k', v) :: r => if String.eqb k' k then Some v else Map_get k r
  end.

Definition Map_has (k : string) (m : list (string * V)) : bool :=
  match Map_get k m with
  | Some _ => true
  | None => false
  end.

Fixpoint Map_delete (k : string) (m : list (string * V)) : list (string * V) :=
  match m with
  | [] => []
  | (k', v) :: r => if String.eqb k' k then r else (k', v) :: Map_delete k r
  end.

(** [set] keeps the position of a key that is present and appends a new
    key. *)
Fixpoint Map_set (k : string) (v : V) (m : list (string * V)) : list (string * V) :=
  match m with
  | [] => [(k, v)]
  | (k', v') :: r => if String.eqb k' k then (k', v) :: r else (k', v') :: Map_set k v r
  end.

(** [m.delete(m.keys().next().value)]; on an empty map the key is
    [undefined] and nothing is deleted. *)
Definition Map_deleteFirstKey (m : list (string * V)) : list (string * V) :=
  match m with
  | [] => []
  | (k, _) :: _ => Map_delete k m
  end.
End OrderedMap.

(** The callback of [allRows.filter] in [applyFilters]. *)
Definition passesFilters (filters : FilterSpec) (dm : InvoiceDataManager)
    (data : RowData) : bool :=
  if truthy (f_marketplace filters)
     && negb (includes (textContent data) (toLowerCase (f_marketplace filters)))
  then false
  else if truthy (f_dateFrom filters) && truthy (endDate data)
          && strLt (endDate data) (f_dateFrom filters)
  then false
  else if truthy (f_dateTo filters) && truthy (startDate data)
          && strGt (startDate data) (f_dateTo filters)
  then false
  else if truthy (f_status filters)
  then
    let downloadStatus := getDownloadStatus dm (invoiceId data) in
    if negb (String.eqb (f_status filters) downloadStatus) then false else true
  else true.

(** [rows.filter(p)] as an array of references; [i] is the reference of the
    head of [rows]. *)
Fixpoint filterRefs (p : RowData -> bool) (rows : list RowData) (i : RowRef)
  : list RowRef :=
  match rows with
  | [] => []
  | data :: rest =>
      if p data then i :: filterRefs p rest (S i) else filterRefs p rest (S i)
  end.

(** [applyFilters] returns the array it stores in [filteredRows]. *)
Definition applyFilters (filters : FilterSpec) (dm : InvoiceDataManager)
  : InvoiceDataManager * ArrayRef :=
  let cacheKey := JSON_stringify filters in
  if Map_has cacheKey (filterCache dm) then
    let cached := default 0%nat (Map_get cacheKey (filterCache dm)) in
    (setFiltered dm (arrays dm) cached (filterCache dm), cached)
  else
    let result := filterRefs (passesFilters filters dm) (allRows dm) 0%nat in
    let fresh := length (arrays dm) in
    let heap := arrays dm ++ [result] in
    let cache :=
      if (50 <? length (filterCache dm))%nat
      then Map_deleteFirstKey (filterCache dm)
      else filterCache dm in
    (setFiltered dm heap fresh (Map_set cacheKey fresh cache), fresh).

(** The elements of an array of row references. *)
Definition rowsOf (dm : InvoiceDataManager) (a : ArrayRef) : list RowData :=
  omap (fun r : RowRef => allRows dm !! r) (default [] (arrays dm !! a)).

(** ** [DirectDownloadManager] *)

(** How the network part of [downloadPdfDirect] ends for one invoice: the
    promise resolves with a file name, or rejects with an error message
    (an HTTP error, an empty PDF, or [Download timeout] after an abort). *)
Inductive FetchResult : Type :=
| Fetched (filename : string)
| Rejected (message : string).

(** [downloadPdfDirect]: the guard on the document identifiers, then the
    network part. *)
Definition downloadPdfDirect (invoiceData : RowData) (net : FetchResult)
  : Completion string :=
  if negb (truthy (documentVersionId invoiceData))
     && negb (truthy (orEmpty (getProp (buttonData invoiceData) "rarId")))
  then Throw "No document version ID or rarId found"
  else match net with
       | Fetched filename => Normal filename
       | Rejected message => Throw message
       end.

(** ** Sequences of status-store operations *)

Inductive StatusOp : Type :=
| RecordSuccess (invoiceId : string) (now : Z)
| RecordFailure (invoiceId : string) (err : string) (now : Z)
| ClearHistory.

Definition applyStatusOp (dm : InvoiceDataManager) (op : StatusOp) : InvoiceDataManager :=
  match op with
  | RecordSuccess id now => markAsDownloaded id now dm
  | RecordFailure id err now => markAsFailed id err now dm
  | ClearHistory => clearDownloadHistory dm
  end.

Definition applyStatusOps (ops : list StatusOp) (dm : InvoiceDataManager)
  : InvoiceDataManager :=
  foldl applyStatusOp dm ops.

(** A sequence of [applyFilters] calls, threaded through the manager. *)
Definition applyFiltersAll (specs : list FilterSpec) (dm : InvoiceDataManager)
  : InvoiceDataManager :=
  foldl (fun d spec => fst (applyFilters spec d)) dm specs.

(** ** Helpers used by the statements *)

(** [n] filter objects with pairwise different marketplace texts: the text of
    the [k]-th is [k] letters [a]. *)
Fixpoint letters (k : nat) : string :=
  match k with
  | O => EmptyString
  | S k' => String "a" (letters k')
  end.

Definition distinctSpecs (n : nat) : list FilterSpec :=
  map (fun k => mkFilterSpec (letters k) EmptyString EmptyString EmptyString) (seq 0 n).

(** The filter object with one of its date bounds emptied. *)
Definition withoutDateFrom (filters : FilterSpec) : FilterSpec :=
  mkFilterSpec (f_marketplace filters) EmptyString (f_dateTo filters) (f_status filters).

Definition withoutDateTo (filters : FilterSpec) : FilterSpec :=
  mkFilterSpec (f_marketplace filters) (f_dateFrom filters) EmptyString (f_status filters).

(** The property names of the button data object and the attributes they are
    read from. *)
Definition buttonDataFields : list (string * string) :=
  [("endDate", "data-enddate");
   ("fileType", "data-filetype");
   ("filterName", "data-filtername");
   ("invoice", "data-invoice");
   ("payeeRegistrationNumber", "data-payeeregistrationnumber");
   ("rarId", "data-rarid");
   ("shedDocumentName", "data-sheddocumentname")]%string.

(** Rows used in the examples. *)
Definition exampleRow : Row :=
  mkRow ["  GB-AEU-2025-0001 "; "Mon Jan 15 2024"; "Wed Jan 31 2024"; "Amazon.DE"; ""]%string
    "GB-AEU-2025-0001 Mon Jan 15 2024 Wed Jan 31 2024 Amazon.DE"
    (Some (mkButton "doc-1" {["data-invoice" := "GB-AEU-2025-0001"]}))%string.

Definition badDateRow : Row :=
  mkRow ["GB-AEU-2025-0002"; "Mon Jan 15 2024 99:99:99"]%string
    "GB-AEU-2025-0002 Mon Jan 15 2024 99:99:99" None.

Definition exampleData (i : nat) (id endD : string) (selected : bool) : RowData :=
  {| element := mkRow [id; endD] (toLowerCase id) None;
     index := i;
     invoiceId := id;
     startDate := EmptyString;
     endDate := endD;
     marketplace := "unknown";
     textContent := toLowerCase id;
     documentVersionId := "doc";
     buttonData := ∅;
     isVisible := true;
     isSelected := selected |}.

(** A manager holding [rows], all of them in the current filtered array. *)
Definition managerOf (rows : list RowData) : InvoiceDataManager :=
  {| allRows := rows;
     arrays := [seq 0 (length rows)];
     filteredRows := 0%nat;
     downloadedInvoices := ∅;
     rowDataCache := ∅;
     filterCache := [];
     isInitialized := true;
     downloadStatus := ∅ |}.

(** The texts that the parser takes for dates: the trimmed cell texts that
    match the date pattern, in cell order. The start date is read from the
    first and the end date from the second. *)
Definition dateLikeCells (cells : list string) : list string :=
  List.filter (matchesPrefix datePattern) (map trim cells).

(** The result of reading the [n]-th date of a row. *)
Definition readDate {host : DateHost} (cells : list string) (n : nat)
  : Completion string :=
  match dateLikeCells cells !! n with
  | Some text => isoDateOf text
  | None => Normal EmptyString
  end.

(** The dates that the parser reads are valid for [new Date]. *)
Definition datesReadValid {host : DateHost} (cells : list string) : Prop :=
  Forall (fun text => newDate text <> None) (take 2 (dateLikeCells cells)).

(** [recordFailure] applied to one invoice once per element of [fs], each with
    its error message and clock value. *)
Definition recordFailures (invoiceId : string) (fs : list (string * Z)) : list StatusOp :=
  map (fun f => RecordFailure invoiceId (fst f) (snd f)) fs.

Definition withoutDates (filters : FilterSpec) : FilterSpec :=
  mkFilterSpec (f_marketplace filters) EmptyString EmptyString (f_status filters).

(** Exclusion by the date range, in the words of the specification: the
    [dateFrom] bound excludes a record with a non-empty [endDate] strictly
    before it, the [dateTo] bound a record with a non-empty [startDate]
    strictly after it, both in the order of the code units. *)
Definition excludedByDateFrom (filters : FilterSpec) (data : RowData) : Prop :=
  f_dateFrom filters <> EmptyString
  /\ endDate data <> EmptyString
  /\ String.compare (endDate data) (f_dateFrom filters) = Lt.

Definition excludedByDateTo (filters : FilterSpec) (data : RowData) : Prop :=
  f_dateTo filters <> EmptyString
  /\ startDate data <> EmptyString
  /\ String.compare (f_dateTo filters) (startDate data) = Lt.




(** ** More of [InvoiceDataManager]: chunked initialization and persistence *)

Definition CHUNK_SIZE : nat := 100.

(** [array.slice(i, j)] for indices [0 <= i <= j]. *)
Definition slice {A : Type} (array : list A) (i j : nat) : list A :=
  take (j - i) (drop i array).

(** The loop of [chunkArray], entered with counter [i]. The counter advances
    by [size], so the loop is not structural: [fuel] bounds the number of
    iterations and [None] means that the bound was reached before the loop
    test failed. *)
Fixpoint chunkArrayFrom {A : Type} (fuel : nat) (array : list A) (size i : nat)
  : option (list (list A)) :=
  if (i <? length array)%nat then
    match fuel with
    | O => None
    | S fuel' =>
        chunks ← chunkArrayFrom fuel' array size (i + size);
        Some (slice array i (i + size) :: chunks)
    end
  else Some [].

Definition chunkArray {A : Type} (fuel : nat) (array : list A) (size : nat)
  : option (list (list A)) :=
  chunkArrayFrom fuel array size 0.

(** The two keys of [chrome.storage.local] that the script uses:
    [STORAGE_KEY] holds an array of invoice ids and [STORAGE_KEY_status] an
    object from invoice id to status entry; [None] is an absent key. *)
Record Storage : Type := mkStorage {
  stored_invoices : option (list string);
  stored_status : option (gmap string StatusEntry)
}.

Definition emptyStorage : Storage :=
  {| stored_invoices := None; stored_status := None |}.

(** What [saveDownloadStatus] writes: [Array.from(downloadedInvoices)] and
    [Object.fromEntries(downloadStatus)]. *)
Definition saveDownloadStatus (dm : InvoiceDataManager) : Storage :=
  {| stored_invoices := Some (elements (downloadedInvoices dm));
     stored_status := Some (downloadStatus dm) |}.

(** [loadDownloadStatus]: each of the two fields is replaced only when its key
    is present (an array and an object are truthy, also when empty). *)
Definition loadDownloadStatus (storage : Storage) (dm : InvoiceDataManager)
  : InvoiceDataManager :=
  setStatusStore dm
    (match stored_invoices storage with
     | Some ids => list_to_set ids
     | None => downloadedInvoices dm
     end)
    (match stored_status storage with
     | Some st => st
     | None => downloadStatus dm
     end).

(** A status operation together with what it leaves in the storage:
    [markAsDownloaded] and [markAsFailed] end with [saveDownloadStatus],
    [clearDownloadHistory] removes both keys. *)
Definition applyStatusOpStored (state : InvoiceDataManager * Storage) (op : StatusOp)
  : InvoiceDataManager * Storage :=
  let dm := applyStatusOp (fst state) op in
  (dm, match op with
       | ClearHistory => emptyStorage
       | _ => saveDownloadStatus dm
       end).

Definition applyStatusOpsStored (ops : list StatusOp)
    (state : InvoiceDataManager * Storage) : InvoiceDataManager * Storage :=
  foldl applyStatusOpStored state ops.

(** [this.filteredRows = [...this.allRows]; this.isInitialized = true]: the
    copy is a new array holding a reference to every row. *)
Definition finishInitialization (dm : InvoiceDataManager) : InvoiceDataManager :=
  {| allRows := allRows dm;
     arrays := arrays dm ++ [seq 0 (length (allRows dm))];
     filteredRows := length (arrays dm);
     downloadedInvoices := downloadedInvoices dm;
     rowDataCache := rowDataCache dm;
     filterCache := filterCache dm;
     isInitialized := true;
     downloadStatus := downloadStatus dm |}.

Section Initialization.
Context {host : DateHost}.

(** [for (let chunk of chunks) { await this.processChunk(chunk); ... }] *)
Fixpoint processChunks (chunks : list (list Row)) (dm : InvoiceDataManager)
  : Completion InvoiceDataManager :=
  match chunks with
  | [] => Normal dm
  | chunk :: rest => dm1 ← processChunk chunk dm; processChunks rest dm1
  end.

(** [initializeData] with the chunk size as a parameter ([CONFIG.CHUNK_SIZE] in
    the script). [None]: the chunking loop does not end. *)
Definition initializeDataWith (size : nat) (storage : Storage) (tableRows : list Row)
    (dm : InvoiceDataManager) : option (Completion InvoiceDataManager) :=
  if isInitialized dm then Some (Normal dm)
  else
    let dm1 := loadDownloadStatus storage dm in
    chunks ← chunkArray (length tableRows) tableRows size;
    Some (dm2 ← processChunks chunks dm1; mret (finishInitialization dm2)).

Definition initializeData (storage : Storage) (tableRows : list Row)
    (dm : InvoiceDataManager) : option (Completion InvoiceDataManager) :=
  initializeDataWith CHUNK_SIZE storage tableRows dm.
End Initialization.

(** ** Selection *)

Definition setSelected (selected : bool) (data : RowData) : RowData :=
  {| element := element data;
     index := index data;
     invoiceId := invoiceId data;
     startDate := startDate data;
     endDate := endDate data;
     marketplace := marketplace data;
     textContent := textContent data;
     documentVersionId := documentVersionId data;
     buttonData := buttonData data;
     isVisible := isVisible data;
     isSelected := selected |}.

(** An assignment to a property of the row object [r]. The object is the
    element [r] of [allRows]; it is also the value that [processChunk] stored
    in [rowDataCache] under the key [r], so the entry of that key, when there
    is one, changes with it. *)
Definition mutateRow (r : RowRef) (f : RowData -> RowData) (dm : InvoiceDataManager)
  : InvoiceDataManager :=
  setRows dm (alter f r (allRows dm)) (alter f r (rowDataCache dm)).

(** The array of row references that [filteredRows] names. *)
Definition currentView (dm : InvoiceDataManager) : list RowRef :=
  default [] (arrays dm !! filteredRows dm).

(** [if (this.filteredRows[index]) this.filteredRows[index].isSelected = selected] *)
Definition toggleSelection (index : nat) (selected : bool) (dm : InvoiceDataManager)
  : InvoiceDataManager :=
  match currentView dm !! index with
  | Some r => mutateRow r (setSelected selected) dm
  | None => dm
  end.

Definition selectAllVisible (selected : bool) (dm : InvoiceDataManager)
  : InvoiceDataManager :=
  foldl (fun d r => mutateRow r (setSelected selected) d) dm (currentView dm).

(** [forEach] reads the status of each row when it reaches it. *)
Definition selectByStatus (status : string) (selected : bool) (dm : InvoiceDataManager)
  : InvoiceDataManager :=
  foldl (fun d r =>
           match allRows d !! r with
           | Some data =>
               if String.eqb (getDownloadStatus d (invoiceId data)) status
               then mutateRow r (setSelected selected) d
               else d
           | None => d
           end) dm (currentView dm).

Definition getSelectedCount (dm : InvoiceDataManager) : nat :=
  length (List.filter isSelected (rowsOf dm (filteredRows dm))).

Definition getSelectedByStatus (status : string) (dm : InvoiceDataManager) : nat :=
  length (List.filter
            (fun data : RowData =>
               isSelected data
               && String.eqb (getDownloadStatus dm (invoiceId data)) status)
            (rowsOf dm (filteredRows dm))).

(** [getVisibleRowsSlice] for indices [0 <= startIndex <= endIndex]. *)
Definition getVisibleRowsSlice (startIndex endIndex : nat) (dm : InvoiceDataManager)
  : list RowData :=
  slice (rowsOf dm (filteredRows dm)) startIndex endIndex.

(** ** [InvoiceDownloader] *)

(** How a call of [downloadPdfDirect] settles, and the clock that the status
    update then reads. *)
Record Settlement : Type := mkSettlement {
  fetchResult : FetchResult;
  now : Z
}.

(** The status-store call that the download loop makes for one invoice. *)
Definition terminalUpdate (invoiceData : RowData) (outcome : Settlement) : StatusOp :=
  match downloadPdfDirect invoiceData (fetchResult outcome) with
  | Normal _ => RecordSuccess (invoiceId invoiceData) (now outcome)
  | Throw message => RecordFailure (invoiceId invoiceData) message (now outcome)
  end.

(** The local counters of [startDirectDownload]. *)
Record Counts : Type := mkCounts {
  successCount : nat;
  failureCount : nat
}.

(** The [await] at which a call of [startDirectDownload] is suspended: that
    of [downloadPdfDirect] for the invoice in [invoiceData], or that of
    [sleep]. *)
Inductive AwaitPoint : Type :=
| AwaitDownload (invoiceData : RowData)
| AwaitSleep.

(** The local variables of a suspended call of [startDirectDownload]. *)
Record Activation : Type := mkActivation {
  act_i : nat;
  act_counts : Counts;
  act_await : AwaitPoint
}.

(** The object and what surrounds it: its four fields; the [disabled]
    property of the download button; the suspended calls of
    [startDirectDownload], numbered in the order in which they passed the two
    early returns, and the number of such calls; the completion messages
    shown, with the number of the call; and the calls of [markAsDownloaded]
    and [markAsFailed] made by the loop, with the number of the call that
    made them. The fields are shared by all calls: each call reads
    [isDownloading] and [downloadQueue] again whenever it resumes. *)
Record InvoiceDownloader : Type := mkInvoiceDownloader {
  dataManager : InvoiceDataManager;
  isDownloading : bool;
  downloadQueue : list RowData;
  currentDownloadIndex : nat;
  downloadDisabled : bool;
  suspended : gmap nat Activation;
  runsStarted : nat;
  finished : list (nat * Counts);
  statusUpdates : list (nat * StatusOp)
}.

(** The button is created with the [disabled] attribute. *)
Definition newInvoiceDownloader : InvoiceDownloader :=
  {| dataManager := newInvoiceDataManager;
     isDownloading := false;
     downloadQueue := [];
     currentDownloadIndex := 0%nat;
     downloadDisabled := true;
     suspended := ∅;
     runsStarted := 0%nat;
     finished := [];
     statusUpdates := [] |}.

Definition setDownloadDisabled (disabled : bool) (app : InvoiceDownloader)
  : InvoiceDownloader :=
  {| dataManager := dataManager app;
     isDownloading := isDownloading app;
     downloadQueue := downloadQueue app;
     currentDownloadIndex := currentDownloadIndex app;
     downloadDisabled := disabled;
     suspended := suspended app;
     runsStarted := runsStarted app;
     finished := finished app;
     statusUpdates := statusUpdates app |}.

Definition setIsDownloading (value : bool) (app : InvoiceDownloader)
  : InvoiceDownloader :=
  {| dataManager := dataManager app;
     isDownloading := value;
     downloadQueue := downloadQueue app;
     currentDownloadIndex := currentDownloadIndex app;
     downloadDisabled := downloadDisabled app;
     suspended := suspended app;
     runsStarted := runsStarted app;
     finished := finished app;
     statusUpdates := statusUpdates app |}.

Definition setCurrentDownloadIndex (i : nat) (app : InvoiceDownloader)
  : InvoiceDownloader :=
  {| dataManager := dataManager app;
     isDownloading := isDownloading app;
     downloadQueue := downloadQueue app;
     currentDownloadIndex := i;
     downloadDisabled := downloadDisabled app;
     suspended := suspended app;
     runsStarted := runsStarted app;
     finished := finished app;
     statusUpdates := statusUpdates app |}.

(** [updateSelectionCount], as far as the button is concerned; it is the part
    of [updateDisplay] that writes a property read elsewhere. *)
Definition updateSelectionCount (app : InvoiceDownloader) : InvoiceDownloader :=
  let pendingCount := getSelectedByStatus "pending" (dataManager app) in
  let failedCount := getSelectedByStatus "failed" (dataManager app) in
  setDownloadDisabled (Nat.eqb pendingCount 0 && Nat.eqb failedCount 0) app.

Definition updateDisplay (app : InvoiceDownloader) : InvoiceDownloader :=
  updateSelectionCount app.

Definition showProgress (app : InvoiceDownloader) : InvoiceDownloader :=
  setDownloadDisabled true app.

Definition hideProgress (app : InvoiceDownloader) : InvoiceDownloader :=
  setDownloadDisabled false app.

(** [cancelDownload] of [InvoiceDownloader]. The abort of a pending fetch
    shows in how that download settles. *)
Definition cancelDownload (app : InvoiceDownloader) : InvoiceDownloader :=
  hideProgress (setIsDownloading false app).

(** The call [run] suspends with the given local variables. *)
Definition suspend (run : nat) (act : Activation) (app : InvoiceDownloader)
  : InvoiceDownloader :=
  {| dataManager := dataManager app;
     isDownloading := isDownloading app;
     downloadQueue := downloadQueue app;
     currentDownloadIndex := currentDownloadIndex app;
     downloadDisabled := downloadDisabled app;
     suspended := <[run := act]> (suspended app);
     runsStarted := runsStarted app;
     finished := finished app;
     statusUpdates := statusUpdates app |}.

(** What follows the loop: [hideProgress], the reset of [isDownloading] and
    the completion message. *)
Definition finishRun (run : nat) (c : Counts) (app : InvoiceDownloader)
  : InvoiceDownloader :=
  {| dataManager := dataManager app;
     isDownloading := false;
     downloadQueue := downloadQueue app;
     currentDownloadIndex := currentDownloadIndex app;
     downloadDisabled := false;
     suspended := delete run (suspended app);
     runsStarted := runsStarted app;
     finished := finished app ++ [(run, c)];
     statusUpdates := statusUpdates app |}.

(** The loop test for the value [i] of the loop variable, read from the
    fields as they are now, and what follows it up to the next [await]: the
    queue has an element at [i] exactly when [i < this.downloadQueue.length]. *)
Definition loopTest (run i : nat) (c : Counts) (app : InvoiceDownloader)
  : InvoiceDownloader :=
  match downloadQueue app !! i with
  | Some invoiceData =>
      if isDownloading app then
        suspend run (mkActivation i c (AwaitDownload invoiceData))
          (setCurrentDownloadIndex i app)
      else finishRun run c app
  | None => finishRun run c app
  end.

(** The rows that [startDirectDownload] puts in the queue. *)
Definition selectedRows (dm : InvoiceDataManager) : list RowData :=
  List.filter
    (fun data : RowData =>
       let status := getDownloadStatus dm (invoiceId data) in
       isSelected data && (String.eqb status "pending" || String.eqb status "failed"))
    (rowsOf dm (filteredRows dm)).

(** A call of [startDirectDownload], up to its first [await]. *)
Definition startDirectDownload (app : InvoiceDownloader) : InvoiceDownloader :=
  if isDownloading app then app
  else
    match selectedRows (dataManager app) with
    | [] => app
    | queue =>
        let run := runsStarted app in
        loopTest run 0 {| successCount := 0; failureCount := 0 |}
          (showProgress
             {| dataManager := dataManager app;
                isDownloading := true;
                downloadQueue := queue;
                currentDownloadIndex := 0%nat;
                downloadDisabled := downloadDisabled app;
                suspended := suspended app;
                runsStarted := S run;
                finished := finished app;
                statusUpdates := statusUpdates app |})
    end.

(** The body of the [try]/[catch] for one invoice. *)
Definition downloadOne (invoiceData : RowData) (outcome : Settlement)
    (dm : InvoiceDataManager) (c : Counts) : InvoiceDataManager * Counts :=
  match downloadPdfDirect invoiceData (fetchResult outcome) with
  | Normal _ =>
      (markAsDownloaded (invoiceId invoiceData) (now outcome) dm,
       {| successCount := S (successCount c); failureCount := failureCount c |})
  | Throw message =>
      (markAsFailed (invoiceId invoiceData) message (now outcome) dm,
       {| successCount := successCount c; failureCount := S (failureCount c) |})
  end.

(** The call [run] resumes after [downloadPdfDirect] has settled: the status
    update, [updateDisplay], and then the wait between downloads or the next
    loop test. *)
Definition downloadSettles (run : nat) (outcome : Settlement) (app : InvoiceDownloader)
  : InvoiceDownloader :=
  match suspended app !! run with
  | Some {| act_i := i; act_counts := c; act_await := AwaitDownload invoiceData |} =>
      let '(dm, c') := downloadOne invoiceData outcome (dataManager app) c in
      let app1 :=
        updateDisplay
          {| dataManager := dm;
             isDownloading := isDownloading app;
             downloadQueue := downloadQueue app;
             currentDownloadIndex := currentDownloadIndex app;
             downloadDisabled := downloadDisabled app;
             suspended := suspended app;
             runsStarted := runsStarted app;
             finished := finished app;
             statusUpdates :=
               statusUpdates app ++ [(run, terminalUpdate invoiceData outcome)] |} in
      if (i <? length (downloadQueue app1) - 1)%nat && isDownloading app1
      then suspend run (mkActivation i c' AwaitSleep) app1
      else loopTest run (S i) c' app1
  | _ => app
  end.

(** The call [run] resumes after the wait between downloads. *)
Definition sleepEnds (run : nat) (app : InvoiceDownloader) : InvoiceDownloader :=
  match suspended app !! run with
  | Some {| act_i := i; act_counts := c; act_await := AwaitSleep |} =>
      loopTest run (S i) c app
  | _ => app
  end.

(** What happens to the downloader, in order: a call of
    [startDirectDownload], a call of [cancelDownload], and the settling of the
    promise that a suspended call awaits. These are the handlers that write
    [isDownloading] and [downloadQueue]; the other handlers of the page
    (filters, selection, history) leave the two fields alone. *)
Inductive DownloaderEvent : Type :=
| StartClick
| CancelClick
| DownloadSettles (run : nat) (outcome : Settlement)
| SleepEnds (run : nat).

Definition downloaderStep (app : InvoiceDownloader) (event : DownloaderEvent)
  : InvoiceDownloader :=
  match event with
  | StartClick => startDirectDownload app
  | CancelClick => cancelDownload app
  | DownloadSettles run outcome => downloadSettles run outcome app
  | SleepEnds run => sleepEnds run app
  end.

Definition downloaderRun (events : list DownloaderEvent) (app : InvoiceDownloader)
  : InvoiceDownloader :=
  foldl downloaderStep app events.

(** A click on the download button: a disabled button has no click. *)
Definition clickDownload (app : InvoiceDownloader) : InvoiceDownloader :=
  if downloadDisabled app then app else startDirectDownload app.






(** A downloader over a manager holding [rows], with nothing in progress. *)
Definition appOf (rows : list RowData) : InvoiceDownloader :=
  {| dataManager := managerOf rows;
     isDownloading := false;
     downloadQueue := [];
     currentDownloadIndex := 0%nat;
     downloadDisabled := true;
     suspended := ∅;
     runsStarted := 0%nat;
     finished := [];
     statusUpdates := [] |}.

(** Every reference held by an array names a row. *)
Definition refsValid (dm : InvoiceDataManager) : Prop :=
  Forall (Forall (fun r : RowRef => (r < length (allRows dm))%nat)) (arrays dm).

(** No row has been parsed at an index that [allRows] has not reached. *)
Definition cacheFresh (dm : InvoiceDataManager) : Prop :=
  forall i, (length (allRows dm) <= i)%nat -> rowDataCache dm !! i = None.

(** ** Reading a filter key back

    A reader for the strings that [JSON_stringify] writes; it is used to state
    that the cache key determines the filter object. *)

Definition hexValue (c : ascii) : option N :=
  if isDigit c then Some (code c - 48)%N
  else if inRange 97 102 c then Some (code c - 87)%N
  else None.

(** The characters of a JSON string after its opening quote, up to the closing
    quote, and the text that follows the closing quote. *)
Fixpoint readJsonBody (s : string) : option (string * string) :=
  match s with
  | EmptyString => None
  | String c r =>
      if Ascii.eqb c quoteChar then Some (EmptyString, r)
      else if Ascii.eqb c backslashChar then
        match r with
        | EmptyString => None
        | String e r1 =>
            let continue (d : ascii) :=
              match readJsonBody r1 with
              | Some (body, rest) => Some (String d body, rest)
              | None => None
              end in
            if Ascii.eqb e quoteChar then continue quoteChar
            else if Ascii.eqb e backslashChar then continue backslashChar
            else if Ascii.eqb e "b" then continue (ascii_of_nat 8)
            else if Ascii.eqb e "t" then continue (ascii_of_nat 9)
            else if Ascii.eqb e "n" then continue (ascii_of_nat 10)
            else if Ascii.eqb e "f" then continue (ascii_of_nat 12)
            else if Ascii.eqb e "r" then continue (ascii_of_nat 13)
            else if Ascii.eqb e "u" then
              match r1 with
              | String h1 (String h2 (String h3 (String h4 r2))) =>
                  match hexValue h1, hexValue h2, hexValue h3, hexValue h4 with
                  | Some 0%N, Some 0%N, Some a, Some b =>
                      match readJsonBody r2 with
                      | Some (body, rest) =>
                          Some (String (ascii_of_N (16 * a + b)) body, rest)
                      | None => None
                      end
                  | _, _, _, _ => None
                  end
              | _ => None
              end
            else None
        end
      else
        match readJsonBody r with
        | Some (body, rest) => Some (String c body, rest)
        | None => None
        end
  end.

Definition readJsonString (s : string) : option (string * string) :=
  match s with
  | String c r => if Ascii.eqb c quoteChar then readJsonBody r else None
  | EmptyString => None
  end.

(** One character that must come next. *)
Definition expectChar (c : ascii) (s : string) : option string :=
  match s with
  | String d r => if Ascii.eqb c d then Some r else None
  | EmptyString => None
  end.

(** [name : value] with two JSON strings. *)
Definition readJsonProperty (s : string) : option (string * string * string) :=
  '(name, s1) ← readJsonString s;
  s2 ← expectChar ":" s1;
  '(value, s3) ← readJsonString s2;
  Some (name, value, s3).

Definition readFilterKey (s : string) : option FilterSpec :=
  s0 ← expectChar "{" s;
  '(n1, v1, s1) ← readJsonProperty s0;
  s1' ← expectChar "," s1;
  '(n2, v2, s2) ← readJsonProperty s1';
  s2' ← expectChar "," s2;
  '(n3, v3, s3) ← readJsonProperty s2';
  s3' ← expectChar "," s3;
  '(n4, v4, s4) ← readJsonProperty s3';
  s4' ← expectChar "}" s4;
  if String.eqb n1 "marketplace" && String.eqb n2 "dateFrom"
     && String.eqb n3 "dateTo" && String.eqb n4 "status"
     && String.eqb s4' EmptyString
  then Some (mkFilterSpec v1 v2 v3 v4)
  else None.

(** Every cache entry under the key of a filter object holds the array that
    filtering with that object gives now. *)
Definition cacheCoherent (dm : InvoiceDataManager) : Prop :=
  forall (filters : FilterSpec) (r : ArrayRef),
    (JSON_stringify filters, r) ∈ filterCache dm ->
    arrays dm !! r = Some (filterRefs (passesFilters filters dm) (allRows dm) 0%nat).

(** The filter object with another marketplace text. *)
Definition withMarketplace (text : string) (filters : FilterSpec) : FilterSpec :=
  mkFilterSpec text (f_dateFrom filters) (f_dateTo filters) (f_status filters).

(** [1] for a true flag, [0] for a false one. *)
Definition flag (b : bool) : nat := if b then 1%nat else 0%nat.

(** The assignment of [selectByStatus] to one row. *)
Definition selectIfStatus (dm : InvoiceDataManager) (status : string) (selected : bool)
    (data : RowData) : RowData :=
  if String.eqb (getDownloadStatus dm (invoiceId data)) status
  then setSelected selected data
  else data.

(** The rows of the current view whose derived status is [status]. *)
Definition viewRowsWithStatus (dm : InvoiceDataManager) (status : string) : list RowData :=
  List.filter (fun data : RowData => String.eqb (getDownloadStatus dm (invoiceId data)) status)
    (rowsOf dm (filteredRows dm)).

(** ** File names *)

(** The class [[a-zA-Z0-9-]]. *)
Definition isFilenameChar (c : ascii) : bool :=
  isLower c || isUpper c || isDigit c || Ascii.eqb c "-".

(** [invoiceId.replace(/[^a-zA-Z0-9-]/g, '_')] *)
Fixpoint replaceUnsafeChars (s : string) : string :=
  match s with
  | EmptyString => EmptyString
  | String c r =>
      String (if isFilenameChar c then c else "_"%char) (replaceUnsafeChars r)
  end.

(** The template literal [`${date}_${id}_${marketplace}.pdf`]. *)
Definition filenameOf (date id marketplace : string) : string :=
  String.concat EmptyString [date; "_"; id; "_"; marketplace; ".pdf"]%string.

(** [x || fallback] for a string [x]. *)
Definition orString (x fallback : string) : string :=
  if truthy x then x else fallback.

(** [generateFilename] of [DirectDownloadManager]. *)
Definition generateFilename (invoiceData : RowData) : string :=
  let date := if truthy (endDate invoiceData)
              then beforeFirst "T" (endDate invoiceData)
              else "unknown-date"%string in
  let cleanInvoiceId := replaceUnsafeChars (invoiceId invoiceData) in
  let cleanMarketplace := orString (marketplace invoiceData) "unknown" in
  filenameOf date cleanInvoiceId cleanMarketplace.

(** The [expect_download] message of the first script and the
    [currentDownloadInfo] that the background script keeps of it. *)
Record DownloadInfo : Type := mkDownloadInfo {
  info_invoiceId : string;
  info_documentVersionId : string;
  info_endDate : string;
  info_marketplace : string
}.

(** [generateFilename] of the background script. *)
Definition background_generateFilename (info : DownloadInfo) : string :=
  let date := orString (info_endDate info) "unknown-date" in
  let invoiceId := replaceUnsafeChars (info_invoiceId info) in
  let marketplace := orString (info_marketplace info) "unknown" in
  filenameOf date invoiceId marketplace.

(** The message that [startBulkDownload] of the first script sends for a row
    with a view button, from the row's [dataset]. *)
Definition expectDownloadMessage (dataset : string * string * string)
    (button : Button) (cells : list string) : DownloadInfo :=
  let '(invoiceId, _, endDate) := dataset in
  {| info_invoiceId := invoiceId;
     info_documentVersionId := button_value button;
     info_endDate := endDate;
     info_marketplace := extractMarketplace cells |}.

(** Some character class of the pattern accepts [c]. *)
Fixpoint acceptsChar (c : ascii) (r : regex) : bool :=
  match r with
  | RNone | REps => false
  | RClass p => p c
  | RSeq r1 r2 | RAlt r1 r2 => acceptsChar c r1 || acceptsChar c r2
  | RStar r1 => acceptsChar c r1
  end.

(** Every character of the string satisfies [p]. *)
Fixpoint allChars (p : ascii -> bool) (s : string) : bool :=
  match s with
  | EmptyString => true
  | String c r => p c && allChars p r
  end.

(** The cells of a table row as the first script sees them: [enhanceTable]
    puts a checkbox cell (without text) in front of the cells of the page and
    a status cell behind them. *)
Definition content_cells (cells : list string) (statusText : string) : list string :=
  EmptyString :: cells ++ [statusText].

(** A status text is plain when the extractors take it for nothing: it is no
    invoice number, no date and no marketplace. *)
Definition plainStatus (statusText : string) : Prop :=
  matchesWhole invoiceIdPattern (trim statusText) = false
  /\ matchesPrefix datePattern (trim statusText) = false
  /\ startsWith (trim statusText) "Amazon." = false.

(** ** The background script ([background.js]) *)

(** A [chrome.tabs.Tab], as far as the script reads it. [openerTabId] and
    [url] may be [undefined]. *)
Record Tab : Type := mkTab {
  tab_id : Z;
  tab_openerTabId : option Z;
  tab_url : option string
}.

(** A call of [chrome.downloads.download]. *)
Record Download : Type := mkDownload {
  download_url : option string;
  download_filename : string
}.

(** The three variables of the script, the tabs whose delayed look-up
    (scheduled by the [onCreated] listener) has not run yet, and the calls of
    [chrome.downloads.download] made so far. *)
Record Background : Type := mkBackground {
  isMonitoring : bool;
  currentDownloadInfo : option DownloadInfo;
  monitoringTabId : option Z;
  pendingChecks : list Z;
  downloads : list Download
}.

Definition newBackground : Background :=
  {| isMonitoring := false;
     currentDownloadInfo := None;
     monitoringTabId := None;
     pendingChecks := [];
     downloads := [] |}.

(** What the browser delivers to the script: a message from the content
    script of a tab, a new tab, the answer of [chrome.tabs.get] to a delayed
    look-up ([None] when [chrome.runtime.lastError] is set), and a tab
    update with its [changeInfo.url]. *)
Inductive BackgroundEvent : Type :=
| OnMessage (action : string) (request : DownloadInfo) (senderTabId : Z)
| OnCreated (tab : Tab)
| OnTabChecked (tabId : Z) (updatedTab : option Tab)
| OnUpdated (changeUrl : option string) (tab : Tab).

(** [handlePdfTab]; closing the tab afterwards is left out. *)
Definition handlePdfTab (tab : Tab) (bg : Background) : Background :=
  match currentDownloadInfo bg with
  | None => bg
  | Some info =>
      let filename := background_generateFilename info in
      {| isMonitoring := false;
         currentDownloadInfo := None;
         monitoringTabId := monitoringTabId bg;
         pendingChecks := pendingChecks bg;
         downloads :=
           downloads bg ++ [mkDownload (tab_url tab) ("amazon_invoices/" ++ filename)] |}
  end.

(** [a === b] for a tab id that may be [undefined] and one that may be
    [null]. *)
Definition sameTabId (a b : option Z) : bool :=
  match a, b with
  | Some x, Some y => x =? y
  | _, _ => false
  end.

(** Removes the first occurrence of a tab id. *)
Fixpoint removeFirst (x : Z) (l : list Z) : list Z :=
  match l with
  | [] => []
  | y :: rest => if x =? y then rest else y :: removeFirst x rest
  end.

Definition isTabPending (x : Z) (l : list Z) : bool := existsb (Z.eqb x) l.

(** The listeners. *)
Definition background_step (bg : Background) (event : BackgroundEvent) : Background :=
  match event with
  | OnMessage action request senderTabId =>
      if String.eqb action "expect_download" then
        {| isMonitoring := true;
           currentDownloadInfo := Some request;
           monitoringTabId := Some senderTabId;
           pendingChecks := pendingChecks bg;
           downloads := downloads bg |}
      else bg
  | OnCreated tab =>
      if isMonitoring bg && sameTabId (tab_openerTabId tab) (monitoringTabId bg) then
        {| isMonitoring := isMonitoring bg;
           currentDownloadInfo := currentDownloadInfo bg;
           monitoringTabId := monitoringTabId bg;
           pendingChecks := pendingChecks bg ++ [tab_id tab];
           downloads := downloads bg |}
      else bg
  | OnTabChecked tabId updatedTab =>
      if isTabPending tabId (pendingChecks bg) then
        let bg1 := {| isMonitoring := isMonitoring bg;
                      currentDownloadInfo := currentDownloadInfo bg;
                      monitoringTabId := monitoringTabId bg;
                      pendingChecks := removeFirst tabId (pendingChecks bg);
                      downloads := downloads bg |} in
        match updatedTab with
        | None => bg1
        | Some updated =>
            match tab_url updated with
            | Some url =>
                if truthy url && (includes url ".pdf" || startsWith url "blob:")
                then handlePdfTab updated bg1
                else bg1
            | None => bg1
            end
        end
      else bg
  | OnUpdated changeUrl tab =>
      match changeUrl with
      | None => bg
      | Some url =>
          if negb (isMonitoring bg) || negb (truthy url) then bg
          else if includes url ".pdf" || startsWith url "blob:"
                  || includes url "document/download"
          then handlePdfTab tab bg
          else bg
      end
  end.

Definition background_run (events : list BackgroundEvent) : Background :=
  foldl background_step newBackground events.

(** An [expect_download] message. *)
Definition isExpectDownload (event : BackgroundEvent) : bool :=
  match event with
  | OnMessage action _ _ => String.eqb action "expect_download"
  | _ => false
  end.

(** The tab whose URL an event hands to [handlePdfTab], if any. *)
Definition eventTabUrl (event : BackgroundEvent) : option string :=
  match event with
  | OnTabChecked _ (Some updated) => tab_url updated
  | OnUpdated _ tab => tab_url tab
  | _ => None
  end.

(** ** Filtering and the download loop of the first script ([content.js]) *)

(** A table row after [enhanceTable]: the text and the cells it had on the
    page, the text of the status cell added behind them, the [dataset] written
    by [enhanceTable] (invoice id, start date, end date), the View button, and
    the state of [style.display] and of the checkbox added in front. *)
Record ContentRow : Type := mkContentRow {
  crow_pageText : string;
  crow_pageCells : list string;
  crow_statusText : string;
  crow_dataset : string * string * string;
  crow_viewButton : option Button;
  crow_hidden : bool;
  crow_checked : bool
}.

(** [row.textContent]: the checkbox cell holds no text. *)
Definition crow_textContent (row : ContentRow) : string :=
  crow_pageText row ++ crow_statusText row.

(** [row.querySelectorAll('td')]. *)
Definition crow_cells (row : ContentRow) : list string :=
  content_cells (crow_pageCells row) (crow_statusText row).

(** The value of [show] at the end of the callback of [filterRows]. *)
Definition content_rowShown (marketplaceValue dateFrom dateTo : string)
    (row : ContentRow) : bool :=
  let marketplaceFilter := toLowerCase marketplaceValue in
  let '(_, startDate, endDate) := crow_dataset row in
  let show := true in
  let show :=
    if truthy marketplaceFilter
       && negb (includes (toLowerCase (crow_textContent row)) marketplaceFilter)
    then false else show in
  let show :=
    if truthy dateFrom && truthy endDate && strLt endDate dateFrom
    then false else show in
  let show :=
    if truthy dateTo && truthy startDate && strGt startDate dateTo
    then false else show in
  show.

Definition setHidden (hidden : bool) (row : ContentRow) : ContentRow :=
  {| crow_pageText := crow_pageText row;
     crow_pageCells := crow_pageCells row;
     crow_statusText := crow_statusText row;
     crow_dataset := crow_dataset row;
     crow_viewButton := crow_viewButton row;
     crow_hidden := hidden;
     crow_checked := crow_checked row |}.

(** [filterRows] for the values of the three filter inputs. *)
Definition filterRows (marketplaceValue dateFrom dateTo : string)
    (rows : list ContentRow) : list ContentRow :=
  map (fun row =>
         setHidden (negb (content_rowShown marketplaceValue dateFrom dateTo row)) row)
      rows.

(** The state of the first script: its two variables, the table rows, the
    array last written to [chrome.storage.local], and the messages sent to
    the background script so far. [downloadedInvoices] is a [Set], kept in
    insertion order. *)
Record ContentScript : Type := mkContentScript {
  content_isDownloading : bool;
  content_downloadedInvoices : list string;
  content_rows : list ContentRow;
  content_stored : option (list string);
  content_sent : list DownloadInfo
}.

(** [set.add(x)]. *)
Definition Set_add (x : string) (set : list string) : list string :=
  if bool_decide (x ∈ set) then set else set ++ [x].

(** The positions of the elements that satisfy [p], in order; [i] is the
    position of the head. *)
Fixpoint positionsFrom {A : Type} (p : A -> bool) (l : list A) (i : nat) : list nat :=
  match l with
  | [] => []
  | x :: rest => if p x then i :: positionsFrom p rest (S i) else positionsFrom p rest (S i)
  end.

(** The rows of the checked checkboxes that are not hidden. *)
Definition selectedCheckboxes (rows : list ContentRow) : list nat :=
  positionsFrom (fun row => crow_checked row && negb (crow_hidden row)) rows 0.

(** The [expect_download] message for a row, if it has a View button. *)
Definition content_messageOf (row : ContentRow) : option DownloadInfo :=
  match crow_viewButton row with
  | Some viewButton =>
      Some (expectDownloadMessage (crow_dataset row) viewButton (crow_cells row))
  | None => None
  end.

(** What an iteration of the loop of [startBulkDownload] leaves of its row;
    [downloadedText] is the text of the status shown for a downloaded
    invoice. *)
Definition content_processedRow (downloadedText : string) (row : ContentRow)
  : ContentRow :=
  {| crow_pageText := crow_pageText row;
     crow_pageCells := crow_pageCells row;
     crow_statusText :=
       match crow_viewButton row with
       | Some _ => downloadedText
       | None => crow_statusText row
       end;
     crow_dataset := crow_dataset row;
     crow_viewButton := crow_viewButton row;
     crow_hidden := crow_hidden row;
     crow_checked := false |}.

(** One iteration for the row at position [position]; the message, and
    [saveDownloadedInvoice] after the wait. *)
Definition content_processRow (downloadedText : string) (position : nat)
    (cs : ContentScript) : ContentScript :=
  match content_rows cs !! position with
  | None => cs
  | Some row =>
      let rows := <[position := content_processedRow downloadedText row]> (content_rows cs) in
      match content_messageOf row with
      | Some message =>
          let set := Set_add (info_invoiceId message) (content_downloadedInvoices cs) in
          {| content_isDownloading := content_isDownloading cs;
             content_downloadedInvoices := set;
             content_rows := rows;
             content_stored := Some set;
             content_sent := content_sent cs ++ [message] |}
      | None =>
          {| content_isDownloading := content_isDownloading cs;
             content_downloadedInvoices := content_downloadedInvoices cs;
             content_rows := rows;
             content_stored := content_stored cs;
             content_sent := content_sent cs |}
      end
  end.

Definition content_hasButton (cs : ContentScript) (position : nat) : bool :=
  match content_rows cs !! position with
  | Some row => bool_decide (is_Some (crow_viewButton row))
  | None => false
  end.

(** The [for] loop of [startBulkDownload] from iteration [i] on, [selected]
    being the rest of [selectedCheckboxes]. [cancelAt i] tells whether the
    Cancel button is clicked during the wait of iteration [i] (an iteration
    for a row without a button does not wait). The result holds the final
    values of [current] and [cancelled]. *)
Fixpoint content_loop (downloadedText : string) (cancelAt : nat -> bool)
    (selected : list nat) (i : nat) (current : nat) (cs : ContentScript)
  : ContentScript * nat * bool :=
  match selected with
  | [] => (cs, current, false)
  | position :: rest =>
      let cancelled := content_hasButton cs position && cancelAt i in
      let cs1 := content_processRow downloadedText position cs in
      if cancelled then (cs1, S i, true)
      else content_loop downloadedText cancelAt rest (S i) (S i) cs1
  end.

(** [startBulkDownload]: [None] when it returns at once, otherwise the
    values of [current], [total] and [cancelled] that its last message
    shows. *)
Definition startBulkDownload (downloadedText : string) (cancelAt : nat -> bool)
    (cs : ContentScript) : ContentScript * option (nat * nat * bool) :=
  if content_isDownloading cs then (cs, None)
  else
    let selected := selectedCheckboxes (content_rows cs) in
    if (length selected =? 0)%nat then (cs, None)
    else
      let total := length selected in
      let '(cs1, current, cancelled) :=
        content_loop downloadedText cancelAt selected 0 0
          {| content_isDownloading := true;
             content_downloadedInvoices := content_downloadedInvoices cs;
             content_rows := content_rows cs;
             content_stored := content_stored cs;
             content_sent := content_sent cs |} in
      ({| content_isDownloading := false;
          content_downloadedInvoices := content_downloadedInvoices cs1;
          content_rows := content_rows cs1;
          content_stored := content_stored cs1;
          content_sent := content_sent cs1 |},
       Some (current, total, cancelled)).

(** The message that the loop sends for the row at a position. *)
Definition messageAt (rows : list ContentRow) (position : nat) : option DownloadInfo :=
  rows !! position ≫= content_messageOf.

(** ** The request of [getPdfUrlFromAmazon] *)

Definition upperHexDigit (n : N) : ascii :=
  if (n <? 10)%N then ascii_of_N (48 + n) else ascii_of_N (55 + n).

(** [%XX] for one octet. *)
Definition percentByte (n : N) : string :=
  String "%" (str2 (upperHexDigit (n / 16)) (upperHexDigit (n mod 16))).

(** The characters that [encodeURIComponent] leaves as they are. *)
Definition isUriUnreserved (c : ascii) : bool :=
  isUpper c || isLower c || isDigit c
  || existsb (Ascii.eqb c) ["-"; "_"; "."; "!"; "~"; "*"; "'"; "("; ")"]%char.

(** [encodeURIComponent] on one code unit below 256: the octets of its
    UTF-8 form, one for a code unit below 128 and two otherwise. *)
Definition encodeURIChar (c : ascii) : string :=
  if isUriUnreserved c then str1 c
  else if (code c <? 128)%N then percentByte (code c)
  else (percentByte (192 + code c / 64) ++ percentByte (128 + code c mod 64))%string.

Fixpoint encodeURIComponent (s : string) : string :=
  match s with
  | EmptyString => EmptyString
  | String c r => (encodeURIChar c ++ encodeURIComponent r)%string
  end.

(** The test that chooses the fields of a CtrlP invoice:
    [rarId && shedDocumentName && rarId !== 'null' && shedDocumentName !== 'null']. *)
Definition usesShedFields (buttonData : JSObject) : bool :=
  let rarId := orEmpty (getProp buttonData "rarId") in
  let shedDocumentName := orEmpty (getProp buttonData "shedDocumentName") in
  truthy rarId && truthy shedDocumentName
  && negb (String.eqb rarId "null") && negb (String.eqb shedDocumentName "null").

(** The object [value] that [getPdfUrlFromAmazon] sends, its properties in
    the order of their creation. *)
Definition requestPayload (documentVersionId : string) (buttonData : JSObject)
  : list (string * string) :=
  let field (name : string) := encodeURIComponent (orEmpty (getProp buttonData name)) in
  let value :=
    [("fileType", field "fileType");
     ("vatInvoiceNumber", field "invoice");
     ("endDate", field "endDate");
     ("payeeRegistrationNumber", field "payeeRegistrationNumber");
     ("filterName", field "filterName")]%string in
  if usesShedFields buttonData then
    value ++ [("rarId", field "rarId"); ("shedDocumentName", field "shedDocumentName")]%string
  else
    value ++ [("documentVersionId", encodeURIComponent documentVersionId)]%string.

(** ** [FilterManager] *)

(** The property names with which [updateFilter] is called. *)
Inductive FilterType : Type :=
| FilterMarketplace
| FilterDateFrom
| FilterDateTo
| FilterStatus.

(** [filters[filterType] = value]. *)
Definition setFilter (filterType : FilterType) (value : string) (filters : FilterSpec)
  : FilterSpec :=
  match filterType with
  | FilterMarketplace =>
      mkFilterSpec value (f_dateFrom filters) (f_dateTo filters) (f_status filters)
  | FilterDateFrom =>
      mkFilterSpec (f_marketplace filters) value (f_dateTo filters) (f_status filters)
  | FilterDateTo =>
      mkFilterSpec (f_marketplace filters) (f_dateFrom filters) value (f_status filters)
  | FilterStatus =>
      mkFilterSpec (f_marketplace filters) (f_dateFrom filters) (f_dateTo filters) value
  end.

Definition emptyFilters : FilterSpec :=
  mkFilterSpec EmptyString EmptyString EmptyString EmptyString.

(** The object with its data manager; [pendingTimers] are the timers that it
    has set and that have neither run nor been cleared, [timersSet] the number
    of timers set so far (the next timer id), and [updateCalls] the number of
    calls of [updateCallback]. *)
Record FilterManager : Type := mkFilterManager {
  fm_dataManager : InvoiceDataManager;
  currentFilters : FilterSpec;
  debounceTimer : option nat;
  pendingTimers : list nat;
  timersSet : nat;
  updateCalls : nat
}.

Definition newFilterManager (dm : InvoiceDataManager) : FilterManager :=
  {| fm_dataManager := dm;
     currentFilters := emptyFilters;
     debounceTimer := None;
     pendingTimers := [];
     timersSet := 0%nat;
     updateCalls := 0%nat |}.

(** [clearTimeout]: nothing happens for [null] or a timer that is not
    pending. *)
Definition clearTimeout (timer : option nat) (pending : list nat) : list nat :=
  match timer with
  | None => pending
  | Some id => List.filter (fun other => negb (Nat.eqb other id)) pending
  end.

Definition updateFilter (filterType : FilterType) (value : string) (fm : FilterManager)
  : FilterManager :=
  let id := timersSet fm in
  {| fm_dataManager := fm_dataManager fm;
     currentFilters := setFilter filterType value (currentFilters fm);
     debounceTimer := Some id;
     pendingTimers := clearTimeout (debounceTimer fm) (pendingTimers fm) ++ [id];
     timersSet := S id;
     updateCalls := updateCalls fm |}.

(** [applyFilters] of [FilterManager]. *)
Definition FilterManager_applyFilters (fm : FilterManager) : FilterManager :=
  {| fm_dataManager := fst (applyFilters (currentFilters fm) (fm_dataManager fm));
     currentFilters := currentFilters fm;
     debounceTimer := debounceTimer fm;
     pendingTimers := pendingTimers fm;
     timersSet := timersSet fm;
     updateCalls := S (updateCalls fm) |}.

Definition clearFilters (fm : FilterManager) : FilterManager :=
  FilterManager_applyFilters
    {| fm_dataManager := fm_dataManager fm;
       currentFilters := emptyFilters;
       debounceTimer := debounceTimer fm;
       pendingTimers := pendingTimers fm;
       timersSet := timersSet fm;
       updateCalls := updateCalls fm |}.

(** A pending timer runs its callback. *)
Definition timerFires (id : nat) (fm : FilterManager) : FilterManager :=
  if existsb (Nat.eqb id) (pendingTimers fm) then
    FilterManager_applyFilters
      {| fm_dataManager := fm_dataManager fm;
         currentFilters := currentFilters fm;
         debounceTimer := debounceTimer fm;
         pendingTimers := clearTimeout (Some id) (pendingTimers fm);
         timersSet := timersSet fm;
         updateCalls := updateCalls fm |}
  else fm.

(** What happens to the filter inputs, in order. *)
Inductive FilterEvent : Type :=
| UpdateFilter (filterType : FilterType) (value : string)
| ClearFilters
| TimerFires (id : nat).

Definition filterStep (fm : FilterManager) (event : FilterEvent) : FilterManager :=
  match event with
  | UpdateFilter filterType value => updateFilter filterType value fm
  | ClearFilters => clearFilters fm
  | TimerFires id => timerFires id fm
  end.

Definition filterRun (events : list FilterEvent) (fm : FilterManager) : FilterManager :=
  foldl filterStep fm events.

(** A call of [updateFilter] or [clearFilters]. *)
Definition isFilterCall (event : FilterEvent) : bool :=
  match event with
  | TimerFires _ => false
  | _ => true
  end.

Definition setChecked (checked : bool) (row : ContentRow) : ContentRow :=
  {| crow_pageText := crow_pageText row;
     crow_pageCells := crow_pageCells row;
     crow_statusText := crow_statusText row;
     crow_dataset := crow_dataset row;
     crow_viewButton := crow_viewButton row;
     crow_hidden := crow_hidden row;
     crow_checked := checked |}.

(** [toggleAllVisible] of the first script. *)
Definition toggleAllVisible (checked : bool) (rows : list ContentRow) : list ContentRow :=
  map (fun row => if negb (crow_hidden row) then setChecked checked row else row) rows.

(** The count that [updateSelectedCount] of the first script displays. *)
Definition updateSelectedCount (rows : list ContentRow) : nat :=
  length (List.filter (fun row => negb (crow_hidden row))
            (List.filter crow_checked rows)).

(** * Properties *)

(** ** The insertion-ordered map *)

Section OrderedMapFacts.
Context {V : Type}.
Implicit Types (m : list (string * V)) (k : string) (v : V).

Lemma Map_get_set_same k v m : Map_get k (Map_set k v m) = Some v.
Proof.
  induction m as [|[k' v'] r IH]; simpl.
  - now rewrite String.eqb_refl.
  - destruct (String.eqb k' k) eqn:E; simpl; rewrite E; auto.
Qed.

Lemma Map_has_get k m :
  Map_has k m = true -> exists v, Map_get k m = Some v.
Proof.
  unfold Map_has. destruct (Map_get k m) as [v|]; [eauto | discriminate].
Qed.

Lemma Map_set_length_le k v m : (length (Map_set k v m) <= S (length m))%nat.
Proof.
  induction m as [|[k' v'] r IH]; simpl; [lia|].
  destruct (String.eqb k' k); simpl; lia.
Qed.

Lemma Map_set_length_fresh k v m :
  Map_get k m = None -> length (Map_set k v m) = S (length m).
Proof.
  induction m as [|[k' v'] r IH]; simpl; [reflexivity|].
  destruct (String.eqb k' k); [discriminate|].
  intros H. simpl. now rewrite IH.
Qed.

Lemma Map_deleteFirstKey_length m :
  length (Map_deleteFirstKey m) = Nat.pred (length m).
Proof.
  destruct m as [|[k v] r]; simpl; [reflexivity|].
  now rewrite String.eqb_refl.
Qed.
End OrderedMapFacts.

(** ** Filter cache size *)

Lemma applyFilters_cache_length filters dm :
  (length (filterCache (fst (applyFilters filters dm)))
   <= Nat.max 51 (length (filterCache dm)))%nat.
Proof.
  unfold applyFilters.
  destruct (Map_has _ _); simpl; [lia|].
  destruct (Nat.ltb_spec 50 (length (filterCache dm))) as [Hgt|Hle].
  - etransitivity; [apply Map_set_length_le|].
    rewrite Map_deleteFirstKey_length. lia.
  - etransitivity; [apply Map_set_length_le|]. lia.
Qed.

(** The bound that the eviction test [size > 50] maintains is 51 entries. *)
Lemma filterCache_at_most_51 (specs : list FilterSpec) (dm : InvoiceDataManager) :
  (length (filterCache dm) <= 51)%nat ->
  (length (filterCache (applyFiltersAll specs dm)) <= 51)%nat.
Proof.
  revert dm. induction specs as [|spec specs IH]; intros dm Hdm; simpl; [exact Hdm|].
  apply IH.
  pose proof (applyFilters_cache_length spec dm). lia.
Qed.

(** C1. After [applyFilters] has been called with 51 pairwise different filter
    objects on a new manager, the memoization cache holds 51 entries: the test
    [filterCache.size > 50] runs before the insertion, so the 51st result is
    stored without an eviction. The cache is not capped at 50 entries. *)
Theorem filterCache_reaches_51 :
  length (filterCache (applyFiltersAll (distinctSpecs 51) newInvoiceDataManager)) = 51%nat
  /\ Map_has (JSON_stringify (mkFilterSpec EmptyString EmptyString EmptyString EmptyString))
       (filterCache (applyFiltersAll (distinctSpecs 51) newInvoiceDataManager)) = true.
Proof. split; vm_compute; reflexivity. Qed.

(** Eviction removes the key inserted first: after 52 different filter objects
    the cache has 51 entries, the first key is gone and the second is kept. *)
Example oldest_key_evicted :
  let dm := applyFiltersAll (distinctSpecs 52) newInvoiceDataManager in
  length (filterCache dm) = 51%nat
  /\ Map_has (JSON_stringify (mkFilterSpec (letters 0) EmptyString EmptyString EmptyString))
       (filterCache dm) = false
  /\ Map_has (JSON_stringify (mkFilterSpec (letters 1) EmptyString EmptyString EmptyString))
       (filterCache dm) = true.
Proof. vm_compute. auto. Qed.

(** ** Row parser *)

Section RowParserFacts.
Context {host : DateHost}.

Lemma toISOString_valid (t : Z) : exists iso, toISOString (Some t) = Normal iso.
Proof.
  unfold toISOString.
  destruct (civilFromDays (t / msPerDay)) as [[y m] d]. eauto.
Qed.

Lemma isoDateOf_valid (text : string) :
  newDate text <> None -> exists s, isoDateOf text = Normal s.
Proof.
  unfold isoDateOf. intros H.
  destruct (newDate text) as [t|]; [|congruence].
  destruct (toISOString_valid t) as [iso ->]. simpl. eauto.
Qed.

Lemma isoDateOf_invalid (text : string) :
  newDate text = None -> isoDateOf text = Throw "RangeError: Invalid time value".
Proof. unfold isoDateOf. now intros ->. Qed.

Lemma dateLikeCells_cons (cell : string) (rest : list string) :
  dateLikeCells (cell :: rest)
  = if matchesPrefix datePattern (trim cell)
    then trim cell :: dateLikeCells rest
    else dateLikeCells rest.
Proof. reflexivity. Qed.

(** [extractDate] returns the date of the [occurrence]-th date-like cell. *)
Lemma extractDateFrom_reads (cells : list string) (occurrence dateCount : nat) :
  (dateCount <= occurrence)%nat ->
  extractDateFrom cells occurrence dateCount = readDate cells (occurrence - dateCount).
Proof.
  revert dateCount. unfold readDate.
  induction cells as [|cell rest IH]; intros dateCount Hle; [reflexivity|].
  cbn [extractDateFrom]. rewrite dateLikeCells_cons.
  destruct (matchesPrefix datePattern (trim cell)); [|now apply IH].
  destruct (Nat.eqb_spec dateCount occurrence) as [->|Hne].
  - now rewrite Nat.sub_diag.
  - rewrite IH by lia.
    replace (occurrence - dateCount)%nat with (S (occurrence - S dateCount)) by lia.
    reflexivity.
Qed.

Lemma content_extractStartDate_reads (cells : list string) :
  content_extractStartDate cells = readDate cells 0.
Proof.
  unfold readDate. induction cells as [|cell rest IH]; [reflexivity|].
  cbn [content_extractStartDate]. rewrite dateLikeCells_cons.
  destruct (matchesPrefix datePattern (trim cell)); [reflexivity | exact IH].
Qed.

Lemma content_extractEndDateFrom_reads (cells : list string) (dateCount : nat) :
  (dateCount <= 1)%nat ->
  content_extractEndDateFrom cells dateCount = readDate cells (1 - dateCount).
Proof.
  revert dateCount. unfold readDate.
  induction cells as [|cell rest IH]; intros dateCount Hle; [reflexivity|].
  cbn [content_extractEndDateFrom]. rewrite dateLikeCells_cons.
  destruct (matchesPrefix datePattern (trim cell)); [|now apply IH].
  destruct dateCount as [|[|n]]; [|reflexivity|lia].
  cbn [Nat.eqb]. now rewrite IH by lia.
Qed.

Lemma readDate_normal_iff (cells : list string) (n : nat) :
  isNormal (readDate cells n) = true <->
  (forall text, dateLikeCells cells !! n = Some text -> newDate text <> None).
Proof.
  unfold readDate. destruct (dateLikeCells cells !! n) as [text|]; split.
  - intros H text' [= <-] Hnone. now rewrite (isoDateOf_invalid _ Hnone) in H.
  - intros H. destruct (isoDateOf_valid text (H text eq_refl)) as [s ->]. reflexivity.
  - intros _ text' [=].
  - reflexivity.
Qed.

Lemma datesReadValid_iff (cells : list string) :
  datesReadValid cells <->
  isNormal (readDate cells 0) = true /\ isNormal (readDate cells 1) = true.
Proof.
  unfold datesReadValid. rewrite !readDate_normal_iff, Forall_lookup.
  split.
  - intros H. split; intros text Ht.
    + apply (H 0%nat text). now rewrite lookup_take_lt by lia.
    + apply (H 1%nat text). now rewrite lookup_take_lt by lia.
  - intros [H0 H1] i text Ht.
    destruct (decide (i < 2)%nat) as [Hi|Hi].
    + rewrite lookup_take_lt in Ht by exact Hi.
      destruct i as [|[|i]]; [now apply H0 | now apply H1 | lia].
    + rewrite lookup_take_ge in Ht by lia. discriminate.
Qed.

Lemma readDate_no_date (cells : list string) (n : nat) :
  Forall (fun cell => matchesPrefix datePattern (trim cell) = false) cells ->
  readDate cells n = Normal EmptyString.
Proof.
  intros H. unfold readDate.
  replace (dateLikeCells cells) with (@nil string); [reflexivity|].
  induction H as [|cell rest Hcell _ IH]; [reflexivity|].
  rewrite dateLikeCells_cons, Hcell. exact IH.
Qed.

Lemma extractInvoiceId_no_match (cells : list string) :
  Forall (fun cell => matchesWhole invoiceIdPattern (trim cell) = false) cells ->
  extractInvoiceId cells = EmptyString.
Proof.
  induction 1 as [|cell rest Hcell _ IH]; simpl; [reflexivity|].
  now rewrite Hcell.
Qed.

Lemma extractMarketplace_no_match (cells : list string) :
  Forall (fun cell => startsWith (trim cell) "Amazon." = false) cells ->
  extractMarketplace cells = "unknown"%string.
Proof.
  induction 1 as [|cell rest Hcell _ IH]; simpl; [reflexivity|].
  now rewrite Hcell.
Qed.

Lemma buildRowData_fields (row : Row) (index : nat) (sd ed : string) :
  readDate (row_cells row) 0 = Normal sd ->
  readDate (row_cells row) 1 = Normal ed ->
  exists data,
    buildRowData row index = Normal data
    /\ invoiceId data = extractInvoiceId (row_cells row)
    /\ startDate data = sd /\ endDate data = ed
    /\ marketplace data = extractMarketplace (row_cells row).
Proof.
  intros Hsd Hed. unfold buildRowData, extractDate.
  rewrite !extractDateFrom_reads by lia. cbn [Nat.sub].
  rewrite Hsd. simpl. rewrite Hed. simpl.
  eexists. split; [reflexivity|]. simpl. auto.
Qed.

(** The parser raises exactly when one of the two dates it reads is invalid. *)
Lemma buildRowData_normal_iff (row : Row) (index : nat) :
  isNormal (buildRowData row index) = true <-> datesReadValid (row_cells row).
Proof.
  rewrite datesReadValid_iff. unfold buildRowData, extractDate.
  rewrite !extractDateFrom_reads by lia. cbn [Nat.sub].
  destruct (readDate (row_cells row) 0) as [sd|e0]; simpl;
    [|split; [discriminate | intros [? _]; discriminate]].
  destruct (readDate (row_cells row) 1) as [ed|e1]; simpl;
    [tauto | split; [discriminate | intros [_ ?]; discriminate]].
Qed.

(** Where the parser does return. For every row in which the dates that the
    parser reads, the first two cells whose trimmed text matches the date
    pattern, are valid dates for [new Date], the row parser returns a record,
    in the optimized script ([parseRowData]) and in the first script (the
    values of [enhanceTable]). The paths beside the date conversion all fall
    back: the invoice id is the empty string when no cell matches the invoice
    pattern, both dates are the empty string when no cell matches the date
    pattern, and the marketplace is [unknown] when no cell starts with the
    brand prefix. *)
Theorem RowParser_total_on_valid_dates
    (row : Row) (index : nat) (dm : InvoiceDataManager) :
  datesReadValid (row_cells row) ->
  (exists data,
      buildRowData row index = Normal data
      /\ (Forall (fun cell => matchesWhole invoiceIdPattern (trim cell) = false)
            (row_cells row) -> invoiceId data = EmptyString)
      /\ (Forall (fun cell => matchesPrefix datePattern (trim cell) = false)
            (row_cells row) ->
          startDate data = EmptyString /\ endDate data = EmptyString)
      /\ (Forall (fun cell => startsWith (trim cell) "Amazon." = false)
            (row_cells row) -> marketplace data = "unknown"%string))
  /\ isNormal (parseRowData row index dm) = true
  /\ isNormal (content_rowDataset row) = true.
Proof.
  intros Hvalid. apply datesReadValid_iff in Hvalid as [H0 H1].
  destruct (readDate (row_cells row) 0) as [sd|] eqn:Hsd; [|discriminate].
  destruct (readDate (row_cells row) 1) as [ed|] eqn:Hed; [|discriminate].
  destruct (buildRowData_fields row index sd ed Hsd Hed)
    as (data & Hdata & Hid & Hs & He & Hm).
  split; [|split].
  - exists data. split; [exact Hdata|]. repeat split.
    + intros H. rewrite Hid. now apply extractInvoiceId_no_match.
    + rewrite Hs. rewrite (readDate_no_date _ 0 H) in Hsd. congruence.
    + rewrite He. rewrite (readDate_no_date _ 1 H) in Hed. congruence.
    + intros H. rewrite Hm. now apply extractMarketplace_no_match.
  - unfold parseRowData.
    destruct (rowDataCache dm !! index); [reflexivity|].
    now rewrite Hdata.
  - unfold content_rowDataset, content_extractEndDate.
    rewrite content_extractStartDate_reads, content_extractEndDateFrom_reads by lia.
    cbn [Nat.sub]. rewrite Hsd, Hed. reflexivity.
Qed.
End RowParserFacts.

Lemma RowParser_total_on_valid_dates_witness :
  @datesReadValid refHost (row_cells exampleRow)
  /\ isNormal (@parseRowData refHost exampleRow 0 newInvoiceDataManager) = true.
Proof.
  assert (H : @datesReadValid refHost (row_cells exampleRow)).
  { repeat constructor; vm_compute; congruence. }
  split; [exact H|].
  exact (proj1 (proj2
    (@RowParser_total_on_valid_dates refHost exampleRow 0 newInvoiceDataManager H))).
Defined.

(** C2. The row parser is not total. A cell whose text matches the date
    pattern and is not a date makes [toISOString] raise a [RangeError], which
    neither script catches: [parseRowData] of the optimized script and the
    extraction of [enhanceTable] in the first script both end in the
    exception, where the claim promises an empty field. *)
Lemma RowParser_throws_on_invalid_date :
  @parseRowData refHost badDateRow 0 newInvoiceDataManager
  = Throw "RangeError: Invalid time value"
  /\ @content_rowDataset refHost badDateRow = Throw "RangeError: Invalid time value".
Proof. split; vm_compute; reflexivity. Qed.

(** The exception leaves [processChunk]: the rows after the bad one are not
    parsed. *)
Example processChunk_stops_at_invalid_date :
  @processChunk refHost [exampleRow; badDateRow; exampleRow] newInvoiceDataManager
  = Throw "RangeError: Invalid time value"
  /\ (dm ← @processChunk refHost [exampleRow; exampleRow] newInvoiceDataManager;
      mret (map index (allRows dm)))
     = Normal [0; 1]%nat.
Proof. split; vm_compute; reflexivity. Qed.

Example parse_exampleRow :
  (data ← @buildRowData refHost exampleRow 7;
   mret (invoiceId data, startDate data, endDate data, marketplace data,
         getProp (buttonData data) "invoice", getProp (buttonData data) "rarId"))
  = Normal ("GB-AEU-2025-0001", "2024-01-15", "2024-01-31", "de",
            JSString "GB-AEU-2025-0001", JSNull)%string.
Proof. vm_compute. reflexivity. Qed.

(** ** Status store *)

Lemma downloadedInvoices_markAsDownloaded id now dm :
  downloadedInvoices (markAsDownloaded id now dm) = {[id]} ∪ downloadedInvoices dm.
Proof. reflexivity. Qed.

Lemma downloadedInvoices_markAsFailed id err now dm :
  downloadedInvoices (markAsFailed id err now dm) = downloadedInvoices dm.
Proof. reflexivity. Qed.

Lemma getDownloadStatus_downloaded dm id :
  id ∈ downloadedInvoices dm -> getDownloadStatus dm id = "downloaded"%string.
Proof. intros H. unfold getDownloadStatus. now rewrite decide_True. Qed.

Lemma applyStatusOps_cons op ops dm :
  applyStatusOps (op :: ops) dm = applyStatusOps ops (applyStatusOp dm op).
Proof. reflexivity. Qed.

Lemma applyStatusOps_app ops1 ops2 dm :
  applyStatusOps (ops1 ++ ops2) dm = applyStatusOps ops2 (applyStatusOps ops1 dm).
Proof. unfold applyStatusOps. apply foldl_app. Qed.

(** No operation other than the history reset removes an id from the set of
    downloaded invoices. *)
Lemma downloadedInvoices_kept (ops : list StatusOp) (dm : InvoiceDataManager) (id : string) :
  ClearHistory ∉ ops ->
  id ∈ downloadedInvoices dm ->
  id ∈ downloadedInvoices (applyStatusOps ops dm).
Proof.
  revert dm. induction ops as [|op ops IH]; intros dm Hclear Hin; [exact Hin|].
  rewrite applyStatusOps_cons.
  apply not_elem_of_cons in Hclear as [Hop Hops].
  apply IH; [exact Hops|].
  destruct op as [id' now'|id' err' now'|]; cbn [applyStatusOp].
  - rewrite downloadedInvoices_markAsDownloaded. set_solver.
  - exact Hin.
  - congruence.
Qed.

(** C3. Once [recordSuccess] ([markAsDownloaded]) has been applied to an
    invoice id, [derive] ([getDownloadStatus]) of that id is [downloaded] after
    every later sequence of status-store operations that contains no history
    reset, however many failures the sequence records for the id. *)
Theorem success_is_sticky (dm : InvoiceDataManager) (invoiceId : string) (now : Z)
    (ops : list StatusOp) :
  ClearHistory ∉ ops ->
  getDownloadStatus (applyStatusOps ops (markAsDownloaded invoiceId now dm)) invoiceId
  = "downloaded"%string.
Proof.
  intros Hclear.
  apply getDownloadStatus_downloaded.
  apply downloadedInvoices_kept; [exact Hclear|].
  rewrite downloadedInvoices_markAsDownloaded.
  apply elem_of_union_l, elem_of_singleton. reflexivity.
Qed.

Lemma success_is_sticky_witness :
  (ClearHistory ∉ recordFailures "GB-AEU-2025-0001" [("e1", 1); ("e2", 2); ("e3", 3); ("e4", 4)]%string)
  /\ getDownloadStatus
       (applyStatusOps
          (recordFailures "GB-AEU-2025-0001" [("e1", 1); ("e2", 2); ("e3", 3); ("e4", 4)]%string)
          (markAsDownloaded "GB-AEU-2025-0001" 0 newInvoiceDataManager))
       "GB-AEU-2025-0001"
     = "downloaded"%string.
Proof.
  assert (H : ClearHistory ∉
            (recordFailures "GB-AEU-2025-0001" [("e1", 1); ("e2", 2); ("e3", 3); ("e4", 4)]%string)).
  { simpl. rewrite !not_elem_of_cons. repeat split; try discriminate. apply not_elem_of_nil. }
  split; [exact H|].
  exact (success_is_sticky newInvoiceDataManager "GB-AEU-2025-0001" 0 _ H).
Defined.

(** What [recordFailure] does to the entry of its id. *)
Lemma markAsFailed_entry id err now dm :
  downloadStatus (markAsFailed id err now dm) !! id
  = Some {| status := "failed"; timestamp := now;
            attempts := attemptsOr0 (downloadStatus dm !! id) + 1;
            error := Some err |}.
Proof. unfold markAsFailed. simpl. apply lookup_insert_eq. Qed.

Lemma recordFailures_attempts (id : string) (fs : list (string * Z))
    (dm : InvoiceDataManager) :
  attemptsOr0 (downloadStatus (applyStatusOps (recordFailures id fs) dm) !! id)
  = attemptsOr0 (downloadStatus dm !! id) + Z.of_nat (length fs)
  /\ downloadedInvoices (applyStatusOps (recordFailures id fs) dm) = downloadedInvoices dm
  /\ (fs <> [] ->
      status <$> downloadStatus (applyStatusOps (recordFailures id fs) dm) !! id
      = Some "failed"%string).
Proof.
  revert dm. induction fs as [|[err now] fs IH]; intros dm.
  - simpl. repeat split; [lia | congruence].
  - change (recordFailures id ((err, now) :: fs))
      with (RecordFailure id err now :: recordFailures id fs).
    rewrite applyStatusOps_cons. cbn [applyStatusOp].
    destruct (IH (markAsFailed id err now dm)) as (Ha & Hd & Hs).
    rewrite Ha, Hd, markAsFailed_entry, downloadedInvoices_markAsFailed.
    cbn [attemptsOr0 attempts].
    repeat split; [rewrite length_cons; lia|].
    intros _. destruct fs as [|f fs]; [|apply Hs; discriminate].
    cbn [recordFailures map applyStatusOps foldl]. now rewrite markAsFailed_entry.
Qed.

Lemma getDownloadStatus_not_downloaded dm id :
  id ∉ downloadedInvoices dm ->
  getDownloadStatus dm id
  = match downloadStatus dm !! id with
    | Some s =>
        if String.eqb (status s) "failed" && (RETRY_ATTEMPTS <=? attempts s)
        then "failed"%string else "pending"%string
    | None => "pending"%string
    end.
Proof. intros H. unfold getDownloadStatus. now rewrite decide_False. Qed.

(** C4. For an invoice id with no recorded success, [derive] is [failed]
    exactly when the entry of the id has state [failed] and at least
    [RETRY_ATTEMPTS] = 3 attempts, and [pending] otherwise. In particular,
    after [n] recorded failures of an id that had no entry it is [failed] when
    [3 <= n] and [pending] when [n < 3]. *)
Theorem retry_ceiling (dm : InvoiceDataManager) (invoiceId : string) :
  invoiceId ∉ downloadedInvoices dm ->
  (getDownloadStatus dm invoiceId = "failed"%string <->
   exists e, downloadStatus dm !! invoiceId = Some e
             /\ status e = "failed"%string /\ 3 <= attempts e)
  /\ (getDownloadStatus dm invoiceId <> "failed"%string ->
      getDownloadStatus dm invoiceId = "pending"%string)
  /\ (downloadStatus dm !! invoiceId = None ->
      forall fs : list (string * Z),
        getDownloadStatus (applyStatusOps (recordFailures invoiceId fs) dm) invoiceId
        = if (3 <=? length fs)%nat then "failed"%string else "pending"%string).
Proof.
  intros Hnot. split; [|split].
  - rewrite (getDownloadStatus_not_downloaded _ _ Hnot).
    destruct (downloadStatus dm !! invoiceId) as [e|]; split.
    + destruct (String.eqb (status e) "failed") eqn:Es; simpl; [|discriminate].
      destruct (Z.leb_spec RETRY_ATTEMPTS (attempts e)) as [Hle|]; [|discriminate].
      intros _. exists e. apply String.eqb_eq in Es. unfold RETRY_ATTEMPTS in Hle. auto.
    + intros (e' & He' & Hs & Ha). injection He' as <-.
      rewrite Hs. simpl.
      destruct (Z.leb_spec RETRY_ATTEMPTS (attempts e)) as [|Hlt]; [reflexivity|].
      unfold RETRY_ATTEMPTS in Hlt. lia.
    + discriminate.
    + intros (e' & He' & _). discriminate.
  - rewrite (getDownloadStatus_not_downloaded _ _ Hnot).
    destruct (downloadStatus dm !! invoiceId) as [e|]; [|reflexivity].
    destruct (String.eqb (status e) "failed" && (RETRY_ATTEMPTS <=? attempts e));
      [congruence | reflexivity].
  - intros Hnone fs.
    destruct (recordFailures_attempts invoiceId fs dm) as (Ha & Hd & Hs).
    rewrite getDownloadStatus_not_downloaded by (rewrite Hd; exact Hnot).
    rewrite Hnone in Ha. simpl in Ha.
    destruct fs as [|f fs]; [simpl; now rewrite Hnone|].
    specialize (Hs ltac:(discriminate)).
    destruct (downloadStatus (applyStatusOps (recordFailures invoiceId (f :: fs)) dm)
                !! invoiceId) as [e|]; [|discriminate].
    cbn [fmap option_fmap option_map attemptsOr0] in Hs, Ha.
    injection Hs as Hs. rewrite Hs, Ha. cbn [String.eqb Ascii.eqb Bool.eqb andb].
    unfold RETRY_ATTEMPTS.
    destruct (Z.leb_spec 3 (0 + Z.of_nat (length (f :: fs))));
      destruct (Nat.leb_spec 3 (length (f :: fs))); try reflexivity; lia.
Qed.

Lemma retry_ceiling_witness :
  ("GB-AEU-2025-0001"%string ∉ downloadedInvoices newInvoiceDataManager)
  /\ getDownloadStatus
       (applyStatusOps
          (recordFailures "GB-AEU-2025-0001" [("e1", 1); ("e2", 2); ("e3", 3)]%string)
          newInvoiceDataManager)
       "GB-AEU-2025-0001"
     = "failed"%string.
Proof.
  assert (H : "GB-AEU-2025-0001"%string ∉ downloadedInvoices newInvoiceDataManager).
  { simpl. apply not_elem_of_empty. }
  split; [exact H|].
  exact (proj2 (proj2 (retry_ceiling newInvoiceDataManager "GB-AEU-2025-0001" H))
           eq_refl [("e1", 1); ("e2", 2); ("e3", 3)]%string).
Defined.

Example two_failures_pending :
  getDownloadStatus
    (applyStatusOps (recordFailures "GB-AEU-2025-0001" [("e1", 1); ("e2", 2)]%string)
       newInvoiceDataManager)
    "GB-AEU-2025-0001"
  = "pending"%string.
Proof. vm_compute. reflexivity. Qed.

(** C9, as stated, fails: the empty invoice id is a key of the status store
    like any other, and one recorded success makes [derive] of it
    [downloaded]. *)
Lemma empty_invoiceId_not_always_pending :
  getDownloadStatus
    (applyStatusOps [RecordSuccess EmptyString 0] newInvoiceDataManager) EmptyString
  <> "pending"%string.
Proof. vm_compute. discriminate. Qed.

(** C9 (amended). Records whose invoice id is the empty string share one key
    of the status store: after every sequence of operations their derived
    statuses are equal; the derived status of the empty id is [pending] on a
    store with nothing recorded, and once a success has been recorded for the
    empty id it is [downloaded] after every later sequence without a history
    reset. *)
Theorem empty_invoiceId_shares_one_key (r1 r2 : RowData) (dm : InvoiceDataManager)
    (ops : list StatusOp) :
  invoiceId r1 = EmptyString ->
  invoiceId r2 = EmptyString ->
  getDownloadStatus (applyStatusOps ops dm) (invoiceId r1)
  = getDownloadStatus (applyStatusOps ops dm) (invoiceId r2)
  /\ getDownloadStatus newInvoiceDataManager (invoiceId r1) = "pending"%string
  /\ (forall now, ClearHistory ∉ ops ->
      getDownloadStatus
        (applyStatusOps ops (markAsDownloaded (invoiceId r1) now dm)) (invoiceId r2)
      = "downloaded"%string).
Proof.
  intros H1 H2. rewrite H1, H2. split; [reflexivity|]. split; [reflexivity|].
  intros now Hclear.
  apply getDownloadStatus_downloaded, downloadedInvoices_kept; [exact Hclear|].
  rewrite downloadedInvoices_markAsDownloaded. set_solver.
Qed.

Lemma empty_invoiceId_shares_one_key_witness :
  invoiceId (exampleData 0 EmptyString "2025-01-10" true) = EmptyString
  /\ invoiceId (exampleData 1 EmptyString "2025-06-01" false) = EmptyString
  /\ getDownloadStatus
       (applyStatusOps [RecordFailure EmptyString "e" 2]
          (markAsDownloaded
             (invoiceId (exampleData 0 EmptyString "2025-01-10" true)) 1
             newInvoiceDataManager))
       (invoiceId (exampleData 1 EmptyString "2025-06-01" false))
     = "downloaded"%string.
Proof.
  split; [reflexivity|]. split; [reflexivity|].
  refine (proj2 (proj2
    (empty_invoiceId_shares_one_key
       (exampleData 0 EmptyString "2025-01-10" true)
       (exampleData 1 EmptyString "2025-06-01" false)
       newInvoiceDataManager [RecordFailure EmptyString "e" 2] eq_refl eq_refl)) 1 _).
  rewrite not_elem_of_cons. split; [discriminate | apply not_elem_of_nil].
Defined.

(** ** Button metadata *)

(** C8, as stated, fails: an attribute that the button does not have is stored
    as [null], the result of [getAttribute], not as the empty string. *)
Lemma extractButtonData_absent_is_null :
  getProp (extractButtonData (Some (mkButton "doc-1" ∅))) "rarId" = JSNull
  /\ extractButtonData (Some (mkButton "doc-1" ∅)) !! "rarId"%string
     <> Some (JSString EmptyString).
Proof. split; vm_compute; [reflexivity | discriminate]. Qed.

(** C8 (amended). When the control element is present, metadata extraction
    builds an object with exactly the seven named properties, each holding the
    result of [getAttribute] for its attribute: the attribute's string, or
    [null] when the attribute is absent (never [undefined]); the consumer's
    [|| ''] turns that [null] into the empty string. When the control element
    is absent, extraction returns the empty object. *)
Theorem extractButtonData_reads_attributes (b : Button) :
  Forall (fun pa : string * string =>
            extractButtonData (Some b) !! fst pa = Some (getAttribute b (snd pa))
            /\ getProp (extractButtonData (Some b)) (fst pa) <> JSUndefined
            /\ (button_attributes b !! snd pa = None ->
                getProp (extractButtonData (Some b)) (fst pa) = JSNull
                /\ orEmpty (getProp (extractButtonData (Some b)) (fst pa)) = EmptyString))
    buttonDataFields
  /\ dom (extractButtonData (Some b)) = list_to_set (map fst buttonDataFields)
  /\ extractButtonData None = ∅.
Proof.
  split; [|split].
  - assert (Hnull : forall a, getAttribute b a <> JSUndefined).
    { intros a. unfold getAttribute. destruct (button_attributes b !! a); discriminate. }
    assert (Habs : forall a, button_attributes b !! a = None -> getAttribute b a = JSNull).
    { intros a Ha. unfold getAttribute. now rewrite Ha. }
    assert (Hone : forall p a,
               extractButtonData (Some b) !! p = Some (getAttribute b a) ->
               extractButtonData (Some b) !! p = Some (getAttribute b a)
               /\ getProp (extractButtonData (Some b)) p <> JSUndefined
               /\ (button_attributes b !! a = None ->
                   getProp (extractButtonData (Some b)) p = JSNull
                   /\ orEmpty (getProp (extractButtonData (Some b)) p) = EmptyString)).
    { intros p a Hl. unfold getProp. rewrite Hl. cbn [default].
      split; [reflexivity|]. split; [apply Hnull|].
      intros Ha. rewrite (Habs _ Ha). split; reflexivity. }
    unfold buttonDataFields.
    repeat (apply Forall_cons_2;
            [cbn [fst snd]; apply Hone; unfold extractButtonData; now simplify_map_eq|]).
    apply Forall_nil_2.
  - unfold extractButtonData, buttonDataFields. rewrite !dom_insert_L, dom_empty_L.
    cbn [map fst list_to_set]. set_solver.
  - reflexivity.
Qed.

Lemma extractButtonData_reads_attributes_witness :
  button_attributes (mkButton "doc-1" {["data-invoice" := "GB-AEU-2025-0001"]}%string)
    !! "data-rarid"%string = None
  /\ orEmpty (getProp
       (extractButtonData
          (Some (mkButton "doc-1" {["data-invoice" := "GB-AEU-2025-0001"]}%string)))
       "rarId") = EmptyString.
Proof.
  assert (H : button_attributes
                (mkButton "doc-1" {["data-invoice" := "GB-AEU-2025-0001"]}%string)
                !! "data-rarid"%string = None) by (vm_compute; reflexivity).
  split; [exact H|].
  pose proof (proj1 (extractButtonData_reads_attributes
    (mkButton "doc-1" {["data-invoice" := "GB-AEU-2025-0001"]}%string))) as HF.
  exact (proj2 (proj2 (proj2
           (Forall_lookup_1 _ _ 5%nat ("rarId", "data-rarid")%string HF eq_refl)) H)).
Defined.

(** ** Filter predicate *)

Lemma truthy_true (s : string) : truthy s = true <-> s <> EmptyString.
Proof. destruct s; simpl; split; congruence. Qed.

Lemma strLt_Lt (a b : string) : strLt a b = true <-> String.compare a b = Lt.
Proof. unfold strLt. destruct (String.compare a b); split; congruence. Qed.

Lemma dateFrom_test filters data :
  truthy (f_dateFrom filters) && truthy (endDate data)
    && strLt (endDate data) (f_dateFrom filters) = true
  <-> excludedByDateFrom filters data.
Proof.
  unfold excludedByDateFrom.
  rewrite !andb_true_iff, !truthy_true, strLt_Lt. tauto.
Qed.

Lemma dateTo_test filters data :
  truthy (f_dateTo filters) && truthy (startDate data)
    && strGt (startDate data) (f_dateTo filters) = true
  <-> excludedByDateTo filters data.
Proof.
  unfold excludedByDateTo, strGt.
  rewrite !andb_true_iff, !truthy_true, strLt_Lt. tauto.
Qed.

Lemma passesFilters_split filters dm data :
  passesFilters filters dm data = true <->
  passesFilters (withoutDates filters) dm data = true
  /\ ~ excludedByDateFrom filters data
  /\ ~ excludedByDateTo filters data.
Proof.
  rewrite <- dateFrom_test, <- dateTo_test.
  unfold passesFilters, withoutDates. cbn [f_marketplace f_dateFrom f_dateTo f_status truthy andb].
  destruct (truthy (f_marketplace filters)
            && negb (includes (textContent data) (toLowerCase (f_marketplace filters))));
    [intuition congruence|].
  destruct (truthy (f_dateFrom filters) && truthy (endDate data)
            && strLt (endDate data) (f_dateFrom filters));
    [intuition congruence|].
  destruct (truthy (f_dateTo filters) && truthy (startDate data)
            && strGt (startDate data) (f_dateTo filters));
    [intuition congruence|].
  intuition congruence.
Qed.

(** C6. The date range excludes a record only through a date the record has:
    a record passes the filter exactly when it passes the other conditions and
    is excluded by neither bound, where the [dateFrom] bound excludes only a
    record with a non-empty [endDate] strictly before [dateFrom] and the
    [dateTo] bound only a record with a non-empty [startDate] strictly after
    [dateTo], in the order of the code units. Hence a record with an empty
    [endDate] is never excluded by [dateFrom], one with an empty [startDate]
    never by [dateTo], and one with both dates empty passes exactly when it
    passes the filter without its date range. *)
Theorem date_range_leniency (filters : FilterSpec) (dm : InvoiceDataManager)
    (data : RowData) :
  (passesFilters filters dm data = true <->
   passesFilters (withoutDates filters) dm data = true
   /\ ~ excludedByDateFrom filters data
   /\ ~ excludedByDateTo filters data)
  /\ (endDate data = EmptyString ->
      ~ excludedByDateFrom filters data
      /\ passesFilters filters dm data = passesFilters (withoutDateFrom filters) dm data)
  /\ (startDate data = EmptyString ->
      ~ excludedByDateTo filters data
      /\ passesFilters filters dm data = passesFilters (withoutDateTo filters) dm data)
  /\ (startDate data = EmptyString -> endDate data = EmptyString ->
      passesFilters filters dm data = passesFilters (withoutDates filters) dm data).
Proof.
  split; [apply passesFilters_split|].
  split; [|split].
  - intros He. split; [unfold excludedByDateFrom; tauto|].
    unfold passesFilters, withoutDateFrom.
    cbn [f_marketplace f_dateFrom f_dateTo f_status]. rewrite He.
    cbn [truthy andb]. now rewrite andb_false_r.
  - intros Hs. split; [unfold excludedByDateTo; tauto|].
    unfold passesFilters, withoutDateTo.
    cbn [f_marketplace f_dateFrom f_dateTo f_status]. rewrite Hs.
    cbn [truthy andb]. now rewrite andb_false_r.
  - intros Hs He.
    unfold passesFilters, withoutDates.
    cbn [f_marketplace f_dateFrom f_dateTo f_status]. rewrite Hs, He.
    cbn [truthy andb]. now rewrite !andb_false_r.
Qed.

Lemma date_range_leniency_witness :
  endDate (exampleData 0 "GB-AEU-2025-0001" EmptyString true) = EmptyString
  /\ passesFilters (mkFilterSpec EmptyString "2025-05-01" "2025-06-30" EmptyString)
       (managerOf []) (exampleData 0 "GB-AEU-2025-0001" EmptyString true)
     = true.
Proof.
  split; [reflexivity|].
  rewrite (proj2 (proj1 (proj2 (date_range_leniency
             (mkFilterSpec EmptyString "2025-05-01" "2025-06-30" EmptyString)
             (managerOf []) (exampleData 0 "GB-AEU-2025-0001" EmptyString true)))
             eq_refl)).
  vm_compute. reflexivity.
Defined.

(** The scenario of the specification: with [dateFrom] 2025-05-01, of two
    records ending on 2025-01-10 and 2025-06-01 only the second passes. *)
Example dateFrom_scenario :
  let rows := [exampleData 0 "GB-AEU-2025-0001" "2025-01-10" false;
               exampleData 1 "GB-AEU-2025-0002" "2025-06-01" false]%string in
  let r := applyFilters (mkFilterSpec EmptyString "2025-05-01" EmptyString EmptyString)
             (managerOf rows) in
  map invoiceId (rowsOf (fst r) (snd r)) = ["GB-AEU-2025-0002"%string].
Proof. vm_compute. reflexivity. Qed.

(** The bound reads one date only: an empty [startDate] does not shield a
    record whose [endDate] lies before [dateFrom]. *)
Example dateFrom_reads_endDate_only :
  startDate (exampleData 0 "GB-AEU-2025-0001" "2025-01-10" false) = EmptyString
  /\ passesFilters (mkFilterSpec EmptyString "2025-05-01" EmptyString EmptyString)
       (managerOf []) (exampleData 0 "GB-AEU-2025-0001" "2025-01-10" false)
     = false.
Proof. split; vm_compute; reflexivity. Qed.

(** The marketplace text is searched in the whole lowercased row text. *)
Example marketplace_scenario :
  includes (toLowerCase "GB-AEU-2025-0001 Amazon.de") (toLowerCase "de") = true
  /\ includes (toLowerCase "GB-AEU-2025-0001 Amazon.pl") (toLowerCase "DE") = false.
Proof. split; vm_compute; reflexivity. Qed.

(** ** Filter cache: hits *)

Lemma applyFilters_hit filters dm cached :
  Map_get (JSON_stringify filters) (filterCache dm) = Some cached ->
  applyFilters filters dm = (setFiltered dm (arrays dm) cached (filterCache dm), cached).
Proof.
  intros H. unfold applyFilters, Map_has. now rewrite H.
Qed.

Lemma applyFilters_caches filters dm :
  Map_get (JSON_stringify filters) (filterCache (fst (applyFilters filters dm)))
  = Some (snd (applyFilters filters dm)).
Proof.
  unfold applyFilters.
  destruct (Map_has (JSON_stringify filters) (filterCache dm)) eqn:E.
  - apply Map_has_get in E as [v Hv]. simpl. now rewrite Hv.
  - simpl. apply Map_get_set_same.
Qed.

(** C7. Two consecutive calls of [applyFilters] with the same filter object
    return the same array: after the first call the cache maps the key of the
    filter to the array returned, the second call returns that very array
    reference, and it changes nothing in the manager (no array is allocated,
    nothing is recomputed). *)
Theorem applyFilters_twice_same_array (filters : FilterSpec) (dm : InvoiceDataManager) :
  let first := applyFilters filters dm in
  let second := applyFilters filters (fst first) in
  snd second = snd first
  /\ Map_get (JSON_stringify filters) (filterCache (fst first)) = Some (snd first)
  /\ fst second = fst first
  /\ rowsOf (fst second) (snd second) = rowsOf (fst first) (snd first).
Proof.
  intros first second.
  pose proof (applyFilters_caches filters dm) as Hc. fold first in Hc.
  assert (Hsecond : second = (fst first, snd first)).
  { subst second. rewrite (applyFilters_hit _ _ _ Hc). f_equal.
    subst first. unfold applyFilters.
    destruct (Map_has (JSON_stringify filters) (filterCache dm)); reflexivity. }
  rewrite Hsecond. simpl. auto.
Qed.

(** ** Status mutations do not touch the filter cache *)

Lemma applyStatusOp_frame (op : StatusOp) (dm : InvoiceDataManager) :
  filterCache (applyStatusOp dm op) = filterCache dm
  /\ arrays (applyStatusOp dm op) = arrays dm
  /\ allRows (applyStatusOp dm op) = allRows dm.
Proof. destruct op; simpl; auto. Qed.

Lemma applyStatusOps_frame (ops : list StatusOp) (dm : InvoiceDataManager) :
  filterCache (applyStatusOps ops dm) = filterCache dm
  /\ arrays (applyStatusOps ops dm) = arrays dm
  /\ allRows (applyStatusOps ops dm) = allRows dm.
Proof.
  revert dm. induction ops as [|op ops IH]; intros dm; [simpl; auto|].
  rewrite applyStatusOps_cons.
  destruct (IH (applyStatusOp dm op)) as (Hc & Ha & Hr).
  destruct (applyStatusOp_frame op dm) as (Hc' & Ha' & Hr').
  rewrite Hc, Ha, Hr. auto.
Qed.

(** C10. A sequence of status-store mutations ([markAsDownloaded],
    [markAsFailed], [clearDownloadHistory]) leaves the filter cache and the
    arrays it refers to unchanged; so when the result of a filter object is
    cached, applying that filter after the mutations returns the cached array,
    with the elements it had, and allocates no new array. *)
Theorem status_mutations_keep_filterCache (ops : list StatusOp)
    (dm : InvoiceDataManager) (filters : FilterSpec) (cached : ArrayRef) :
  filterCache (applyStatusOps ops dm) = filterCache dm
  /\ arrays (applyStatusOps ops dm) = arrays dm
  /\ (Map_get (JSON_stringify filters) (filterCache dm) = Some cached ->
      let after := applyFilters filters (applyStatusOps ops dm) in
      snd after = cached
      /\ rowsOf (fst after) (snd after) = rowsOf dm cached
      /\ arrays (fst after) = arrays dm
      /\ filterCache (fst after) = filterCache dm).
Proof.
  destruct (applyStatusOps_frame ops dm) as (Hc & Ha & Hr).
  split; [exact Hc|]. split; [exact Ha|].
  intros Hget after. subst after.
  rewrite (applyFilters_hit filters (applyStatusOps ops dm) cached)
    by (rewrite Hc; exact Hget).
  simpl. unfold rowsOf. simpl. rewrite Ha, Hr, Hc. auto.
Qed.

(** The cached result of a status filter is returned after the status of its
    rows has changed: the row recorded as downloaded stays in the result of the
    [pending] filter, which a manager with an empty cache would not return. *)
Lemma status_mutations_keep_filterCache_witness :
  let pendingOnly := mkFilterSpec EmptyString EmptyString EmptyString "pending" in
  let rows := [exampleData 0 "GB-AEU-2025-0001" "2025-01-10" false] in
  let dm := fst (applyFilters pendingOnly (managerOf rows)) in
  let ops := [RecordSuccess "GB-AEU-2025-0001" 5]%string in
  Map_get (JSON_stringify pendingOnly) (filterCache dm) = Some 1%nat
  /\ map invoiceId
       (rowsOf (fst (applyFilters pendingOnly (applyStatusOps ops dm)))
          (snd (applyFilters pendingOnly (applyStatusOps ops dm))))
     = ["GB-AEU-2025-0001"%string]
  /\ map invoiceId
       (rowsOf (fst (applyFilters pendingOnly (applyStatusOps ops (managerOf rows))))
          (snd (applyFilters pendingOnly (applyStatusOps ops (managerOf rows)))))
     = [].
Proof.
  intros pendingOnly rows dm ops.
  assert (H : Map_get (JSON_stringify pendingOnly) (filterCache dm) = Some 1%nat)
    by (vm_compute; reflexivity).
  split; [exact H|]. split; [|vm_compute; reflexivity].
  rewrite (proj1 (proj2
    (proj2 (proj2 (status_mutations_keep_filterCache ops dm pendingOnly 1%nat)) H))).
  vm_compute. reflexivity.
Defined.

(** ** Download loop *)






Lemma getDownloadStatus_ext dm dm' id :
  downloadStatus dm' !! id = downloadStatus dm !! id ->
  (id ∈ downloadedInvoices dm' <-> id ∈ downloadedInvoices dm) ->
  getDownloadStatus dm' id = getDownloadStatus dm id.
Proof.
  intros He Hd. unfold getDownloadStatus. rewrite He.
  destruct (decide (id ∈ downloadedInvoices dm')) as [H|H];
    destruct (decide (id ∈ downloadedInvoices dm)) as [H'|H']; tauto.
Qed.


(** The loop test either suspends the call at the download of the item at
    [i], or ends the call. *)
Lemma loopTest_cases (run i : nat) (c : Counts) (app : InvoiceDownloader) :
  (exists invoiceData,
      downloadQueue app !! i = Some invoiceData
      /\ isDownloading app = true
      /\ loopTest run i c app
         = suspend run (mkActivation i c (AwaitDownload invoiceData))
             (setCurrentDownloadIndex i app))
  \/ ((downloadQueue app !! i = None \/ isDownloading app = false)
      /\ loopTest run i c app = finishRun run c app).
Proof.
  unfold loopTest.
  destruct (downloadQueue app !! i) as [invoiceData|]; [|right; auto].
  destruct (isDownloading app); [left; eauto | right; auto].
Qed.

Lemma loopTest_frame (run i : nat) (c : Counts) (app : InvoiceDownloader) :
  dataManager (loopTest run i c app) = dataManager app
  /\ downloadQueue (loopTest run i c app) = downloadQueue app
  /\ runsStarted (loopTest run i c app) = runsStarted app
  /\ statusUpdates (loopTest run i c app) = statusUpdates app.
Proof.
  destruct (loopTest_cases run i c app) as [(d & _ & _ & ->) | [_ ->]]; cbn; auto.
Qed.
















Example failed_item_scenario :
  let rows := [exampleData 0 "GB-AEU-2025-0001" "2025-01-10" true;
               exampleData 1 "GB-AEU-2025-0002" "2025-06-01" true;
               exampleData 2 "GB-AEU-2025-0003" "2025-06-01" true]%string in
  let events := [StartClick;
                 DownloadSettles 0 (mkSettlement (Fetched "f.pdf") 100);
                 SleepEnds 0;
                 DownloadSettles 0 (mkSettlement (Rejected "NetworkError") 100);
                 SleepEnds 0;
                 DownloadSettles 0 (mkSettlement (Fetched "f.pdf") 100)] in
  let dm := dataManager (downloaderRun events (appOf rows)) in
  (status <$> downloadStatus dm !! "GB-AEU-2025-0002"%string) = Some "failed"%string
  /\ (attempts <$> downloadStatus dm !! "GB-AEU-2025-0002"%string) = Some 1
  /\ getDownloadStatus dm "GB-AEU-2025-0002" = "pending"%string.
Proof. vm_compute. auto. Qed.

(** Cancel is clicked while the first of three invoices is downloaded: the
    call ends when that download settles, and the other two keep their
    [pending] status. *)
Example cancel_scenario :
  let rows := [exampleData 0 "GB-AEU-2025-0001" "2025-01-10" true;
               exampleData 1 "GB-AEU-2025-0002" "2025-06-01" true;
               exampleData 2 "GB-AEU-2025-0003" "2025-06-01" true]%string in
  let events := [StartClick; CancelClick;
                 DownloadSettles 0 (mkSettlement (Fetched "f.pdf") 100)] in
  let app := downloaderRun events (appOf rows) in
  finished app = [(0%nat, {| successCount := 1; failureCount := 0 |})]
  /\ suspended app = ∅
  /\ map (getDownloadStatus (dataManager app))
       ["GB-AEU-2025-0001"; "GB-AEU-2025-0002"; "GB-AEU-2025-0003"]%string
     = ["downloaded"; "pending"; "pending"]%string.
Proof. vm_compute. auto. Qed.


(** * Further properties of the optimized script *)

(** ** Chunking *)

Lemma chunkArrayFrom_spec {A : Type} (fuel : nat) (array : list A) (size i : nat) :
  (1 <= size)%nat ->
  (length array - i <= fuel)%nat ->
  exists chunks,
    chunkArrayFrom fuel array size i = Some chunks
    /\ concat chunks = drop i array
    /\ (forall j c, chunks !! j = Some c ->
        (i + j * size < length array)%nat
        /\ c = slice array (i + j * size) (i + S j * size)).
Proof.
  intros Hsize. revert i.
  induction fuel as [|fuel IH]; intros i Hfuel; cbn [chunkArrayFrom].
  - destruct (Nat.ltb_spec i (length array)) as [Hlt|Hge]; [lia|].
    exists []. split; [reflexivity|]. split; [now rewrite drop_ge by lia|].
    intros j c Hj. rewrite lookup_nil in Hj. discriminate.
  - destruct (Nat.ltb_spec i (length array)) as [Hlt|Hge].
    + destruct (IH (i + size)%nat ltac:(lia)) as (chunks & -> & Hcat & Hall).
      eexists. split; [reflexivity|]. split.
      * cbn [concat]. rewrite Hcat. unfold slice.
        replace (i + size - i)%nat with size by lia.
        rewrite <- (take_drop size (drop i array)) at 2.
        now rewrite drop_drop.
      * intros [|j] c Hj.
        -- injection Hj as <-. split; [lia|].
           f_equal; lia.
        -- cbn in Hj. destruct (Hall j c Hj) as [Hlt' ->].
           split; [lia|]. f_equal; lia.
    + exists []. split; [reflexivity|]. split; [now rewrite drop_ge by lia|].
      intros j c Hj. rewrite lookup_nil in Hj. discriminate.
Qed.

Lemma chunkArrayFrom_more_fuel {A : Type} (fuel fuel' : nat) (array : list A)
    (size i : nat) (chunks : list (list A)) :
  chunkArrayFrom fuel array size i = Some chunks ->
  (fuel <= fuel')%nat ->
  chunkArrayFrom fuel' array size i = Some chunks.
Proof.
  revert fuel' i chunks.
  induction fuel as [|fuel IH]; intros fuel' i chunks Hrun Hle.
  - cbn [chunkArrayFrom] in Hrun.
    destruct fuel'; cbn [chunkArrayFrom];
      destruct (i <? length array)%nat; congruence.
  - destruct fuel' as [|fuel']; [lia|].
    cbn [chunkArrayFrom] in *.
    destruct (i <? length array)%nat; [|exact Hrun].
    destruct (chunkArrayFrom fuel array size (i + size)) as [rest|] eqn:Hrest;
      [|discriminate].
    now rewrite (IH fuel' _ _ Hrest) by lia.
Qed.

(** X1. For a chunk size of at least one, [chunkArray] ends within
    [array.length] iterations (and gives the same chunks with any larger
    bound); the chunks concatenated are the array, chunk [j] is the slice from
    [j * size] to [(j + 1) * size], and every chunk has between one and [size]
    elements. *)
Theorem chunkArray_partitions {A : Type} (array : list A) (size fuel : nat) :
  (1 <= size)%nat ->
  (length array <= fuel)%nat ->
  exists chunks,
    chunkArray fuel array size = Some chunks
    /\ chunkArray (length array) array size = Some chunks
    /\ concat chunks = array
    /\ (forall j c, chunks !! j = Some c ->
        c = slice array (j * size) (S j * size)
        /\ (1 <= length c <= size)%nat).
Proof.
  intros Hsize Hfuel. unfold chunkArray.
  destruct (chunkArrayFrom_spec (length array) array size 0 Hsize ltac:(lia))
    as (chunks & Hrun & Hcat & Hall).
  exists chunks. split; [exact (chunkArrayFrom_more_fuel _ _ _ _ _ _ Hrun Hfuel)|].
  split; [exact Hrun|]. split; [exact Hcat|].
  intros j c Hj. destruct (Hall j c Hj) as [Hlt ->]. cbn [Nat.add] in *.
  split; [reflexivity|].
  unfold slice. rewrite length_take, length_drop. lia.
Qed.

Lemma chunkArray_partitions_witness :
  (1 <= 2)%nat /\ (length [1; 2; 3; 4; 5]%nat <= 9)%nat
  /\ exists chunks,
       chunkArray 9 [1; 2; 3; 4; 5]%nat 2 = Some chunks
       /\ concat chunks = [1; 2; 3; 4; 5]%nat.
Proof.
  assert (H1 : (1 <= 2)%nat) by lia.
  assert (H2 : (length [1; 2; 3; 4; 5]%nat <= 9)%nat) by (simpl; lia).
  split; [exact H1|]. split; [exact H2|].
  destruct (chunkArray_partitions [1; 2; 3; 4; 5]%nat 2 9 H1 H2)
    as (chunks & Hrun & _ & Hcat & _).
  exists chunks. split; [exact Hrun | exact Hcat].
Defined.

Example chunkArray_five_by_two :
  chunkArray 5 [1; 2; 3; 4; 5]%nat 2 = Some [[1; 2]; [3; 4]; [5]]%nat.
Proof. reflexivity. Qed.

(** X2. With a chunk size of zero the counter of [chunkArray] never advances:
    on a non-empty array the loop does not end, whatever the bound on its
    iterations. *)
Theorem chunkArray_size_zero_diverges {A : Type} (array : list A) (fuel : nat) :
  array <> [] ->
  chunkArray fuel array 0 = None.
Proof.
  intros Hne. unfold chunkArray.
  assert (Hlt : (0 <? length array)%nat = true).
  { apply Nat.ltb_lt. destruct array; [congruence | simpl; lia]. }
  induction fuel as [|fuel IH]; cbn [chunkArrayFrom]; rewrite Hlt; [reflexivity|].
  cbn [Nat.add]. now rewrite IH.
Qed.

Lemma chunkArray_size_zero_diverges_witness :
  [exampleRow] <> [] /\ chunkArray 1000 [exampleRow] 0 = None.
Proof.
  assert (H : [exampleRow] <> []) by discriminate.
  split; [exact H|]. exact (chunkArray_size_zero_diverges [exampleRow] 1000 H).
Defined.

(** ** Initialization *)

Lemma isNormal_Normal {A : Type} (c : Completion A) :
  isNormal c = true -> exists v, c = Normal v.
Proof. destruct c; [eauto | discriminate]. Qed.

Section InitializationFacts.
Context {host : DateHost}.

Lemma processChunk_app (c1 c2 : list Row) (dm : InvoiceDataManager) :
  processChunk (c1 ++ c2) dm = (dm1 ← processChunk c1 dm; processChunk c2 dm1).
Proof.
  revert dm. induction c1 as [|row c1 IH]; intros dm; [reflexivity|].
  cbn [app processChunk].
  destruct (parseRowData row (length (allRows dm)) dm) as [[dm1 data]|e];
    [|reflexivity].
  exact (IH _).
Qed.

Lemma processChunks_concat (chunks : list (list Row)) (dm : InvoiceDataManager) :
  processChunks chunks dm = processChunk (concat chunks) dm.
Proof.
  revert dm. induction chunks as [|chunk rest IH]; intros dm; [reflexivity|].
  cbn [processChunks concat]. rewrite processChunk_app.
  destruct (processChunk chunk dm) as [dm1|e]; [exact (IH dm1) | reflexivity].
Qed.

Lemma initializeDataWith_one_chunk (size : nat) (storage : Storage)
    (tableRows : list Row) (dm : InvoiceDataManager) :
  (1 <= size)%nat ->
  initializeDataWith size storage tableRows dm
  = Some (if isInitialized dm then Normal dm
          else dm2 ← processChunk tableRows (loadDownloadStatus storage dm);
               mret (finishInitialization dm2)).
Proof.
  intros Hsize. unfold initializeDataWith.
  destruct (isInitialized dm); [reflexivity|].
  destruct (chunkArrayFrom_spec (length tableRows) tableRows size 0 Hsize ltac:(lia))
    as (chunks & Hrun & Hcat & _).
  unfold chunkArray. rewrite Hrun. cbn. now rewrite processChunks_concat, Hcat.
Qed.

(** X3. The chunk size has no effect on the result of [initializeData]: for
    every chunk size of at least one, an uninitialized manager is initialized
    as if all rows were parsed in one chunk (also when parsing raises), so any
    two chunk sizes give the same result; an initialized manager is returned
    unchanged. *)
Theorem initializeData_chunk_size_irrelevant (size size' : nat) (storage : Storage)
    (tableRows : list Row) (dm : InvoiceDataManager) :
  (1 <= size)%nat ->
  (1 <= size')%nat ->
  initializeDataWith size storage tableRows dm
  = initializeDataWith size' storage tableRows dm
  /\ initializeDataWith size storage tableRows dm
     = Some (if isInitialized dm then Normal dm
             else dm2 ← processChunk tableRows (loadDownloadStatus storage dm);
                  mret (finishInitialization dm2)).
Proof.
  intros Hsize Hsize'.
  rewrite (initializeDataWith_one_chunk size) by exact Hsize.
  rewrite (initializeDataWith_one_chunk size') by exact Hsize'.
  split; reflexivity.
Qed.

Lemma buildRowData_index (row : Row) (i : nat) (data : RowData) :
  buildRowData row i = Normal data ->
  index data = i /\ element data = row /\ isSelected data = false.
Proof.
  unfold buildRowData.
  destruct (extractDate (row_cells row) 0) as [sd|]; [|discriminate].
  destruct (extractDate (row_cells row) 1) as [ed|]; [|discriminate].
  intros [= <-]. auto.
Qed.

(** Parsing a chunk of rows with valid dates appends one record per row, in
    order, each built at its own position. *)
Lemma processChunk_rows (rows : list Row) (dm : InvoiceDataManager) :
  cacheFresh dm ->
  Forall (fun row => datesReadValid (row_cells row)) rows ->
  exists dm' new,
    processChunk rows dm = Normal dm'
    /\ cacheFresh dm'
    /\ allRows dm' = allRows dm ++ new
    /\ length new = length rows
    /\ (forall j row, rows !! j = Some row ->
        exists data, new !! j = Some data
                     /\ buildRowData row (length (allRows dm) + j) = Normal data)
    /\ arrays dm' = arrays dm
    /\ filterCache dm' = filterCache dm
    /\ isInitialized dm' = isInitialized dm
    /\ downloadedInvoices dm' = downloadedInvoices dm
    /\ downloadStatus dm' = downloadStatus dm.
Proof.
  intros Hfresh Hvalid. revert dm Hfresh.
  induction Hvalid as [|row rows Hrow _ IH]; intros dm Hfresh.
  - exists dm, []. cbn. rewrite app_nil_r. repeat split; auto.
    intros j row Hj. rewrite lookup_nil in Hj. discriminate.
  - cbn [processChunk]. unfold parseRowData.
    rewrite (Hfresh _ (le_n _)).
    destruct (isNormal_Normal _
                (proj2 (buildRowData_normal_iff row (length (allRows dm))) Hrow))
      as [data Hdata].
    rewrite Hdata. cbn.
    set (dm1 := setRows _ _ _).
    assert (Hfresh1 : cacheFresh dm1).
    { intros i Hi. subst dm1. cbn in *. rewrite length_app in Hi. cbn in Hi.
      rewrite lookup_insert_ne by lia. apply Hfresh. lia. }
    destruct (IH dm1 Hfresh1)
      as (dm' & new & Hrun & Hf' & Hrows & Hlen & Hall & Ha & Hc & Hi & Hd & Hs).
    exists dm', (data :: new). rewrite Hrun.
    split; [reflexivity|]. split; [exact Hf'|].
    split; [rewrite Hrows; subst dm1; cbn; now rewrite <- app_assoc|].
    split; [cbn; now rewrite Hlen|].
    split; [|subst dm1; cbn in *; auto].
    intros [|j] row' Hj.
    + injection Hj as <-. exists data. rewrite Nat.add_0_r. auto.
    + cbn in Hj. destruct (Hall j row' Hj) as (data' & Hnew & Hb).
      exists data'. split; [exact Hnew|].
      subst dm1. cbn in Hb. rewrite length_app in Hb. cbn in Hb.
      now replace (length (allRows dm) + S j)%nat
        with (length (allRows dm) + 1 + j)%nat by lia.
Qed.

(** X4. [initializeData] on an uninitialized manager without rows, for a
    table whose rows have valid dates: it returns; [allRows] holds one record
    per table row, in table order, the record of row [i] being the one parsed
    from that row at index [i]; the current view is a new array with a
    reference to every row; the status store is the one loaded from the
    storage; and a second call, with any table and storage, changes nothing. *)
Theorem initializeData_rows (storage : Storage) (tableRows : list Row)
    (dm : InvoiceDataManager) :
  isInitialized dm = false ->
  allRows dm = [] ->
  rowDataCache dm = ∅ ->
  Forall (fun row => datesReadValid (row_cells row)) tableRows ->
  exists dm',
    initializeData storage tableRows dm = Some (Normal dm')
    /\ length (allRows dm') = length tableRows
    /\ (forall i row, tableRows !! i = Some row ->
        exists data, allRows dm' !! i = Some data
                     /\ buildRowData row i = Normal data
                     /\ index data = i /\ element data = row)
    /\ currentView dm' = seq 0 (length tableRows)
    /\ filteredRows dm' = length (arrays dm)
    /\ isInitialized dm' = true
    /\ downloadedInvoices dm' = downloadedInvoices (loadDownloadStatus storage dm)
    /\ downloadStatus dm' = downloadStatus (loadDownloadStatus storage dm)
    /\ (forall storage2 tableRows2,
        initializeData storage2 tableRows2 dm' = Some (Normal dm')).
Proof.
  intros Hinit Hrows Hcache Hvalid.
  unfold initializeData.
  rewrite initializeDataWith_one_chunk by (unfold CHUNK_SIZE; lia).
  rewrite Hinit.
  assert (Hfresh : cacheFresh (loadDownloadStatus storage dm)).
  { intros i _. cbn. rewrite Hcache. apply lookup_empty. }
  destruct (processChunk_rows tableRows _ Hfresh Hvalid)
    as (dm2 & new & Hrun & _ & Hall & Hlen & Hnew & Ha & _ & _ & Hd & Hs).
  cbn [loadDownloadStatus setStatusStore allRows arrays] in Hall, Hnew, Ha.
  rewrite Hrows in Hall, Hnew. cbn [app length Nat.add] in Hall, Hnew.
  rewrite Hrun. cbn.
  exists (finishInitialization dm2). split; [reflexivity|].
  split; [cbn; now rewrite Hall|]. split.
  { intros i row Hi. destruct (Hnew i row Hi) as (data & Hdata & Hb).
    exists data. destruct (buildRowData_index _ _ _ Hb) as (Hx & He & _).
    cbn. rewrite Hall. auto. }
  split.
  { unfold currentView, finishInitialization. cbn [arrays filteredRows].
    rewrite lookup_app_r, Nat.sub_diag by lia. cbn. now rewrite Hall, Hlen. }
  split; [cbn; now rewrite Ha|]. split; [reflexivity|].
  split; [exact Hd|]. split; [exact Hs|].
  intros storage2 tableRows2.
  now rewrite initializeDataWith_one_chunk by (unfold CHUNK_SIZE; lia).
Qed.
End InitializationFacts.

Lemma initializeData_chunk_size_irrelevant_witness :
  (1 <= 2)%nat /\ (1 <= 100)%nat
  /\ @initializeDataWith refHost 2 emptyStorage [exampleRow; exampleRow; exampleRow]
       newInvoiceDataManager
     = @initializeDataWith refHost 100 emptyStorage [exampleRow; exampleRow; exampleRow]
         newInvoiceDataManager.
Proof.
  assert (H : (1 <= 2)%nat) by lia.
  assert (H' : (1 <= 100)%nat) by lia.
  split; [exact H|]. split; [exact H'|].
  exact (proj1 (@initializeData_chunk_size_irrelevant refHost 2 100 emptyStorage
                  [exampleRow; exampleRow; exampleRow] newInvoiceDataManager H H')).
Defined.

Lemma initializeData_rows_witness :
  Forall (fun row => @datesReadValid refHost (row_cells row)) [exampleRow; exampleRow]
  /\ exists dm',
       @initializeData refHost emptyStorage [exampleRow; exampleRow] newInvoiceDataManager
       = Some (Normal dm')
       /\ length (allRows dm') = 2%nat.
Proof.
  assert (H : Forall (fun row => @datesReadValid refHost (row_cells row))
                [exampleRow; exampleRow]).
  { repeat constructor; vm_compute; congruence. }
  split; [exact H|].
  destruct (@initializeData_rows refHost emptyStorage [exampleRow; exampleRow]
              newInvoiceDataManager eq_refl eq_refl eq_refl H)
    as (dm' & Hrun & Hlen & _).
  exists dm'. split; [exact Hrun | exact Hlen].
Defined.

(** ** Persistence of the status store *)

Lemma load_after_save (dm dm0 : InvoiceDataManager) :
  downloadedInvoices (loadDownloadStatus (saveDownloadStatus dm) dm0)
  = downloadedInvoices dm
  /\ downloadStatus (loadDownloadStatus (saveDownloadStatus dm) dm0)
     = downloadStatus dm.
Proof. cbn. split; [apply list_to_set_elements_L | reflexivity]. Qed.

Lemma applyStatusOpsStored_fst (ops : list StatusOp)
    (state : InvoiceDataManager * Storage) :
  fst (applyStatusOpsStored ops state) = applyStatusOps ops (fst state).
Proof.
  revert state. induction ops as [|op ops IH]; intros state; [reflexivity|].
  change (applyStatusOpsStored (op :: ops) state)
    with (applyStatusOpsStored ops (applyStatusOpStored state op)).
  rewrite IH, applyStatusOps_cons. reflexivity.
Qed.

(** X5. The status store survives a reload: after any non-empty sequence of
    [markAsDownloaded], [markAsFailed] and [clearDownloadHistory] calls, a new
    manager that loads what the calls left in the storage has the same set of
    downloaded invoices and the same status entries as the live manager, and
    so derives the same status for every invoice id. *)
Theorem status_store_survives_reload (ops : list StatusOp) (dm : InvoiceDataManager)
    (storage : Storage) :
  ops <> [] ->
  let live := fst (applyStatusOpsStored ops (dm, storage)) in
  let reloaded :=
    loadDownloadStatus (snd (applyStatusOpsStored ops (dm, storage)))
      newInvoiceDataManager in
  live = applyStatusOps ops dm
  /\ downloadedInvoices reloaded = downloadedInvoices live
  /\ downloadStatus reloaded = downloadStatus live
  /\ forall id, getDownloadStatus reloaded id = getDownloadStatus live id.
Proof.
  intros Hne live reloaded.
  assert (Hlive : live = applyStatusOps ops dm)
    by (subst live; now rewrite applyStatusOpsStored_fst).
  assert (Hstores : downloadedInvoices reloaded = downloadedInvoices live
                    /\ downloadStatus reloaded = downloadStatus live).
  { subst live reloaded.
    destruct ops as [|op0 ops0] using rev_ind; [congruence|]. clear IHops0 Hne.
    unfold applyStatusOpsStored. rewrite foldl_app. cbn [foldl].
    set (before := foldl applyStatusOpStored (dm, storage) ops0).
    unfold applyStatusOpStored at 1 3. cbn [fst snd].
    destruct op0 as [id t|id e t|].
    - apply load_after_save.
    - apply load_after_save.
    - cbn. auto. }
  destruct Hstores as [Hd Hs].
  split; [exact Hlive|]. split; [exact Hd|]. split; [exact Hs|].
  intros id. apply getDownloadStatus_ext; [now rewrite Hs | now rewrite Hd].
Qed.

Lemma status_store_survives_reload_witness :
  [RecordFailure "GB-AEU-2025-0001" "e" 1; RecordSuccess "GB-AEU-2025-0002" 2]%string <> []
  /\ getDownloadStatus
       (loadDownloadStatus
          (snd (applyStatusOpsStored
                  [RecordFailure "GB-AEU-2025-0001" "e" 1;
                   RecordSuccess "GB-AEU-2025-0002" 2]%string
                  (newInvoiceDataManager, emptyStorage)))
          newInvoiceDataManager)
       "GB-AEU-2025-0002"
     = getDownloadStatus
         (fst (applyStatusOpsStored
                 [RecordFailure "GB-AEU-2025-0001" "e" 1;
                  RecordSuccess "GB-AEU-2025-0002" 2]%string
                 (newInvoiceDataManager, emptyStorage)))
         "GB-AEU-2025-0002".
Proof.
  assert (H : [RecordFailure "GB-AEU-2025-0001" "e" 1;
               RecordSuccess "GB-AEU-2025-0002" 2]%string <> []) by discriminate.
  split; [exact H|].
  exact (proj2 (proj2 (proj2
    (status_store_survives_reload _ newInvoiceDataManager emptyStorage H)))
    "GB-AEU-2025-0002"%string).
Defined.

(** ** The cache key *)

Lemma append_assoc_str (a b c : string) :
  String.append (String.append a b) c = String.append a (String.append b c).
Proof.
  induction a as [|x a IH]; [reflexivity|].
  change (String x (String.append (String.append a b) c)
          = String x (String.append a (String.append b c))).
  now rewrite IH.
Qed.

Lemma append_cons_str (x : ascii) (a b : string) :
  String.append (String x a) b = String x (String.append a b).
Proof. reflexivity. Qed.

Lemma readJsonBody_escapeChar (c : ascii) (tail : string) :
  readJsonBody (String.append (jsonEscapeChar c) tail)
  = match readJsonBody tail with
    | Some (body, rest) => Some (String c body, rest)
    | None => None
    end.
Proof. destruct c as [[] [] [] [] [] [] [] []]; reflexivity. Qed.

Lemma readJsonBody_escape (s rest : string) :
  readJsonBody (String.append (jsonEscape s) (String quoteChar rest)) = Some (s, rest).
Proof.
  induction s as [|c s IH]; [reflexivity|].
  cbn [jsonEscape]. rewrite append_assoc_str, readJsonBody_escapeChar, IH.
  reflexivity.
Qed.

Lemma readJsonString_quote (s rest : string) :
  readJsonString (String.append (jsonQuote s) rest) = Some (s, rest).
Proof.
  unfold jsonQuote, str1.
  change (readJsonBody
            (String.append (String.append (jsonEscape s) (String quoteChar EmptyString))
               rest) = Some (s, rest)).
  rewrite append_assoc_str. apply readJsonBody_escape.
Qed.

Lemma readJsonProperty_property (name value rest : string) :
  readJsonProperty (String.append (jsonProperty name value) rest)
  = Some (name, value, rest).
Proof.
  unfold readJsonProperty, jsonProperty.
  rewrite append_assoc_str, readJsonString_quote, append_cons_str. cbn.
  now rewrite readJsonString_quote.
Qed.

Lemma readFilterKey_stringify (f : FilterSpec) :
  readFilterKey (JSON_stringify f) = Some f.
Proof.
  destruct f as [m df dt st]. unfold readFilterKey, JSON_stringify.
  cbn [expectChar Ascii.eqb Bool.eqb mbind option_bind f_marketplace f_dateFrom
       f_dateTo f_status].
  rewrite readJsonProperty_property. cbn.
  rewrite readJsonProperty_property. cbn.
  rewrite readJsonProperty_property. cbn.
  rewrite readJsonProperty_property. cbn. reflexivity.
Qed.

Lemma JSON_stringify_inj (f f' : FilterSpec) :
  JSON_stringify f = JSON_stringify f' -> f = f'.
Proof.
  intros Heq. pose proof (readFilterKey_stringify f) as H.
  rewrite Heq, readFilterKey_stringify in H. congruence.
Qed.

(** X6. The cache key can be read back: the reader returns the filter object
    from its [JSON.stringify] text, whatever characters the four texts hold
    (quotes, backslashes and control characters included). So two filter
    objects have the same cache key only when their four properties are
    equal. *)
Theorem cache_key_determines_filter (filters filters' : FilterSpec) :
  readFilterKey (JSON_stringify filters) = Some filters
  /\ (JSON_stringify filters = JSON_stringify filters' -> filters = filters').
Proof.
  split.
  - apply readFilterKey_stringify.
  - intros Heq. apply (f_equal readFilterKey) in Heq.
    rewrite !readFilterKey_stringify in Heq. congruence.
Qed.

Lemma cache_key_determines_filter_witness :
  JSON_stringify (mkFilterSpec "de" EmptyString EmptyString "pending")
  = JSON_stringify (mkFilterSpec "de" EmptyString EmptyString "pending")
  /\ readFilterKey (JSON_stringify (mkFilterSpec "de" EmptyString EmptyString "pending"))
     = Some (mkFilterSpec "de" EmptyString EmptyString "pending").
Proof.
  split; [reflexivity|].
  exact (proj1 (cache_key_determines_filter
                  (mkFilterSpec "de" EmptyString EmptyString "pending")
                  (mkFilterSpec "de" EmptyString EmptyString "pending"))).
Defined.

(** ** What [applyFilters] returns *)

Lemma getDownloadStatus_same_store dm dm' id :
  downloadedInvoices dm' = downloadedInvoices dm ->
  downloadStatus dm' = downloadStatus dm ->
  getDownloadStatus dm' id = getDownloadStatus dm id.
Proof. intros Hd Hs. unfold getDownloadStatus. now rewrite Hd, Hs. Qed.

Lemma passesFilters_same_store filters dm dm' data :
  downloadedInvoices dm' = downloadedInvoices dm ->
  downloadStatus dm' = downloadStatus dm ->
  passesFilters filters dm' data = passesFilters filters dm data.
Proof.
  intros Hd Hs. unfold passesFilters.
  now rewrite (getDownloadStatus_same_store dm dm' _ Hd Hs).
Qed.

Lemma filterRefs_ext (p q : RowData -> bool) (rows : list RowData) (i : nat) :
  (forall data, p data = q data) -> filterRefs p rows i = filterRefs q rows i.
Proof.
  intros H. revert i. induction rows as [|d rows IH]; intros i; [reflexivity|].
  cbn. now rewrite H, IH.
Qed.

Lemma omap_filterRefs (p : RowData -> bool) (pre rows : list RowData) :
  omap (fun r : RowRef => (pre ++ rows) !! r) (filterRefs p rows (length pre))
  = List.filter p rows.
Proof.
  revert pre. induction rows as [|d rows IH]; intros pre; [reflexivity|].
  specialize (IH (pre ++ [d])).
  rewrite <- app_assoc, length_app in IH. cbn in IH.
  rewrite Nat.add_1_r in IH.
  cbn [filterRefs List.filter]. destruct (p d); [|exact IH].
  cbn [omap list_omap]. rewrite list_lookup_middle by reflexivity.
  now rewrite IH.
Qed.

Lemma filterRefs_increasing (p : RowData -> bool) (rows : list RowData) (i : nat) :
  Forall (fun r => (i <= r < i + length rows)%nat) (filterRefs p rows i)
  /\ StronglySorted lt (filterRefs p rows i).
Proof.
  revert i. induction rows as [|d rows IH]; intros i.
  - split; constructor.
  - destruct (IH (S i)) as [Hr Hs]. cbn [filterRefs length].
    assert (Hr' : Forall (fun r => (i <= r < i + S (length rows))%nat)
                    (filterRefs p rows (S i))).
    { eapply Forall_impl; [exact Hr|]. cbn. intros; lia. }
    destruct (p d); [|auto].
    split.
    + constructor; [lia | exact Hr'].
    + constructor; [exact Hs|].
      eapply Forall_impl; [exact Hr|]. cbn. intros; lia.
Qed.

Lemma filter_sublist {A : Type} (p : A -> bool) (l : list A) :
  sublist (List.filter p l) l.
Proof.
  induction l as [|x l IH]; cbn; [constructor|].
  destruct (p x); now constructor.
Qed.

Lemma applyFilters_miss (filters : FilterSpec) (dm : InvoiceDataManager) :
  Map_has (JSON_stringify filters) (filterCache dm) = false ->
  snd (applyFilters filters dm) = length (arrays dm)
  /\ arrays (fst (applyFilters filters dm)) !! snd (applyFilters filters dm)
     = Some (filterRefs (passesFilters filters dm) (allRows dm) 0%nat)
  /\ filteredRows (fst (applyFilters filters dm)) = snd (applyFilters filters dm)
  /\ allRows (fst (applyFilters filters dm)) = allRows dm.
Proof.
  intros Hmiss. unfold applyFilters. rewrite Hmiss.
  cbn [fst snd arrays allRows filteredRows setFiltered].
  rewrite lookup_app_r, Nat.sub_diag by lia. auto.
Qed.

Lemma rowsOf_filterRefs (p : RowData -> bool) (dm : InvoiceDataManager) (a : ArrayRef) :
  arrays dm !! a = Some (filterRefs p (allRows dm) 0%nat) ->
  rowsOf dm a = List.filter p (allRows dm).
Proof.
  intros Ha. unfold rowsOf. rewrite Ha. cbn [default].
  exact (omap_filterRefs p [] (allRows dm)).
Qed.

(** X7. On a cache miss [applyFilters] allocates a new array whose rows are
    exactly the rows of [allRows] that pass the filter callback, in their
    original order: the references are valid and strictly increasing, and the
    rows form a subsequence of [allRows]. *)
Theorem applyFilters_miss_filters_rows (filters : FilterSpec) (dm : InvoiceDataManager) :
  Map_has (JSON_stringify filters) (filterCache dm) = false ->
  let res := applyFilters filters dm in
  snd res = length (arrays dm)
  /\ arrays (fst res) !! snd res
     = Some (filterRefs (passesFilters filters dm) (allRows dm) 0%nat)
  /\ rowsOf (fst res) (snd res) = List.filter (passesFilters filters dm) (allRows dm)
  /\ sublist (rowsOf (fst res) (snd res)) (allRows dm)
  /\ StronglySorted lt (currentView (fst res))
  /\ Forall (fun r => (r < length (allRows dm))%nat) (currentView (fst res)).
Proof.
  intros Hmiss res.
  destruct (applyFilters_miss filters dm Hmiss) as (Hfresh & Harr & Hcur & Hrows).
  fold res in Hfresh, Harr, Hcur, Hrows.
  assert (Hr : rowsOf (fst res) (snd res)
               = List.filter (passesFilters filters dm) (allRows dm)).
  { rewrite <- Hrows. apply rowsOf_filterRefs. now rewrite Hrows. }
  split; [exact Hfresh|]. split; [exact Harr|]. split; [exact Hr|].
  split; [rewrite Hr; apply filter_sublist|].
  unfold currentView. rewrite Hcur, Harr. cbn [default].
  destruct (filterRefs_increasing (passesFilters filters dm) (allRows dm) 0) as [Hv Hs].
  split; [exact Hs|].
  eapply Forall_impl; [exact Hv|]. cbn. intros; lia.
Qed.

Lemma applyFilters_miss_filters_rows_witness :
  let rows := [exampleData 0 "GB-AEU-2025-0001" "2025-01-10" false;
               exampleData 1 "GB-AEU-2025-0002" "2025-06-01" false]%string in
  let filters := mkFilterSpec EmptyString "2025-05-01" EmptyString EmptyString in
  Map_has (JSON_stringify filters) (filterCache (managerOf rows)) = false
  /\ rowsOf (fst (applyFilters filters (managerOf rows)))
       (snd (applyFilters filters (managerOf rows)))
     = List.filter (passesFilters filters (managerOf rows)) rows.
Proof.
  intros rows filters.
  assert (H : Map_has (JSON_stringify filters) (filterCache (managerOf rows)) = false)
    by reflexivity.
  split; [exact H|].
  exact (proj1 (proj2 (proj2 (applyFilters_miss_filters_rows filters (managerOf rows) H)))).
Defined.

(** ** The cache is transparent while the status store does not change *)

Section OrderedMapEntries.
Context {V : Type}.
Implicit Types (m : list (string * V)) (k : string) (v : V).

Lemma Map_get_elem_of k v m : Map_get k m = Some v -> (k, v) ∈ m.
Proof.
  induction m as [|[k' v'] m IH]; cbn; [discriminate|].
  destruct (String.eqb_spec k' k) as [->|Hne].
  - intros [= ->]. apply list_elem_of_here.
  - intros H. apply list_elem_of_further. auto.
Qed.

Lemma Map_delete_elem_of k k' v m : (k', v) ∈ Map_delete k m -> (k', v) ∈ m.
Proof.
  induction m as [|[k0 v0] m IH]; cbn; [auto|].
  destruct (String.eqb k0 k).
  - apply list_elem_of_further.
  - rewrite !elem_of_cons. intros [H|H]; auto.
Qed.

Lemma Map_deleteFirstKey_elem_of k' v m :
  (k', v) ∈ Map_deleteFirstKey m -> (k', v) ∈ m.
Proof.
  destruct m as [|[k0 v0] m]; [auto|].
  unfold Map_deleteFirstKey. apply Map_delete_elem_of.
Qed.

Lemma Map_set_elem_of k v k' v' m :
  (k', v') ∈ Map_set k v m -> (k', v') = (k, v) \/ (k', v') ∈ m.
Proof.
  induction m as [|[k0 v0] m IH]; cbn.
  - rewrite list_elem_of_singleton. auto.
  - destruct (String.eqb_spec k0 k) as [->|Hne]; rewrite !elem_of_cons.
    + intros [H|H]; auto.
    + intros [H|H]; auto. destruct (IH H); auto.
Qed.
End OrderedMapEntries.

Lemma applyFilters_keeps_store filters dm :
  allRows (fst (applyFilters filters dm)) = allRows dm
  /\ downloadedInvoices (fst (applyFilters filters dm)) = downloadedInvoices dm
  /\ downloadStatus (fst (applyFilters filters dm)) = downloadStatus dm.
Proof.
  unfold applyFilters.
  destruct (Map_has (JSON_stringify filters) (filterCache dm)); cbn; auto.
Qed.

Lemma applyFilters_coherent filters dm :
  cacheCoherent dm ->
  cacheCoherent (fst (applyFilters filters dm))
  /\ arrays (fst (applyFilters filters dm)) !! snd (applyFilters filters dm)
     = Some (filterRefs (passesFilters filters dm) (allRows dm) 0%nat).
Proof.
  intros Hco.
  destruct (Map_has (JSON_stringify filters) (filterCache dm)) eqn:Hhas.
  - destruct (Map_has_get _ _ Hhas) as [r Hr].
    rewrite (applyFilters_hit _ _ _ Hr). cbn [fst snd].
    split; [|exact (Hco _ _ (Map_get_elem_of _ _ _ Hr))].
    intros f r' Hin. cbn in *. rewrite (Hco f r' Hin). reflexivity.
  - destruct (applyFilters_miss filters dm Hhas) as (Hfresh & Harr & _).
    split; [|exact Harr].
    intros f r' Hin.
    assert (Hext : filterRefs (passesFilters f (fst (applyFilters filters dm)))
                     (allRows (fst (applyFilters filters dm))) 0%nat
                   = filterRefs (passesFilters f dm) (allRows dm) 0%nat).
    { destruct (applyFilters_keeps_store filters dm) as (Ha & Hd & Hs).
      rewrite Ha. apply filterRefs_ext. intros data.
      now apply passesFilters_same_store. }
    rewrite Hext. clear Hext.
    revert Hin Hfresh Harr. unfold applyFilters. rewrite Hhas. cbn [fst snd].
    cbn [filterCache arrays setFiltered]. intros Hin Hfresh Harr.
    apply Map_set_elem_of in Hin as [Heq|Hin].
    + pose proof (f_equal fst Heq) as Hkey. pose proof (f_equal snd Heq) as Hr.
      cbn [fst snd] in Hkey, Hr. subst r'.
      apply JSON_stringify_inj in Hkey as ->.
      exact Harr.
    + assert (Hold : (JSON_stringify f, r') ∈ filterCache dm).
      { destruct (50 <? length (filterCache dm))%nat; [|exact Hin].
        now apply Map_deleteFirstKey_elem_of. }
      pose proof (Hco f r' Hold) as Hr'.
      rewrite lookup_app_l by (eapply lookup_lt_Some; exact Hr').
      exact Hr'.
Qed.

Lemma applyFiltersAll_coherent specs dm :
  cacheCoherent dm ->
  cacheCoherent (applyFiltersAll specs dm)
  /\ allRows (applyFiltersAll specs dm) = allRows dm
  /\ downloadedInvoices (applyFiltersAll specs dm) = downloadedInvoices dm
  /\ downloadStatus (applyFiltersAll specs dm) = downloadStatus dm.
Proof.
  revert dm. induction specs as [|spec specs IH]; intros dm Hco; [cbn; auto|].
  change (applyFiltersAll (spec :: specs) dm)
    with (applyFiltersAll specs (fst (applyFilters spec dm))).
  destruct (IH _ (proj1 (applyFilters_coherent spec dm Hco))) as (Hc & Ha & Hd & Hs).
  destruct (applyFilters_keeps_store spec dm) as (Ha' & Hd' & Hs').
  rewrite Ha, Hd, Hs. auto.
Qed.

(** X8. While the status store does not change, memoization is invisible: on
    a manager whose cache entries are up to date (an empty cache is), after any
    sequence of [applyFilters] calls, a call with any filter object, cached or
    not, returns exactly the rows of [allRows] that pass that filter, in their
    original order. *)
Theorem filter_cache_transparent (specs : list FilterSpec) (filters : FilterSpec)
    (dm : InvoiceDataManager) :
  cacheCoherent dm ->
  let before := applyFiltersAll specs dm in
  let res := applyFilters filters before in
  rowsOf (fst res) (snd res) = List.filter (passesFilters filters dm) (allRows dm)
  /\ currentView (fst res) = filterRefs (passesFilters filters dm) (allRows dm) 0%nat
  /\ cacheCoherent (fst res).
Proof.
  intros Hco before res.
  destruct (applyFiltersAll_coherent specs dm Hco) as (Hco' & Ha & Hd & Hs).
  fold before in Hco', Ha, Hd, Hs.
  destruct (applyFilters_coherent filters before Hco') as [Hco'' Harr].
  fold res in Hco'', Harr.
  assert (Hrefs : filterRefs (passesFilters filters before) (allRows before) 0%nat
                  = filterRefs (passesFilters filters dm) (allRows dm) 0%nat).
  { rewrite Ha. apply filterRefs_ext. intros data.
    now apply passesFilters_same_store. }
  rewrite Hrefs in Harr.
  assert (Hfr : filteredRows (fst res) = snd res).
  { subst res. unfold applyFilters.
    destruct (Map_has (JSON_stringify filters) (filterCache before)); reflexivity. }
  assert (Hrows : allRows (fst res) = allRows dm).
  { subst res. rewrite (proj1 (applyFilters_keeps_store filters before)). exact Ha. }
  split; [|split; [|exact Hco'']].
  - rewrite <- Hrows. apply rowsOf_filterRefs. now rewrite Hrows.
  - unfold currentView. now rewrite Hfr, Harr.
Qed.

Lemma filter_cache_transparent_witness :
  let rows := [exampleData 0 "GB-AEU-2025-0001" "2025-01-10" false;
               exampleData 1 "GB-AEU-2025-0002" "2025-06-01" false]%string in
  let f1 := mkFilterSpec EmptyString "2025-05-01" EmptyString EmptyString in
  let f2 := mkFilterSpec "0001" EmptyString EmptyString EmptyString in
  cacheCoherent (managerOf rows)
  /\ map invoiceId
       (rowsOf (fst (applyFilters f1 (applyFiltersAll [f1; f2; f1; f2] (managerOf rows))))
          (snd (applyFilters f1 (applyFiltersAll [f1; f2; f1; f2] (managerOf rows)))))
     = ["GB-AEU-2025-0002"%string].
Proof.
  intros rows f1 f2.
  assert (H : cacheCoherent (managerOf rows)).
  { intros f r Hin. cbn in Hin. now apply elem_of_nil in Hin. }
  split; [exact H|].
  rewrite (proj1 (filter_cache_transparent [f1; f2; f1; f2] f1 (managerOf rows) H)).
  vm_compute. reflexivity.
Defined.

(** ** Letter case of the marketplace text *)

Lemma toLowerCase_empty (s : string) : toLowerCase s = EmptyString <-> s = EmptyString.
Proof. destruct s; cbn; split; congruence. Qed.

Lemma truthy_toLowerCase (s : string) : truthy (toLowerCase s) = truthy s.
Proof. destruct s; reflexivity. Qed.

(** X9. The marketplace filter ignores the letter case of the text typed: two
    filter objects whose marketplace texts have the same lowercase form, and
    whose other properties are equal, let the same rows pass. *)
Theorem marketplace_filter_ignores_case (filters : FilterSpec) (text : string)
    (dm : InvoiceDataManager) (data : RowData) :
  toLowerCase text = toLowerCase (f_marketplace filters) ->
  passesFilters (withMarketplace text filters) dm data = passesFilters filters dm data.
Proof.
  intros Heq. unfold passesFilters, withMarketplace.
  cbn [f_marketplace f_dateFrom f_dateTo f_status].
  rewrite Heq.
  now rewrite <- (truthy_toLowerCase text), Heq, truthy_toLowerCase.
Qed.

Lemma marketplace_filter_ignores_case_witness :
  toLowerCase "Amazon.DE"
  = toLowerCase (f_marketplace (mkFilterSpec "amazon.de" EmptyString EmptyString EmptyString))
  /\ passesFilters (mkFilterSpec "Amazon.DE" EmptyString EmptyString EmptyString)
       (managerOf []) (exampleData 0 "Amazon.de GB-AEU-2025-0001" EmptyString false)
     = true.
Proof.
  assert (H : toLowerCase "Amazon.DE"
              = toLowerCase (f_marketplace
                  (mkFilterSpec "amazon.de" EmptyString EmptyString EmptyString)))
    by reflexivity.
  split; [exact H|].
  change (mkFilterSpec "Amazon.DE" EmptyString EmptyString EmptyString)
    with (withMarketplace "Amazon.DE"
            (mkFilterSpec "amazon.de" EmptyString EmptyString EmptyString)).
  rewrite (marketplace_filter_ignores_case _ _ (managerOf [])
             (exampleData 0 "Amazon.de GB-AEU-2025-0001" EmptyString false) H).
  vm_compute. reflexivity.
Defined.

(** ** Statuses and the download queue *)

Lemma getDownloadStatus_cases (dm : InvoiceDataManager) (id : string) :
  ((id ∈ downloadedInvoices dm) /\ getDownloadStatus dm id = "downloaded"%string)
  \/ ((id ∉ downloadedInvoices dm)
      /\ (getDownloadStatus dm id = "failed"%string
          \/ getDownloadStatus dm id = "pending"%string)).
Proof.
  unfold getDownloadStatus.
  destruct (decide (id ∈ downloadedInvoices dm)) as [Hin|Hout]; [left; auto|].
  right. split; [exact Hout|].
  destruct (downloadStatus dm !! id) as [e|]; [|auto].
  destruct (String.eqb (status e) "failed" && (RETRY_ATTEMPTS <=? attempts e)); auto.
Qed.

(** X10. The three counters of the selection summary add up: the number of
    selected rows of the current view is the number of selected rows whose
    derived status is [pending], plus those [downloaded], plus those
    [failed]. *)
Theorem selected_count_splits_by_status (dm : InvoiceDataManager) :
  getSelectedCount dm
  = (getSelectedByStatus "pending" dm + getSelectedByStatus "downloaded" dm
     + getSelectedByStatus "failed" dm)%nat.
Proof.
  unfold getSelectedCount, getSelectedByStatus.
  induction (rowsOf dm (filteredRows dm)) as [|data rows IH]; [reflexivity|].
  cbn [List.filter]. destruct (isSelected data); cbn [andb]; [|exact IH].
  destruct (getDownloadStatus_cases dm (invoiceId data)) as [[_ ->]|[_ [->| ->]]];
    cbn [String.eqb Ascii.eqb Bool.eqb andb length]; lia.
Qed.

Lemma selectedRows_alt (dm : InvoiceDataManager) :
  selectedRows dm
  = List.filter
      (fun data : RowData =>
         isSelected data && negb (bool_decide (invoiceId data ∈ downloadedInvoices dm)))
      (rowsOf dm (filteredRows dm)).
Proof.
  unfold selectedRows.
  induction (rowsOf dm (filteredRows dm)) as [|data rows IH]; [reflexivity|].
  cbn [List.filter]. rewrite IH.
  destruct (isSelected data); cbn [andb]; [|reflexivity].
  destruct (getDownloadStatus_cases dm (invoiceId data)) as [[Hin ->]|[Hout [->| ->]]].
  - now rewrite bool_decide_eq_true_2.
  - now rewrite bool_decide_eq_false_2.
  - now rewrite bool_decide_eq_false_2.
Qed.

(** X11. The download queue is made of the selected rows of the current view
    whose invoice id has no recorded success. The retry limit plays no part:
    a selected row is queued again however many failures are recorded for it,
    and it is left out as soon as one success is. *)
Theorem queue_is_selected_not_downloaded (dm : InvoiceDataManager) :
  selectedRows dm
  = List.filter
      (fun data : RowData =>
         isSelected data && negb (bool_decide (invoiceId data ∈ downloadedInvoices dm)))
      (rowsOf dm (filteredRows dm))
  /\ (forall (fs : list (string * Z)) (data : RowData),
      data ∈ selectedRows dm ->
      data ∈ selectedRows (applyStatusOps (recordFailures (invoiceId data) fs) dm))
  /\ (forall (now : Z) (data : RowData),
      data ∉ selectedRows (markAsDownloaded (invoiceId data) now dm)).
Proof.
  split; [apply selectedRows_alt|]. split.
  - intros fs data. rewrite !selectedRows_alt, !list_elem_of_In, !filter_In.
    destruct (applyStatusOps_frame (recordFailures (invoiceId data) fs) dm)
      as (_ & Ha & Hr).
    destruct (recordFailures_attempts (invoiceId data) fs dm) as (_ & Hd & _).
    unfold rowsOf. cbn [filteredRows].
    assert (Hf : filteredRows (applyStatusOps (recordFailures (invoiceId data) fs) dm)
                 = filteredRows dm).
    { clear. induction fs as [|[e t] fs IH] in dm |- *; [reflexivity|].
      change (recordFailures (invoiceId data) ((e, t) :: fs))
        with (RecordFailure (invoiceId data) e t :: recordFailures (invoiceId data) fs).
      rewrite applyStatusOps_cons. now rewrite IH. }
    now rewrite Ha, Hr, Hd, Hf.
  - intros now data. rewrite selectedRows_alt, list_elem_of_In, filter_In.
    intros [_ H]. apply andb_true_iff in H as [_ H].
    rewrite bool_decide_eq_true_2 in H; [discriminate|].
    rewrite downloadedInvoices_markAsDownloaded. set_solver.
Qed.

Lemma queue_is_selected_not_downloaded_witness :
  let data := exampleData 0 "GB-AEU-2025-0001" "2025-01-10" true in
  let fs := [("e1", 1); ("e2", 2); ("e3", 3); ("e4", 4)]%string in
  (data ∈ selectedRows (managerOf [data]))
  /\ getDownloadStatus (applyStatusOps (recordFailures (invoiceId data) fs)
                         (managerOf [data])) (invoiceId data) = "failed"%string
  /\ data ∈ selectedRows
       (applyStatusOps (recordFailures (invoiceId data) fs) (managerOf [data])).
Proof.
  intros data fs.
  assert (H : data ∈ selectedRows (managerOf [data])).
  { vm_compute. apply list_elem_of_here. }
  split; [exact H|]. split; [vm_compute; reflexivity|].
  exact (proj1 (proj2 (queue_is_selected_not_downloaded (managerOf [data]))) fs data H).
Defined.

(** X12. The download button. What [updateSelectionCount] writes agrees with
    [startDirectDownload]: the number of rows that a start request would queue
    is the pending count plus the failed count of the selection summary, so
    right after [updateSelectionCount] the button is disabled exactly when the
    queue would be empty, and there is then no click. The property is written
    elsewhere too: [cancelDownload] and every step that ends a call of
    [startDirectDownload] leave the button enabled, whatever is selected; a
    start request with nothing to queue changes nothing. *)
Theorem download_button_matches_queue (app : InvoiceDownloader) :
  let shown := updateSelectionCount app in
  length (selectedRows (dataManager app))
  = (getSelectedByStatus "pending" (dataManager app)
     + getSelectedByStatus "failed" (dataManager app))%nat
  /\ (downloadDisabled shown = true <-> selectedRows (dataManager app) = [])
  /\ (downloadDisabled shown = true -> clickDownload shown = shown)
  /\ (selectedRows (dataManager app) = [] -> startDirectDownload app = app)
  /\ downloadDisabled (cancelDownload app) = false
  /\ (forall event,
      (length (finished app) < length (finished (downloaderStep app event)))%nat ->
      downloadDisabled (downloaderStep app event) = false).
Proof.
  cbn zeta.
  assert (Hlen : length (selectedRows (dataManager app))
                 = (getSelectedByStatus "pending" (dataManager app)
                    + getSelectedByStatus "failed" (dataManager app))%nat).
  { unfold selectedRows, getSelectedByStatus.
    induction (rowsOf (dataManager app) (filteredRows (dataManager app)))
      as [|data rows IH]; [reflexivity|].
    cbn [List.filter]. destruct (isSelected data); cbn [andb]; [|exact IH].
    destruct (getDownloadStatus_cases (dataManager app) (invoiceId data))
      as [[_ ->]|[_ [->| ->]]];
      cbn [String.eqb Ascii.eqb Bool.eqb andb orb length]; lia. }
  assert (Hiff : downloadDisabled (updateSelectionCount app) = true <->
                 selectedRows (dataManager app) = []).
  { unfold updateSelectionCount. cbn [setDownloadDisabled downloadDisabled].
    rewrite andb_true_iff, !Nat.eqb_eq. split.
    - intros [Hp Hf]. apply length_zero_iff_nil. lia.
    - intros Hnil. rewrite Hnil in Hlen. cbn in Hlen. lia. }
  assert (Hloop : forall run i c app1,
            (length (finished app1) < length (finished (loopTest run i c app1)))%nat ->
            downloadDisabled (loopTest run i c app1) = false).
  { intros run i c app1.
    destruct (loopTest_cases run i c app1) as [(d & _ & _ & ->) | [_ ->]];
      [cbn; lia | reflexivity]. }
  split; [exact Hlen|]. split; [exact Hiff|]. split; [|split; [|split]].
  - intros Hdis. unfold clickDownload. now rewrite Hdis.
  - intros Hnil. unfold startDirectDownload. rewrite Hnil.
    now destruct (isDownloading app).
  - reflexivity.
  - intros [| |run outcome|run]; cbn [downloaderStep].
    + unfold startDirectDownload. destruct (isDownloading app); [lia|].
      destruct (selectedRows (dataManager app)); [lia|].
      intros H. apply Hloop. exact H.
    + cbn. lia.
    + unfold downloadSettles.
      destruct (suspended app !! run) as [[i c [invoiceData|]]|]; [|lia|lia].
      destruct (downloadOne invoiceData outcome (dataManager app) c) as [dm c'].
      destruct (_ && _); [cbn; lia|]. intros H. apply Hloop. exact H.
    + unfold sleepEnds.
      destruct (suspended app !! run) as [[i c [invoiceData|]]|]; [lia| |lia].
      apply Hloop.
Qed.

(** After a call in which the only selected invoice was downloaded, the
    button is enabled although a start request would queue nothing; it is
    disabled again by the next [updateSelectionCount]. *)
Lemma download_button_matches_queue_witness :
  let rows := [exampleData 0 "GB-AEU-2025-0001" "2025-01-10" true] in
  let app := downloaderRun
               [StartClick; DownloadSettles 0 (mkSettlement (Fetched "f.pdf") 9)]
               (appOf rows) in
  downloadDisabled app = false
  /\ selectedRows (dataManager app) = []
  /\ startDirectDownload app = app
  /\ downloadDisabled (updateSelectionCount app) = true
  /\ clickDownload (updateSelectionCount app) = updateSelectionCount app.
Proof.
  intros rows app.
  assert (Hnil : selectedRows (dataManager app) = []) by reflexivity.
  pose proof (download_button_matches_queue app) as (_ & Hiff & Hclick & Hstart & _).
  split; [reflexivity|]. split; [exact Hnil|]. split; [exact (Hstart Hnil)|].
  split; [exact (proj2 Hiff Hnil) | exact (Hclick (proj2 Hiff Hnil))].
Defined.

(** ** Selection *)

Lemma setSelected_idem (b : bool) (data : RowData) :
  setSelected b (setSelected b data) = setSelected b data.
Proof. reflexivity. Qed.

Lemma passesFilters_setSelected filters dm b data :
  passesFilters filters dm (setSelected b data) = passesFilters filters dm data.
Proof. reflexivity. Qed.

(** Assignments to [isSelected] of the rows [refs], in turn. *)
Lemma select_refs_rows (b : bool) (refs : list RowRef) (dm : InvoiceDataManager) :
  let dm' := foldl (fun d r => mutateRow r (setSelected b) d) dm refs in
  (forall j, allRows dm' !! j
             = (if bool_decide (j ∈ refs) then fmap (setSelected b) (allRows dm !! j)
                else allRows dm !! j))
  /\ arrays dm' = arrays dm
  /\ filteredRows dm' = filteredRows dm
  /\ filterCache dm' = filterCache dm
  /\ downloadedInvoices dm' = downloadedInvoices dm
  /\ downloadStatus dm' = downloadStatus dm.
Proof.
  revert dm. induction refs as [|r refs IH]; intros dm; cbn [foldl].
  - repeat split; auto.
  - destruct (IH (mutateRow r (setSelected b) dm)) as (Hrows & Ha & Hf & Hc & Hd & Hs).
    split; [|cbn in *; auto].
    intros j. rewrite Hrows. cbn [mutateRow setRows allRows].
    destruct (decide (r = j)) as [->|Hne].
    + rewrite list_lookup_alter_eq.
      rewrite (bool_decide_eq_true_2 (j ∈ j :: refs)) by apply list_elem_of_here.
      destruct (bool_decide (j ∈ refs)); [|reflexivity].
      destruct (allRows dm !! j); reflexivity.
    + rewrite list_lookup_alter_ne by exact Hne.
      destruct (bool_decide (j ∈ refs)) eqn:Hin.
      * apply bool_decide_eq_true_1 in Hin.
        now rewrite bool_decide_eq_true_2 by (now apply list_elem_of_further).
      * apply bool_decide_eq_false_1 in Hin.
        rewrite bool_decide_eq_false_2; [reflexivity|].
        rewrite elem_of_cons. intros [?|?]; [congruence | tauto].
Qed.

Lemma select_refs_length (b : bool) (refs : list RowRef) (dm : InvoiceDataManager) :
  length (allRows (foldl (fun d r => mutateRow r (setSelected b) d) dm refs))
  = length (allRows dm).
Proof.
  revert dm. induction refs as [|r refs IH]; intros dm; [reflexivity|].
  cbn [foldl]. rewrite IH. cbn. apply length_alter.
Qed.

Lemma filterRefs_pointwise (p : RowData -> bool) (rows rows' : list RowData) (i : nat) :
  Forall2 (fun d d' => p d = p d') rows rows' ->
  filterRefs p rows i = filterRefs p rows' i.
Proof.
  intros H. revert i. induction H as [|d d' rows rows' Hd _ IH]; intros i; [reflexivity|].
  cbn. now rewrite Hd, IH.
Qed.

Lemma count_after_setSelected (b : bool) (l : list RowData) :
  length (List.filter isSelected (map (setSelected b) l))
  = if b then length l else 0%nat.
Proof.
  induction l as [|d l IH]; [now destruct b|].
  cbn [map List.filter setSelected isSelected].
  destruct b; cbn [length]; [now rewrite IH | exact IH].
Qed.

(** X13. [selectAllVisible] sets the flag of every row of the current view
    and of no other row. The rows are shared with the cached arrays: after a
    change of filter, the rows of the new view that were in the old view carry
    the flag, the other rows keep theirs. Nothing else changes: the status
    store, the cache and its arrays are the same, and cache entries that were
    up to date stay up to date. *)
Theorem selectAllVisible_marks_view_rows (selected : bool) (filters : FilterSpec)
    (dm : InvoiceDataManager) :
  let dm1 := selectAllVisible selected dm in
  let dm2 := fst (applyFilters filters dm1) in
  rowsOf dm1 (filteredRows dm1) = map (setSelected selected) (rowsOf dm (filteredRows dm))
  /\ getSelectedCount dm1
     = (if selected then length (rowsOf dm (filteredRows dm)) else 0%nat)
  /\ (forall r, allRows dm2 !! r
                = if bool_decide (r ∈ currentView dm)
                  then fmap (setSelected selected) (allRows dm !! r)
                  else allRows dm !! r)
  /\ filterCache dm1 = filterCache dm /\ arrays dm1 = arrays dm
  /\ downloadedInvoices dm1 = downloadedInvoices dm
  /\ downloadStatus dm1 = downloadStatus dm
  /\ (cacheCoherent dm -> cacheCoherent dm1).
Proof.
  intros dm1 dm2.
  destruct (select_refs_rows selected (currentView dm) dm)
    as (Hrows & Ha & Hf & Hc & Hd & Hs).
  fold (selectAllVisible selected dm) in Hrows, Ha, Hf, Hc, Hd, Hs.
  fold dm1 in Hrows, Ha, Hf, Hc, Hd, Hs.
  assert (Hview : rowsOf dm1 (filteredRows dm1)
                  = map (setSelected selected) (rowsOf dm (filteredRows dm))).
  { unfold rowsOf. rewrite Ha, Hf. fold (currentView dm).
    assert (Hsub : forall l, (forall r, r ∈ l -> r ∈ currentView dm) ->
              omap (fun r : RowRef => allRows dm1 !! r) l
              = map (setSelected selected) (omap (fun r : RowRef => allRows dm !! r) l)).
    { induction l as [|r l IH]; intros Hl; [reflexivity|].
      cbn [omap list_omap]. rewrite Hrows.
      rewrite bool_decide_eq_true_2 by (apply Hl, list_elem_of_here).
      rewrite IH by (intros r' Hr'; apply Hl; now apply list_elem_of_further).
      unfold RowRef in *. destruct (allRows dm !! r); reflexivity. }
    apply Hsub. auto. }
  split; [exact Hview|]. split.
  { unfold getSelectedCount. rewrite Hview. apply count_after_setSelected. }
  split.
  { intros r. subst dm2. rewrite (proj1 (applyFilters_keeps_store filters dm1)).
    apply Hrows. }
  split; [exact Hc|]. split; [exact Ha|]. split; [exact Hd|]. split; [exact Hs|].
  intros Hco f a Hin. rewrite Hc in Hin. rewrite Ha, (Hco f a Hin). f_equal.
  symmetry.
  transitivity (filterRefs (passesFilters f dm) (allRows dm1) 0%nat).
  - apply filterRefs_ext. intros data. now apply passesFilters_same_store.
  - symmetry. apply filterRefs_pointwise.
    apply Forall2_same_length_lookup_2.
    + symmetry. exact (select_refs_length selected (currentView dm) dm).
    + intros j d d' Hd1 Hd2. rewrite Hrows, Hd1 in Hd2.
      destruct (bool_decide (j ∈ currentView dm)); cbn in Hd2; now injection Hd2 as <-.
Qed.

Example selection_survives_filter_change :
  let rows := [exampleData 0 "GB-AEU-2025-0001" "2025-01-10" false;
               exampleData 1 "GB-AEU-2025-0002" "2025-06-01" false]%string in
  let late := mkFilterSpec EmptyString "2025-05-01" EmptyString EmptyString in
  let none := mkFilterSpec EmptyString EmptyString EmptyString EmptyString in
  let dm := fst (applyFilters none
                   (selectAllVisible true (fst (applyFilters late (managerOf rows))))) in
  map (fun d => (invoiceId d, isSelected d)) (rowsOf dm (filteredRows dm))
  = [("GB-AEU-2025-0001", false); ("GB-AEU-2025-0002", true)]%string.
Proof. vm_compute. reflexivity. Qed.

Lemma selectAllVisible_marks_view_rows_witness :
  let rows := [exampleData 0 "GB-AEU-2025-0001" "2025-01-10" false;
               exampleData 1 "GB-AEU-2025-0002" "2025-06-01" false]%string in
  cacheCoherent (managerOf rows)
  /\ cacheCoherent (selectAllVisible true (managerOf rows))
  /\ getSelectedCount (selectAllVisible true (managerOf rows)) = 2%nat.
Proof.
  intros rows.
  assert (H : cacheCoherent (managerOf rows)).
  { intros f r Hin. cbn in Hin. now apply elem_of_nil in Hin. }
  pose proof (selectAllVisible_marks_view_rows true
                (mkFilterSpec EmptyString EmptyString EmptyString EmptyString)
                (managerOf rows)) as Hsel.
  cbv zeta in Hsel.
  destruct Hsel as (_ & Hcount & _ & _ & _ & _ & _ & Hco).
  split; [exact H|]. split; [exact (Hco H)|].
  rewrite Hcount. reflexivity.
Defined.

Lemma omap_lookup_other (f : RowData -> RowData) (r : nat) (rows : list RowData)
    (view : list nat) :
  r ∉ view ->
  omap (fun r' : nat => alter f r rows !! r') view
  = omap (fun r' : nat => rows !! r') view.
Proof.
  induction view as [|x view IH]; intros Hnot; [reflexivity|].
  apply not_elem_of_cons in Hnot as [Hne Hnot].
  cbn [omap list_omap]. rewrite list_lookup_alter_ne by exact Hne.
  now rewrite IH.
Qed.

Lemma omap_alter_at (f : RowData -> RowData) (rows : list RowData)
    (view : list nat) (i : nat) (r : nat) (data : RowData) :
  NoDup view ->
  Forall (fun r' : nat => (r' < length rows)%nat) view ->
  view !! i = Some r ->
  rows !! r = Some data ->
  omap (fun r' : nat => rows !! r') view !! i = Some data
  /\ omap (fun r' : nat => alter f r rows !! r') view
     = <[i := f data]> (omap (fun r' : nat => rows !! r') view).
Proof.
  intros Hnd Hvalid. revert i.
  induction view as [|x view IH]; intros i Hi Hr; [discriminate|].
  apply NoDup_cons in Hnd as [Hx Hnd].
  apply Forall_cons in Hvalid as [Hxv Hvalid].
  apply lookup_lt_is_Some_2 in Hxv as [dx Hdx].
  cbn [omap list_omap]. destruct i as [|i].
  - injection Hi as ->. rewrite list_lookup_alter_eq, Hr. cbn.
    split; [reflexivity|].
    now rewrite omap_lookup_other.
  - cbn in Hi.
    assert (Hne : r <> x).
    { intros ->. apply Hx. eapply list_elem_of_lookup_2; exact Hi. }
    rewrite list_lookup_alter_ne by exact Hne. rewrite Hdx. cbn.
    destruct (IH Hnd Hvalid i Hi Hr) as [Hl ->]. auto.
Qed.

Lemma count_after_insert (l : list RowData) (i : nat) (d d' : RowData) :
  l !! i = Some d ->
  (length (List.filter isSelected (<[i := d']> l)) + flag (isSelected d))%nat
  = (length (List.filter isSelected l) + flag (isSelected d'))%nat.
Proof.
  revert i. induction l as [|x l IH]; intros i Hi; [discriminate|].
  destruct i as [|i].
  - injection Hi as ->. cbn [insert list_insert List.filter]. unfold flag.
    destruct (isSelected d), (isSelected d'); cbn [length]; lia.
  - cbn in Hi. specialize (IH i Hi). cbn [insert list_insert List.filter].
    destruct (isSelected x); cbn [length]; [|exact IH].
    rewrite !Nat.add_succ_l. f_equal. exact IH.
Qed.

(** X14. [toggleSelection] at a position outside the current view changes
    nothing. At a position of the view, when the view holds no row twice (as
    the arrays built by [applyFilters] do), it replaces the flag of that one
    row: the rows of the view are the same but for that position, and the
    selected count moves by the difference of the old and the new flag. *)
Theorem toggleSelection_one_row (i : nat) (selected : bool) (dm : InvoiceDataManager) :
  (currentView dm !! i = None -> toggleSelection i selected dm = dm)
  /\ (forall r data,
      NoDup (currentView dm) ->
      Forall (fun r' : nat => (r' < length (allRows dm))%nat) (currentView dm) ->
      currentView dm !! i = Some r ->
      allRows dm !! r = Some data ->
      let dm' := toggleSelection i selected dm in
      rowsOf dm' (filteredRows dm')
      = <[i := setSelected selected data]> (rowsOf dm (filteredRows dm))
      /\ (getSelectedCount dm' + flag (isSelected data))%nat
         = (getSelectedCount dm + flag selected)%nat).
Proof.
  split.
  - intros Hnone. unfold toggleSelection. now rewrite Hnone.
  - intros r data Hnd Hvalid Hi Hr dm'.
    destruct (omap_alter_at (setSelected selected) (allRows dm) (currentView dm)
                i r data Hnd Hvalid Hi Hr) as [Hl Heq].
    assert (Hrows : rowsOf dm' (filteredRows dm')
                    = <[i := setSelected selected data]> (rowsOf dm (filteredRows dm))).
    { subst dm'. unfold toggleSelection. rewrite Hi.
      unfold rowsOf. cbn [mutateRow setRows arrays filteredRows allRows].
      fold (currentView dm). exact Heq. }
    split; [exact Hrows|].
    unfold getSelectedCount. rewrite Hrows.
    change (isSelected (setSelected selected data)) with selected
      || change selected with (isSelected (setSelected selected data)) at 2.
    apply count_after_insert. exact Hl.
Qed.

Lemma toggleSelection_one_row_witness :
  let rows := [exampleData 0 "GB-AEU-2025-0001" "2025-01-10" false;
               exampleData 1 "GB-AEU-2025-0002" "2025-06-01" false]%string in
  currentView (managerOf rows) !! 5%nat = None
  /\ toggleSelection 5 true (managerOf rows) = managerOf rows.
Proof.
  intros rows.
  assert (H : currentView (managerOf rows) !! 5%nat = None) by reflexivity.
  split; [exact H|].
  exact (proj1 (toggleSelection_one_row 5 true (managerOf rows)) H).
Defined.

Example toggleSelection_second_row :
  let rows := [exampleData 0 "GB-AEU-2025-0001" "2025-01-10" false;
               exampleData 1 "GB-AEU-2025-0002" "2025-06-01" false]%string in
  let dm := toggleSelection 1 true (managerOf rows) in
  map isSelected (rowsOf dm (filteredRows dm)) = [false; true]
  /\ getSelectedCount dm = 1%nat.
Proof. vm_compute. auto. Qed.

Lemma selectIfStatus_same_store dm dm' status b data :
  downloadedInvoices dm' = downloadedInvoices dm ->
  downloadStatus dm' = downloadStatus dm ->
  selectIfStatus dm' status b data = selectIfStatus dm status b data.
Proof.
  intros Hd Hs. unfold selectIfStatus.
  now rewrite (getDownloadStatus_same_store dm dm' _ Hd Hs).
Qed.

Lemma selectIfStatus_idem dm status b data :
  selectIfStatus dm status b (selectIfStatus dm status b data)
  = selectIfStatus dm status b data.
Proof.
  unfold selectIfStatus.
  destruct (String.eqb (getDownloadStatus dm (invoiceId data)) status) eqn:E.
  - cbn [invoiceId setSelected]. now rewrite E.
  - now rewrite E.
Qed.

Lemma select_status_rows (status : string) (b : bool) (refs : list nat)
    (dm : InvoiceDataManager) :
  let step := fun (d : InvoiceDataManager) (r : nat) =>
                match allRows d !! r with
                | Some data =>
                    if String.eqb (getDownloadStatus d (invoiceId data)) status
                    then mutateRow r (setSelected b) d
                    else d
                | None => d
                end in
  let dm' := foldl step dm refs in
  (forall j : nat,
      allRows dm' !! j
      = (if bool_decide (j ∈ refs)
         then fmap (selectIfStatus dm status b) (allRows dm !! j)
         else allRows dm !! j))
  /\ arrays dm' = arrays dm
  /\ filteredRows dm' = filteredRows dm
  /\ filterCache dm' = filterCache dm
  /\ downloadedInvoices dm' = downloadedInvoices dm
  /\ downloadStatus dm' = downloadStatus dm.
Proof.
  intros step. revert dm. induction refs as [|r refs IH]; intros dm; cbn [foldl].
  - repeat split; auto.
  - assert (Hstep : (forall j : nat,
                        allRows (step dm r) !! j
                        = if decide (r = j)
                          then fmap (selectIfStatus dm status b) (allRows dm !! j)
                          else allRows dm !! j)
                    /\ arrays (step dm r) = arrays dm
                    /\ filteredRows (step dm r) = filteredRows dm
                    /\ filterCache (step dm r) = filterCache dm
                    /\ downloadedInvoices (step dm r) = downloadedInvoices dm
                    /\ downloadStatus (step dm r) = downloadStatus dm).
    { subst step. cbn beta. unfold RowRef in *.
      destruct (allRows dm !! r) as [data|] eqn:Hr.
      - destruct (String.eqb (getDownloadStatus dm (invoiceId data)) status) eqn:E.
        + split; [|cbn; auto]. intros j. cbn [mutateRow setRows allRows].
          destruct (decide (r = j)) as [<-|Hne].
          * rewrite list_lookup_alter_eq, Hr. cbn. unfold selectIfStatus.
            now rewrite E.
          * now rewrite list_lookup_alter_ne.
        + split; [|auto]. intros j. destruct (decide (r = j)) as [<-|Hne]; [|reflexivity].
          rewrite Hr. cbn. unfold selectIfStatus. now rewrite E.
      - split; [|auto]. intros j. destruct (decide (r = j)) as [<-|Hne]; [|reflexivity].
        now rewrite Hr. }
    destruct Hstep as (Hrow1 & Ha1 & Hf1 & Hc1 & Hd1 & Hs1).
    destruct (IH (step dm r)) as (Hrows & Ha & Hf & Hc & Hd & Hs).
    split; [|rewrite Ha, Hf, Hc, Hd, Hs; auto].
    intros j. rewrite Hrows, Hrow1.
    destruct (decide (r = j)) as [<-|Hne].
    + rewrite (bool_decide_eq_true_2 (r ∈ r :: refs)) by apply list_elem_of_here.
      destruct (bool_decide (r ∈ refs)); [|reflexivity].
      destruct (allRows dm !! r) as [data|]; [|reflexivity]. cbn.
      rewrite (selectIfStatus_same_store dm (step dm r)) by assumption.
      now rewrite selectIfStatus_idem.
    + destruct (bool_decide (j ∈ refs)) eqn:Hin.
      * apply bool_decide_eq_true_1 in Hin.
        rewrite bool_decide_eq_true_2 by (now apply list_elem_of_further).
        destruct (allRows dm !! j) as [data|]; [|reflexivity]. cbn.
        now rewrite (selectIfStatus_same_store dm (step dm r)) by assumption.
      * apply bool_decide_eq_false_1 in Hin.
        rewrite bool_decide_eq_false_2; [reflexivity|].
        rewrite elem_of_cons. intros [?|?]; [congruence | tauto].
Qed.

Lemma count_status_after_select (dm dm' : InvoiceDataManager) (status : string)
    (b : bool) (l : list RowData) :
  (forall id, getDownloadStatus dm' id = getDownloadStatus dm id) ->
  length (List.filter
            (fun data : RowData =>
               isSelected data
               && String.eqb (getDownloadStatus dm' (invoiceId data)) status)
            (map (selectIfStatus dm status b) l))
  = if b
    then length (List.filter
                   (fun data : RowData =>
                      String.eqb (getDownloadStatus dm (invoiceId data)) status) l)
    else 0%nat.
Proof.
  intros Hst. induction l as [|d l IH]; [now destruct b|].
  cbn [map List.filter]. unfold selectIfStatus at 1 2.
  destruct (String.eqb (getDownloadStatus dm (invoiceId d)) status) eqn:E.
  - cbn [invoiceId isSelected setSelected]. rewrite Hst, E.
    destruct b; cbn [andb length]; [now rewrite IH | exact IH].
  - rewrite Hst, E, andb_false_r. exact IH.
Qed.

(** X15. [selectByStatus] sets the flag of the rows of the current view whose
    derived status is the given one, and leaves every other row as it is.
    After [selectByStatus(status, true)] the number of selected rows with that
    status is the number of rows of the view with that status; the status
    store, the cache and its arrays are unchanged. *)
Theorem selectByStatus_marks_rows_of_status (status : string) (selected : bool)
    (dm : InvoiceDataManager) :
  let dm' := selectByStatus status selected dm in
  rowsOf dm' (filteredRows dm')
  = map (selectIfStatus dm status selected) (rowsOf dm (filteredRows dm))
  /\ getSelectedByStatus status dm'
     = (if selected then length (viewRowsWithStatus dm status) else 0%nat)
  /\ (forall r : nat, r ∉ currentView dm -> allRows dm' !! r = allRows dm !! r)
  /\ filterCache dm' = filterCache dm /\ arrays dm' = arrays dm
  /\ downloadedInvoices dm' = downloadedInvoices dm
  /\ downloadStatus dm' = downloadStatus dm.
Proof.
  intros dm'.
  assert (Hall : (forall j : nat,
                     allRows dm' !! j
                     = (if bool_decide (j ∈ currentView dm)
                        then fmap (selectIfStatus dm status selected) (allRows dm !! j)
                        else allRows dm !! j))
                 /\ arrays dm' = arrays dm
                 /\ filteredRows dm' = filteredRows dm
                 /\ filterCache dm' = filterCache dm
                 /\ downloadedInvoices dm' = downloadedInvoices dm
                 /\ downloadStatus dm' = downloadStatus dm)
    by exact (select_status_rows status selected (currentView dm) dm).
  destruct Hall as (Hrows & Ha & Hf & Hc & Hd & Hs).
  assert (Hview : rowsOf dm' (filteredRows dm')
                  = map (selectIfStatus dm status selected) (rowsOf dm (filteredRows dm))).
  { unfold rowsOf. rewrite Ha, Hf. fold (currentView dm).
    assert (Hsub : forall l : list nat, (forall r, r ∈ l -> r ∈ currentView dm) ->
              omap (fun r : nat => allRows dm' !! r) l
              = map (selectIfStatus dm status selected)
                  (omap (fun r : nat => allRows dm !! r) l)).
    { induction l as [|r l IH]; intros Hl; [reflexivity|].
      cbn [omap list_omap]. rewrite Hrows.
      rewrite bool_decide_eq_true_2 by (apply Hl, list_elem_of_here).
      rewrite IH by (intros r' Hr'; apply Hl; now apply list_elem_of_further).
      destruct (allRows dm !! r); reflexivity. }
    apply Hsub. auto. }
  split; [exact Hview|]. split.
  { unfold getSelectedByStatus, viewRowsWithStatus. rewrite Hview.
    apply count_status_after_select. intros id.
    now apply getDownloadStatus_same_store. }
  split.
  { intros r Hr. rewrite Hrows. now rewrite bool_decide_eq_false_2. }
  auto.
Qed.

Example selectByStatus_pending :
  let rows := [exampleData 0 "GB-AEU-2025-0001" "2025-01-10" false;
               exampleData 1 "GB-AEU-2025-0002" "2025-06-01" false]%string in
  let dm := selectByStatus "pending" true
              (markAsDownloaded "GB-AEU-2025-0001" 5 (managerOf rows)) in
  map isSelected (rowsOf dm (filteredRows dm)) = [false; true]
  /\ length (selectedRows dm) = 1%nat
  /\ getSelectedByStatus "pending" dm = 1%nat.
Proof. vm_compute. auto. Qed.

Lemma selectByStatus_marks_rows_of_status_witness :
  let rows := [exampleData 0 "GB-AEU-2025-0001" "2025-01-10" false;
               exampleData 1 "GB-AEU-2025-0002" "2025-06-01" false]%string in
  let dm := fst (applyFilters (mkFilterSpec EmptyString "2025-05-01" EmptyString EmptyString)
                   (managerOf rows)) in
  (0%nat ∉ currentView dm)
  /\ allRows (selectByStatus "pending" true dm) !! 0%nat = allRows dm !! 0%nat.
Proof.
  intros rows dm.
  assert (H : 0%nat ∉ currentView dm).
  { assert (Hv : currentView dm = [1%nat]) by (vm_compute; reflexivity).
    rewrite Hv, not_elem_of_cons. split; [discriminate | apply not_elem_of_nil]. }
  split; [exact H|].
  exact (proj1 (proj2 (proj2 (selectByStatus_marks_rows_of_status "pending" true dm)))
           0%nat H).
Defined.

(** ** File names *)

Lemma matchesWhole_none (s : string) : matchesWhole RNone s = false.
Proof. induction s as [|c s IH]; [reflexivity | exact IH]. Qed.

Lemma acceptsChar_rseq d a b :
  acceptsChar d (rseq a b) = true -> acceptsChar d a || acceptsChar d b = true.
Proof.
  destruct a, b; cbn; intros H; rewrite ?orb_true_iff in *;
    rewrite ?orb_false_r; auto; try discriminate; tauto.
Qed.

Lemma acceptsChar_ralt d a b :
  acceptsChar d (ralt a b) = true -> acceptsChar d a || acceptsChar d b = true.
Proof.
  destruct a, b; cbn; intros H; rewrite ?orb_true_iff in *;
    rewrite ?orb_false_r; auto; try discriminate; tauto.
Qed.

Lemma deriv_rejected (c : ascii) (r : regex) :
  acceptsChar c r = false -> deriv c r = RNone.
Proof.
  induction r as [| |p|r1 IH1 r2 IH2|r1 IH1 r2 IH2|r1 IH1]; cbn; intros H.
  - reflexivity.
  - reflexivity.
  - now rewrite H.
  - apply orb_false_iff in H as [H1 H2]. rewrite (IH1 H1), (IH2 H2).
    destruct (nullable r1); reflexivity.
  - apply orb_false_iff in H as [H1 H2]. now rewrite (IH1 H1), (IH2 H2).
  - now rewrite (IH1 H).
Qed.

(** The derivative introduces no character class. *)
Lemma acceptsChar_deriv (c d : ascii) (r : regex) :
  acceptsChar d (deriv c r) = true -> acceptsChar d r = true.
Proof.
  induction r as [| |p|r1 IH1 r2 IH2|r1 IH1 r2 IH2|r1 IH1]; cbn.
  - discriminate.
  - discriminate.
  - destruct (p c); discriminate.
  - destruct (nullable r1); intros H.
    + apply acceptsChar_ralt, orb_true_iff in H as [H|H].
      * apply acceptsChar_rseq, orb_true_iff in H as [H|H];
          apply orb_true_iff; auto.
      * apply orb_true_iff; auto.
    + apply acceptsChar_rseq, orb_true_iff in H as [H|H]; apply orb_true_iff; auto.
  - intros H. apply acceptsChar_ralt, orb_true_iff in H as [H|H];
      apply orb_true_iff; auto.
  - intros H. apply acceptsChar_rseq, orb_true_iff in H as [H|H]; auto.
Qed.

Lemma allChars_impl (p q : ascii -> bool) (s : string) :
  (forall c, p c = true -> q c = true) -> allChars p s = true -> allChars q s = true.
Proof.
  intros Hpq. induction s as [|c s IH]; [reflexivity|].
  cbn. rewrite !andb_true_iff. intros [Hc Hs]. auto.
Qed.

(** A string matched by a pattern is made of characters that the classes of
    the pattern accept. *)
Lemma matchesWhole_chars (r : regex) (s : string) :
  matchesWhole r s = true -> allChars (fun c => acceptsChar c r) s = true.
Proof.
  revert r. induction s as [|c s IH]; intros r Hm; [reflexivity|].
  cbn in Hm. cbn. apply andb_true_iff. split.
  - destruct (acceptsChar c r) eqn:E; [reflexivity|].
    now rewrite (deriv_rejected c r E), matchesWhole_none in Hm.
  - apply (allChars_impl (fun d => acceptsChar d (deriv c r))); [|now apply IH].
    intros d. apply acceptsChar_deriv.
Qed.

Lemma invoiceIdPattern_chars (c : ascii) :
  acceptsChar c invoiceIdPattern = true -> isFilenameChar c = true.
Proof.
  destruct c as [[] [] [] [] [] [] [] []]; vm_compute; intros H;
    first [reflexivity | discriminate H].
Qed.

Lemma replaceUnsafeChars_safe (s : string) :
  allChars isFilenameChar s = true -> replaceUnsafeChars s = s.
Proof.
  induction s as [|c s IH]; [reflexivity|].
  cbn. rewrite andb_true_iff. intros [-> Hs]. now rewrite IH.
Qed.

Lemma extractInvoiceId_result (cells : list string) :
  extractInvoiceId cells = EmptyString
  \/ matchesWhole invoiceIdPattern (extractInvoiceId cells) = true.
Proof.
  induction cells as [|cell cells IH]; [left; reflexivity|].
  cbn [extractInvoiceId].
  destruct (matchesWhole invoiceIdPattern (trim cell)) eqn:E; [right; exact E | exact IH].
Qed.

Lemma string_length_replaceUnsafeChars (s : string) :
  String.length (replaceUnsafeChars s) = String.length s.
Proof. induction s as [|c s IH]; [reflexivity|]. cbn. now rewrite IH. Qed.

(** X16. The invoice id part of a file name: the replacement keeps the length
    of the id, leaves only letters, digits, hyphens and underscores, changes
    nothing when applied a second time, and changes nothing at all in an id
    made of letters, digits and hyphens. *)
Theorem replaceUnsafeChars_cleans (s : string) :
  String.length (replaceUnsafeChars s) = String.length s
  /\ allChars (fun c => isFilenameChar c || Ascii.eqb c "_") (replaceUnsafeChars s) = true
  /\ replaceUnsafeChars (replaceUnsafeChars s) = replaceUnsafeChars s
  /\ (allChars isFilenameChar s = true -> replaceUnsafeChars s = s).
Proof.
  split; [apply string_length_replaceUnsafeChars|].
  split; [|split; [|apply replaceUnsafeChars_safe]].
  - induction s as [|c s IH]; [reflexivity|].
    cbn. rewrite IH, andb_true_r.
    destruct (isFilenameChar c) eqn:E; [now rewrite E | reflexivity].
  - induction s as [|c s IH]; [reflexivity|].
    cbn. rewrite IH. destruct (isFilenameChar c) eqn:E; [now rewrite E | reflexivity].
Qed.

Lemma replaceUnsafeChars_cleans_witness :
  allChars isFilenameChar "GB-AEU-2025-0001" = true
  /\ replaceUnsafeChars "GB-AEU-2025-0001" = "GB-AEU-2025-0001"%string.
Proof.
  assert (H : allChars isFilenameChar "GB-AEU-2025-0001" = true) by reflexivity.
  split; [exact H|].
  exact (proj2 (proj2 (proj2 (replaceUnsafeChars_cleans "GB-AEU-2025-0001"))) H).
Defined.

Example replaceUnsafeChars_slash :
  replaceUnsafeChars "GB/AEU 2025_1" = "GB_AEU_2025_1"%string.
Proof. reflexivity. Qed.

Lemma beforeFirst_idem (sep : ascii) (s : string) :
  beforeFirst sep (beforeFirst sep s) = beforeFirst sep s.
Proof.
  induction s as [|c s IH]; [reflexivity|].
  cbn. destruct (Ascii.eqb c sep) eqn:E; [reflexivity|].
  cbn. now rewrite E, IH.
Qed.

Section FileNameFacts.
Context {host : DateHost}.

Lemma readDate_no_T (cells : list string) (n : nat) (s : string) :
  readDate cells n = Normal s -> beforeFirst "T" s = s.
Proof.
  unfold readDate, isoDateOf.
  destruct (dateLikeCells cells !! n) as [text|]; [|now intros [= <-]].
  destruct (toISOString (newDate text)) as [iso|]; [|discriminate].
  cbn. intros [= <-]. apply beforeFirst_idem.
Qed.

Lemma buildRowData_reads (row : Row) (i : nat) (data : RowData) :
  buildRowData row i = Normal data ->
  invoiceId data = extractInvoiceId (row_cells row)
  /\ readDate (row_cells row) 0 = Normal (startDate data)
  /\ readDate (row_cells row) 1 = Normal (endDate data)
  /\ marketplace data = extractMarketplace (row_cells row)
  /\ textContent data = toLowerCase (row_textContent row).
Proof.
  unfold buildRowData, extractDate.
  rewrite !extractDateFrom_reads by lia. cbn [Nat.sub].
  destruct (readDate (row_cells row) 0) as [sd|]; [|discriminate].
  destruct (readDate (row_cells row) 1) as [ed|]; [|discriminate].
  intros [= <-]. auto.
Qed.

Lemma extractInvoiceId_clean (cells : list string) :
  replaceUnsafeChars (extractInvoiceId cells) = extractInvoiceId cells.
Proof.
  destruct (extractInvoiceId_result cells) as [->|Hm]; [reflexivity|].
  apply replaceUnsafeChars_safe.
  apply (allChars_impl (fun c => acceptsChar c invoiceIdPattern));
    [exact invoiceIdPattern_chars | now apply matchesWhole_chars].
Qed.

Lemma content_extractInvoiceId_same (cells : list string) :
  content_extractInvoiceId cells = extractInvoiceId cells.
Proof. induction cells as [|c l IH]; [reflexivity|]. cbn. now rewrite IH. Qed.

(** X17. For a record built by the row parser, the file name is the end date
    as parsed ([unknown-date] when the row has no second date), the invoice id
    exactly as it stands in the table, and the marketplace ([unknown] when it
    is empty), joined by underscores and followed by [.pdf]: the replacement
    of unsafe characters never alters an id that the parser extracted. *)
Theorem generateFilename_of_parsed_row (row : Row) (i : nat) (data : RowData) :
  buildRowData row i = Normal data ->
  replaceUnsafeChars (invoiceId data) = invoiceId data
  /\ generateFilename data
     = filenameOf (orString (endDate data) "unknown-date") (invoiceId data)
         (orString (marketplace data) "unknown").
Proof.
  intros Hbuild.
  destruct (buildRowData_reads row i data Hbuild) as (Hid & _ & Hed & _).
  assert (Hclean : replaceUnsafeChars (invoiceId data) = invoiceId data)
    by (rewrite Hid; apply extractInvoiceId_clean).
  split; [exact Hclean|].
  unfold generateFilename, orString. rewrite Hclean, (readDate_no_T _ _ _ Hed).
  reflexivity.
Qed.

Lemma extractInvoiceId_content (cells : list string) (st : string) :
  plainStatus st ->
  extractInvoiceId (content_cells cells st) = extractInvoiceId cells.
Proof.
  intros (Hid & _ & _). unfold content_cells.
  change (extractInvoiceId (EmptyString :: cells ++ [st]))
    with (extractInvoiceId (cells ++ [st])).
  induction cells as [|c l IH]; cbn [app extractInvoiceId].
  - now rewrite Hid.
  - now rewrite IH.
Qed.

Lemma extractMarketplace_content (cells : list string) (st : string) :
  plainStatus st ->
  extractMarketplace (content_cells cells st) = extractMarketplace cells.
Proof.
  intros (_ & _ & Hm). unfold content_cells.
  change (extractMarketplace (EmptyString :: cells ++ [st]))
    with (extractMarketplace (cells ++ [st])).
  induction cells as [|c l IH]; cbn [app extractMarketplace].
  - now rewrite Hm.
  - now rewrite IH.
Qed.

Lemma dateLikeCells_content (cells : list string) (st : string) :
  plainStatus st ->
  dateLikeCells (content_cells cells st) = dateLikeCells cells.
Proof.
  intros (_ & Hd & _). unfold content_cells.
  change (dateLikeCells (EmptyString :: cells ++ [st]))
    with (dateLikeCells (cells ++ [st])).
  induction cells as [|c l IH].
  - cbn [app]. rewrite dateLikeCells_cons, Hd. reflexivity.
  - cbn [app]. rewrite !dateLikeCells_cons, IH. reflexivity.
Qed.

(** X18. The two generations name the file of a row alike. The first script
    reads the row with its added checkbox cell and status cell: the dataset
    when it enhances the table, the marketplace when it clicks, the status
    cell holding some plain text each time. It sends the background script a
    message made of these values; the file name that the background script
    builds from that message is the one that the optimized script builds from
    its record of the same row of the page. *)
Theorem both_scripts_same_filename (cells : list string) (text text' : string)
    (viewButton : option Button) (button : Button) (status0 status1 : string)
    (i : nat) (data : RowData) (dataset : string * string * string) :
  plainStatus status0 ->
  plainStatus status1 ->
  buildRowData (mkRow cells text viewButton) i = Normal data ->
  content_rowDataset (mkRow (content_cells cells status0) text' (Some button))
  = Normal dataset ->
  background_generateFilename
    (expectDownloadMessage dataset button (content_cells cells status1))
  = generateFilename data.
Proof.
  intros Hplain0 Hplain1 Hbuild Hds.
  destruct (buildRowData_reads _ i data Hbuild) as (Hid & Hsd & Hed & Hm & _).
  cbn [row_cells] in Hid, Hsd, Hed, Hm.
  revert Hds. unfold content_rowDataset, content_extractEndDate. cbn [row_cells].
  rewrite content_extractStartDate_reads, content_extractEndDateFrom_reads by lia.
  cbn [Nat.sub]. unfold readDate in *.
  rewrite (dateLikeCells_content cells status0 Hplain0).
  rewrite Hsd, Hed. cbn. intros [= <-].
  unfold background_generateFilename, expectDownloadMessage, generateFilename, orString.
  cbn [info_invoiceId info_endDate info_marketplace].
  assert (Hcid : content_extractInvoiceId (cells ++ [status0]) = invoiceId data).
  { rewrite content_extractInvoiceId_same, Hid.
    exact (extractInvoiceId_content _ _ Hplain0). }
  rewrite Hcid, (extractMarketplace_content _ _ Hplain1), Hm.
  assert (Hno : beforeFirst "T" (endDate data) = endDate data)
    by exact (readDate_no_T cells 1 _ Hed).
  now rewrite Hno.
Qed.

End FileNameFacts.

Lemma generateFilename_of_parsed_row_witness :
  exists data,
    @buildRowData refHost exampleRow 0 = Normal data
    /\ generateFilename data = "2024-01-31_GB-AEU-2025-0001_de.pdf"%string.
Proof.
  destruct (isNormal_Normal (@buildRowData refHost exampleRow 0) eq_refl) as [data Hdata].
  exists data. split; [exact Hdata|].
  rewrite (proj2 (@generateFilename_of_parsed_row refHost exampleRow 0 data Hdata)).
  revert Hdata. vm_compute. intros [= <-]. reflexivity.
Defined.

Lemma both_scripts_same_filename_witness :
  exists data dataset,
    plainStatus EmptyString
    /\ plainStatus "Pending"
    /\ @buildRowData refHost exampleRow 0 = Normal data
    /\ @content_rowDataset refHost
         (mkRow (content_cells (row_cells exampleRow) EmptyString) EmptyString
            (Some (mkButton "doc-1" ∅)))
       = Normal dataset
    /\ background_generateFilename
         (expectDownloadMessage dataset (mkButton "doc-1" ∅)
            (content_cells (row_cells exampleRow) "Pending"))
       = generateFilename data.
Proof.
  assert (Hplain0 : plainStatus EmptyString) by (repeat split; reflexivity).
  assert (Hplain1 : plainStatus "Pending") by (repeat split; reflexivity).
  destruct (isNormal_Normal (@buildRowData refHost exampleRow 0) eq_refl) as [data Hdata].
  destruct (isNormal_Normal
              (@content_rowDataset refHost
                 (mkRow (content_cells (row_cells exampleRow) EmptyString) EmptyString
                    (Some (mkButton "doc-1" ∅)))) eq_refl) as [dataset Hds].
  exists data, dataset. split; [exact Hplain0|]. split; [exact Hplain1|].
  split; [exact Hdata|]. split; [exact Hds|].
  exact (@both_scripts_same_filename refHost (row_cells exampleRow)
           (row_textContent exampleRow) EmptyString (row_viewButton exampleRow)
           (mkButton "doc-1" ∅) EmptyString "Pending" 0 data dataset
           Hplain0 Hplain1 Hdata Hds).
Defined.

(** * Properties of the background script *)

Lemma background_run_snoc (events : list BackgroundEvent) (event : BackgroundEvent) :
  background_run (events ++ [event])
  = background_step (background_run events) event.
Proof. unfold background_run. now rewrite foldl_app. Qed.

(** What one event can do to the expected download: nothing, replace it by
    that of a message, or use it up for a download. *)
Lemma background_step_cases (bg : Background) (event : BackgroundEvent) :
  (isExpectDownload event = false
   /\ isMonitoring (background_step bg event) = isMonitoring bg
   /\ currentDownloadInfo (background_step bg event) = currentDownloadInfo bg
   /\ monitoringTabId (background_step bg event) = monitoringTabId bg
   /\ downloads (background_step bg event) = downloads bg)
  \/ (exists request senderTabId,
        event = OnMessage "expect_download" request senderTabId
        /\ isMonitoring (background_step bg event) = true
        /\ currentDownloadInfo (background_step bg event) = Some request
        /\ monitoringTabId (background_step bg event) = Some senderTabId
        /\ downloads (background_step bg event) = downloads bg)
  \/ (exists info,
        isExpectDownload event = false
        /\ currentDownloadInfo bg = Some info
        /\ isMonitoring (background_step bg event) = false
        /\ currentDownloadInfo (background_step bg event) = None
        /\ monitoringTabId (background_step bg event) = monitoringTabId bg
        /\ downloads (background_step bg event)
           = downloads bg
             ++ [mkDownload (eventTabUrl event)
                   ("amazon_invoices/" ++ background_generateFilename info)]).
Proof.
  assert (Hhandle : forall tab bg0,
    (handlePdfTab tab bg0 = bg0 /\ currentDownloadInfo bg0 = None)
    \/ exists info, currentDownloadInfo bg0 = Some info
         /\ handlePdfTab tab bg0
            = {| isMonitoring := false; currentDownloadInfo := None;
                 monitoringTabId := monitoringTabId bg0;
                 pendingChecks := pendingChecks bg0;
                 downloads := downloads bg0
                   ++ [mkDownload (tab_url tab)
                         ("amazon_invoices/" ++ background_generateFilename info)] |}).
  { intros tab bg0. unfold handlePdfTab.
    destruct (currentDownloadInfo bg0) as [info|]; [right; eauto | left; auto]. }
  destruct event as [action request sender | tab | tabId updated | changeUrl tab];
    cbn [background_step isExpectDownload eventTabUrl].
  - destruct (String.eqb action "expect_download") eqn:E.
    + apply String.eqb_eq in E. subst action.
      right; left. exists request, sender. cbn. auto.
    + left. auto.
  - left. destruct (_ && _); cbn; auto.
  - destruct (isTabPending tabId (pendingChecks bg)); [|left; auto].
    destruct updated as [updated|]; [|left; cbn; auto].
    destruct (tab_url updated) as [url|] eqn:Eurl; [|left; cbn; auto].
    destruct (truthy url && _); [|left; cbn; auto].
    match goal with |- context [handlePdfTab updated ?b] =>
      destruct (Hhandle updated b) as [[-> Hnone] | (info & Hinfo & ->)] end.
    + left. cbn. auto.
    + right; right. exists info. cbn in Hinfo |- *. rewrite Eurl. repeat split; auto.
  - destruct changeUrl as [url|]; [|left; auto].
    destruct (negb (isMonitoring bg) || negb (truthy url)); [left; auto|].
    destruct (_ || _); [|left; auto].
    destruct (Hhandle tab bg) as [[-> Hnone] | (info & Hinfo & ->)].
    + left. auto.
    + right; right. exists info. cbn. repeat split; auto.
Qed.

(** The message behind the expected download of a reachable state. *)
Lemma expected_download_origin (events : list BackgroundEvent) (info : DownloadInfo) :
  currentDownloadInfo (background_run events) = Some info ->
  exists before senderTabId since,
    events = before ++ OnMessage "expect_download" info senderTabId :: since
    /\ forallb (fun event => negb (isExpectDownload event)) since = true
    /\ downloads (background_run events) = downloads (background_run before).
Proof.
  induction events as [|event events IH] using rev_ind; [discriminate|].
  rewrite background_run_snoc.
  destruct (background_step_cases (background_run events) event)
    as [(Hne & _ & Hinfo & _ & Hd) | [(request & sender & -> & _ & Hinfo & _ & Hd)
                                     | (info' & _ & _ & _ & Hinfo & _)]];
    rewrite Hinfo; intros H.
  - destruct (IH H) as (before & sender & since & -> & Hsince & Hds).
    exists before, sender, (since ++ [event]). split; [|split].
    + now rewrite <- app_assoc.
    + rewrite forallb_app, Hsince. cbn. now rewrite Hne.
    + now rewrite Hd.
  - injection H as ->. exists events, sender, []. auto.
  - discriminate.
Qed.

(** X19. In every state that the background script can reach, [isMonitoring]
    is set exactly when a download is expected, a monitored tab is then
    known, and every expected or started download has a message of its own:
    the number of downloads started, plus one while monitoring, is at most
    the number of [expect_download] messages received. *)
Theorem background_monitoring_invariant (events : list BackgroundEvent) :
  let bg := background_run events in
  (isMonitoring bg = true <-> is_Some (currentDownloadInfo bg))
  /\ (isMonitoring bg = true -> is_Some (monitoringTabId bg))
  /\ (length (downloads bg) + flag (isMonitoring bg)
      <= length (List.filter isExpectDownload events))%nat.
Proof.
  cbn zeta.
  induction events as [|event events IH] using rev_ind.
  - cbn. split; [|split; [|lia]].
    + split; [discriminate | intros [? ?]; discriminate].
    + discriminate.
  - rewrite background_run_snoc, List.filter_app, length_app.
    destruct IH as (IHm & IHt & IHn).
    destruct (background_step_cases (background_run events) event)
      as [(Hne & Hm & Hinfo & Ht & Hd)
         | [(request & sender & -> & Hm & Hinfo & Ht & Hd)
           | (info & Hne & Hold & Hm & Hinfo & Ht & Hd)]];
      rewrite Hm, Hinfo, Ht, Hd.
    + cbn [List.filter]. rewrite Hne. cbn [length]. split; [exact IHm|].
      split; [exact IHt | lia].
    + cbn. split; [split; eauto|]. split; [eauto|].
      destruct (isMonitoring (background_run events)); cbn in *; lia.
    + cbn [List.filter]. rewrite Hne. cbn [length]. rewrite length_app. cbn.
      split; [split; [discriminate | intros [? ?]; discriminate]|].
      split; [discriminate|].
      assert (Hmon : isMonitoring (background_run events) = true)
        by (apply IHm; rewrite Hold; eauto).
      rewrite Hmon in IHn. cbn in IHn. lia.
Qed.

(** X20. A download is named after the latest message: when an event makes
    the background script start a download, the events before it contain an
    [expect_download] message after which no further such message arrived and
    no download was started; the file name of the download is built from that
    message, and its URL is that of the tab of the event. *)
Theorem background_download_named_by_latest_message
    (events : list BackgroundEvent) (event : BackgroundEvent) (d : Download) :
  downloads (background_run (events ++ [event]))
  = downloads (background_run events) ++ [d] ->
  exists before request senderTabId since,
    events = before ++ OnMessage "expect_download" request senderTabId :: since
    /\ forallb (fun e => negb (isExpectDownload e)) since = true
    /\ downloads (background_run events) = downloads (background_run before)
    /\ d = mkDownload (eventTabUrl event)
             ("amazon_invoices/" ++ background_generateFilename request)
    /\ isMonitoring (background_run (events ++ [event])) = false.
Proof.
  rewrite background_run_snoc.
  destruct (background_step_cases (background_run events) event)
    as [(_ & _ & _ & _ & Hd) | [(request & sender & _ & _ & _ & _ & Hd)
                               | (info & _ & Hold & Hm & _ & _ & Hd)]];
    rewrite Hd; intros H.
  - apply (f_equal length) in H. rewrite length_app in H. cbn in H. lia.
  - apply (f_equal length) in H. rewrite length_app in H. cbn in H. lia.
  - apply app_inv_head in H. injection H as <-.
    destruct (expected_download_origin events info Hold)
      as (before & sender & since & Hev & Hsince & Hds).
    exists before, info, sender, since. auto.
Qed.

Lemma background_download_named_by_latest_message_witness :
  let events :=
    [OnMessage "expect_download"
       (mkDownloadInfo "GB-AEU-2025-0001" "doc-1" "2024-01-31" "de") 7;
     OnCreated (mkTab 8 (Some 7) None)] in
  let event := OnTabChecked 8 (Some (mkTab 8 (Some 7) (Some "blob:https://x/1"))) in
  let d := mkDownload (Some "blob:https://x/1")
             "amazon_invoices/2024-01-31_GB-AEU-2025-0001_de.pdf" in
  downloads (background_run (events ++ [event]))
  = downloads (background_run events) ++ [d]
  /\ exists before request senderTabId since,
       events = before ++ OnMessage "expect_download" request senderTabId :: since
       /\ d = mkDownload (eventTabUrl event)
                ("amazon_invoices/" ++ background_generateFilename request).
Proof.
  intros events event d.
  assert (H : downloads (background_run (events ++ [event]))
              = downloads (background_run events) ++ [d]) by reflexivity.
  split; [exact H|].
  destruct (background_download_named_by_latest_message events event d H)
    as (before & request & sender & since & Hev & _ & _ & Hd & _).
  exists before, request, sender, since. split; [exact Hev | exact Hd].
Defined.

(** * Properties of the first script *)

Lemma append_nil_r_str (s : string) : (s ++ EmptyString)%string = s.
Proof.
  induction s as [|c s IH]; [reflexivity|].
  change (String c s ++ EmptyString)%string with (String c (s ++ EmptyString)).
  now rewrite IH.
Qed.

Lemma toLowerCase_app (s t : string) :
  toLowerCase (s ++ t) = (toLowerCase s ++ toLowerCase t)%string.
Proof.
  induction s as [|c s IH]; [reflexivity|].
  change (String c s ++ t)%string with (String c (s ++ t)).
  cbn [toLowerCase]. rewrite IH. reflexivity.
Qed.

Lemma prefix_app (p s t : string) :
  String.prefix p s = true -> String.prefix p (s ++ t) = true.
Proof.
  revert s. induction p as [|c p IH]; intros s H; [now destruct (s ++ t)%string|].
  destruct s as [|d s]; [discriminate|].
  change (String d s ++ t)%string with (String d (s ++ t)).
  cbn [String.prefix] in *.
  destruct (ascii_dec c d); [now apply IH | discriminate].
Qed.

Lemma includes_app_l (s t p : string) :
  includes s p = true -> includes (s ++ t) p = true.
Proof.
  induction s as [|c s IH]; intros H.
  - cbn in H. rewrite orb_false_r in H.
    destruct p; [|discriminate]. now destruct t.
  - change (String c s ++ t)%string with (String c (s ++ t)).
    cbn [includes] in *. apply orb_true_iff in H as [H|H].
    + apply (prefix_app _ _ t) in H.
      change (String c s ++ t)%string with (String c (s ++ t)) in H.
      now rewrite H.
    + rewrite (IH H). apply orb_true_r.
Qed.

Lemma includes_app_r (s t p : string) :
  includes t p = true -> includes (s ++ t) p = true.
Proof.
  intros H. induction s as [|c s IH]; [exact H|].
  change (String c s ++ t)%string with (String c (s ++ t)).
  cbn [includes]. rewrite IH. apply orb_true_r.
Qed.

Section FirstScriptFilter.
Context {host : DateHost}.

(** The [dataset] that [enhanceTable] writes holds what the optimized script
    parses from the same row of the page. *)
Lemma content_dataset_reads (cells : list string) (text text' : string)
    (viewButton viewButton' : option Button) (status0 : string) (i : nat)
    (data : RowData) (dataset : string * string * string) :
  plainStatus status0 ->
  buildRowData (mkRow cells text viewButton) i = Normal data ->
  content_rowDataset (mkRow (content_cells cells status0) text' viewButton')
  = Normal dataset ->
  dataset = (invoiceId data, startDate data, endDate data).
Proof.
  intros Hplain Hbuild Hds.
  destruct (buildRowData_reads _ i data Hbuild) as (Hid & Hsd & Hed & _).
  cbn [row_cells] in Hid, Hsd, Hed.
  revert Hds. unfold content_rowDataset, content_extractEndDate. cbn [row_cells].
  rewrite content_extractStartDate_reads, content_extractEndDateFrom_reads by lia.
  cbn [Nat.sub]. unfold readDate in *.
  rewrite (dateLikeCells_content cells status0 Hplain).
  rewrite Hsd, Hed. cbn. intros [= <-].
  assert (Hcid : content_extractInvoiceId (cells ++ [status0]) = invoiceId data).
  { rewrite content_extractInvoiceId_same, Hid.
    exact (extractInvoiceId_content _ _ Hplain). }
  now rewrite Hcid.
Qed.

(** X21. The filter of the first script shows at least the rows that the
    filter of the optimized script lets pass (its status filter left empty),
    for the same three filter texts and the same row of the page: the date
    tests agree, the marketplace text is searched in the row text with the
    status text behind it. With an empty status cell the two filters agree;
    a non-empty marketplace text found in the status text shows the row
    whatever its marketplace. *)
Theorem first_script_filter_shows_more (cells : list string) (text text' : string)
    (viewButton viewButton' : option Button) (status0 status1 : string) (i : nat)
    (data : RowData) (dataset : string * string * string)
    (hidden checked : bool) (dm : InvoiceDataManager)
    (marketplaceValue dateFrom dateTo : string) :
  plainStatus status0 ->
  buildRowData (mkRow cells text viewButton) i = Normal data ->
  content_rowDataset (mkRow (content_cells cells status0) text' viewButton')
  = Normal dataset ->
  let row := mkContentRow text cells status1 dataset viewButton hidden checked in
  let filters := mkFilterSpec marketplaceValue dateFrom dateTo EmptyString in
  (passesFilters filters dm data = true ->
   content_rowShown marketplaceValue dateFrom dateTo row = true)
  /\ (status1 = EmptyString ->
      content_rowShown marketplaceValue dateFrom dateTo row
      = passesFilters filters dm data)
  /\ (includes (toLowerCase status1) (toLowerCase marketplaceValue) = true ->
      content_rowShown marketplaceValue EmptyString EmptyString row = true).
Proof.
  intros Hplain Hbuild Hds row filters.
  pose proof (content_dataset_reads _ _ _ _ _ _ _ _ _ Hplain Hbuild Hds) as ->.
  destruct (buildRowData_reads _ i data Hbuild) as (_ & _ & _ & _ & Htext).
  cbn [row_textContent] in Htext.
  unfold content_rowShown, passesFilters, row, filters, crow_textContent.
  cbn [crow_dataset crow_pageText crow_statusText f_marketplace f_dateFrom
       f_dateTo f_status truthy].
  rewrite truthy_toLowerCase, toLowerCase_app, Htext.
  set (fromTest := truthy dateFrom && truthy (endDate data)
                   && strLt (endDate data) dateFrom).
  set (toTest := truthy dateTo && truthy (startDate data)
                 && strGt (startDate data) dateTo).
  split; [|split].
  - destruct (truthy marketplaceValue); cbn [andb].
    + destruct (includes (toLowerCase text) (toLowerCase marketplaceValue)) eqn:E;
        cbn [negb]; [|discriminate].
      rewrite (includes_app_l _ (toLowerCase status1) _ E). cbn [negb].
      now destruct fromTest, toTest.
    + now destruct fromTest, toTest.
  - intros ->. cbn [toLowerCase]. rewrite append_nil_r_str.
    destruct (truthy marketplaceValue && _); now destruct fromTest, toTest.
  - intros Hin. rewrite (includes_app_r (toLowerCase text) _ _ Hin).
    cbn [negb]. rewrite andb_false_r. reflexivity.
Qed.
End FirstScriptFilter.

Lemma first_script_filter_shows_more_witness :
  exists data dataset,
    plainStatus EmptyString
    /\ @buildRowData refHost exampleRow 0 = Normal data
    /\ @content_rowDataset refHost
         (mkRow (content_cells (row_cells exampleRow) EmptyString) EmptyString None)
       = Normal dataset
    /\ passesFilters (mkFilterSpec "Amazon.de" "2024-01-01" EmptyString EmptyString)
         newInvoiceDataManager data = true
    /\ content_rowShown "Amazon.de" "2024-01-01" EmptyString
         (mkContentRow (row_textContent exampleRow) (row_cells exampleRow)
            "Pending" dataset (row_viewButton exampleRow) false false) = true.
Proof.
  assert (Hplain : plainStatus EmptyString) by (repeat split; reflexivity).
  destruct (isNormal_Normal (@buildRowData refHost exampleRow 0) eq_refl) as [data Hdata].
  destruct (isNormal_Normal
              (@content_rowDataset refHost
                 (mkRow (content_cells (row_cells exampleRow) EmptyString)
                    EmptyString None)) eq_refl) as [dataset Hds].
  assert (Hpass : passesFilters
                    (mkFilterSpec "Amazon.de" "2024-01-01" EmptyString EmptyString)
                    newInvoiceDataManager data = true).
  { revert Hdata. vm_compute. intros [= <-]. reflexivity. }
  exists data, dataset. split; [exact Hplain|]. split; [exact Hdata|].
  split; [exact Hds|]. split; [exact Hpass|].
  exact (proj1 (@first_script_filter_shows_more refHost (row_cells exampleRow)
                  (row_textContent exampleRow) EmptyString
                  (row_viewButton exampleRow) None EmptyString "Pending" 0
                  data dataset false false newInvoiceDataManager
                  "Amazon.de" "2024-01-01" EmptyString Hplain Hdata Hds) Hpass).
Defined.

Lemma elem_of_Set_add (x y : string) (set : list string) :
  y ∈ Set_add x set <-> y ∈ set \/ y = x.
Proof.
  unfold Set_add. destruct (bool_decide (x ∈ set)) eqn:E.
  - apply bool_decide_eq_true in E. split; [auto | intros [H | ->]; auto].
  - rewrite elem_of_app, list_elem_of_singleton. reflexivity.
Qed.

Lemma positionsFrom_spec {A : Type} (p : A -> bool) (l : list A) (i : nat) :
  StronglySorted lt (positionsFrom p l i)
  /\ forall position, position ∈ positionsFrom p l i ->
       (i <= position)%nat
       /\ exists x, l !! (position - i)%nat = Some x /\ p x = true.
Proof.
  revert i. induction l as [|x l IH]; intros i; cbn [positionsFrom].
  - split; [constructor | intros position H; inversion H].
  - destruct (IH (S i)) as [Hsorted Hin].
    assert (Hrest : forall position, position ∈ positionsFrom p l (S i) ->
              (i <= position)%nat
              /\ exists y, (x :: l) !! (position - i)%nat = Some y /\ p y = true).
    { intros position H. destruct (Hin position H) as (Hle & y & Hy & Hp).
      split; [lia|]. exists y. split; [|exact Hp].
      replace (position - i)%nat with (S (position - S i)) by lia. exact Hy. }
    destruct (p x) eqn:Hpx; [|split; [exact Hsorted | exact Hrest]].
    split.
    + constructor; [exact Hsorted|].
      apply Forall_forall. intros position H.
      exact (proj1 (Hin position H)).
    + intros position H. apply elem_of_cons in H as [-> | H]; [|now apply Hrest].
      split; [lia|]. exists x. rewrite Nat.sub_diag. auto.
Qed.

Lemma StronglySorted_lt_NoDup (l : list nat) : StronglySorted lt l -> NoDup l.
Proof.
  induction 1 as [|x l Hs IH Hall]; constructor; [|exact IH].
  intros Hin. rewrite Forall_forall in Hall.
  specialize (Hall x Hin). lia.
Qed.

Lemma omap_ext_in {A B : Type} (f g : A -> option B) (l : list A) :
  (forall x, x ∈ l -> f x = g x) -> omap f l = omap g l.
Proof.
  induction l as [|x l IH]; intros H; [reflexivity|].
  cbn. rewrite (H x) by apply list_elem_of_here.
  rewrite IH; [reflexivity|]. intros y Hy. apply H. now apply list_elem_of_further.
Qed.

Lemma content_processRow_spec (downloadedText : string) (position : nat)
    (cs : ContentScript) :
  let cs1 := content_processRow downloadedText position cs in
  content_isDownloading cs1 = content_isDownloading cs
  /\ content_sent cs1 = content_sent cs ++ omap (messageAt (content_rows cs)) [position]
  /\ (forall id, id ∈ content_downloadedInvoices cs1
                 <-> id ∈ content_downloadedInvoices cs
                     \/ id ∈ map info_invoiceId
                              (omap (messageAt (content_rows cs)) [position]))
  /\ (forall other, content_rows cs1 !! other
        = if bool_decide (other = position)
          then content_processedRow downloadedText <$> content_rows cs !! other
          else content_rows cs !! other).
Proof.
  cbn zeta.
  assert (Homap : omap (messageAt (content_rows cs)) [position]
                  = match messageAt (content_rows cs) position with
                    | Some message => [message]
                    | None => []
                    end)
    by (cbn; now destruct (messageAt (content_rows cs) position)).
  rewrite Homap. clear Homap. unfold content_processRow, messageAt.
  destruct (content_rows cs !! position) as [row|] eqn:Hrow; cbn [mbind option_bind].
  - assert (Hrows : forall other,
              <[position := content_processedRow downloadedText row]> (content_rows cs)
                !! other
              = if bool_decide (other = position)
                then content_processedRow downloadedText <$> content_rows cs !! other
                else content_rows cs !! other).
    { intros other. destruct (bool_decide (other = position)) eqn:E.
      - apply bool_decide_eq_true in E. subst other. rewrite Hrow. cbn.
        apply list_lookup_insert_eq. now apply lookup_lt_Some in Hrow.
      - apply bool_decide_eq_false in E. now apply list_lookup_insert_ne. }
    destruct (content_messageOf row) as [message|];
      cbn [content_isDownloading content_sent content_downloadedInvoices content_rows
           map].
    + split; [reflexivity|]. split; [reflexivity|]. split; [|exact Hrows].
      intros id. rewrite elem_of_Set_add, list_elem_of_singleton. reflexivity.
    + split; [reflexivity|]. split; [now rewrite app_nil_r|]. split; [|exact Hrows].
      intros id. split; [auto | intros [H|H]; [exact H | inversion H]].
  - split; [reflexivity|]. split; [now rewrite app_nil_r|]. split.
    + intros id. split; [auto | intros [H|H]; [exact H | inversion H]].
    + intros other. destruct (bool_decide (other = position)) eqn:E; [|reflexivity].
      apply bool_decide_eq_true in E. subst other. now rewrite Hrow.
Qed.

Lemma content_loop_spec (downloadedText : string) (cancelAt : nat -> bool)
    (selected : list nat) :
  NoDup selected ->
  forall (i current : nat) (cs cs' : ContentScript) (current' : nat) (cancelled : bool),
  content_loop downloadedText cancelAt selected i current cs = (cs', current', cancelled) ->
  exists n : nat,
    (n <= length selected)%nat
    /\ ((selected = [] /\ current' = current) \/ ((1 <= n)%nat /\ current' = (i + n)%nat))
    /\ (cancelled = false -> n = length selected)
    /\ content_isDownloading cs' = content_isDownloading cs
    /\ content_sent cs'
       = content_sent cs ++ omap (messageAt (content_rows cs)) (take n selected)
    /\ (forall id, id ∈ content_downloadedInvoices cs'
                   <-> id ∈ content_downloadedInvoices cs
                       \/ id ∈ map info_invoiceId
                                (omap (messageAt (content_rows cs)) (take n selected)))
    /\ (forall other, content_rows cs' !! other
          = if bool_decide (other ∈ take n selected)
            then content_processedRow downloadedText <$> content_rows cs !! other
            else content_rows cs !! other).
Proof.
  induction 1 as [|position rest Hnotin Hnodup IH];
    intros i current cs cs' current' cancelled Hloop.
  - cbn in Hloop. injection Hloop as <- <- <-. exists 0%nat. cbn.
    split; [lia|]. split; [left; auto|]. split; [reflexivity|].
    split; [reflexivity|]. split; [now rewrite app_nil_r|]. split; [|reflexivity].
    intros id. split; [auto | intros [H|H]; [exact H | inversion H]].
  - cbn [content_loop] in Hloop.
    destruct (content_processRow_spec downloadedText position cs)
      as (Hdl1 & Hsent1 & Hset1 & Hrows1).
    set (cs1 := content_processRow downloadedText position cs) in *.
    assert (Hone : forall other, other ∈ take 1 (position :: rest) <-> other = position).
    { intros other. cbn. rewrite take_0. apply list_elem_of_singleton. }
    destruct (content_hasButton cs position && cancelAt i).
    + injection Hloop as <- <- <-. exists 1%nat.
      split; [cbn; lia|]. split; [right; split; lia|]. split; [discriminate|].
      split; [exact Hdl1|]. split; [exact Hsent1|]. split; [exact Hset1|].
      intros other. rewrite Hrows1.
      destruct (bool_decide (other = position)) eqn:E.
      * apply bool_decide_eq_true in E.
        now rewrite (bool_decide_eq_true_2 _ (proj2 (Hone other) E)).
      * apply bool_decide_eq_false in E.
        rewrite bool_decide_eq_false_2; [reflexivity|].
        intros H. now apply E, Hone.
    + destruct (IH _ _ _ _ _ _ Hloop)
        as (n & Hn & Hcur & Hall & Hdl & Hsent & Hset & Hrows).
      assert (Hsame : omap (messageAt (content_rows cs1)) (take n rest)
                      = omap (messageAt (content_rows cs)) (take n rest)).
      { apply omap_ext_in. intros other Hother. unfold messageAt.
        rewrite Hrows1. rewrite bool_decide_eq_false_2; [reflexivity|].
        intros ->. apply Hnotin.
        apply (subseteq_take n rest), Hother. }
      rewrite Hsame in Hsent, Hset.
      exists (S n). cbn [take length].
      change (position :: take n rest) with ([position] ++ take n rest).
      rewrite omap_app, map_app.
      split; [lia|]. split; [right; destruct Hcur as [[Hnil ->] | [? ->]];
                         [rewrite Hnil in Hn; cbn in Hn|]; lia|].
      split; [intros Hc; now rewrite (Hall Hc)|].
      split; [now rewrite Hdl|].
      split; [now rewrite Hsent, Hsent1, <- app_assoc|].
      split.
      * intros id. rewrite Hset, Hset1, elem_of_app. tauto.
      * intros other. rewrite Hrows, Hrows1.
        destruct (bool_decide (other = position)) eqn:E.
        -- apply bool_decide_eq_true in E. subst other.
           rewrite (bool_decide_eq_false_2 (position ∈ take n rest)).
           ++ rewrite bool_decide_eq_true_2; [reflexivity|].
              apply elem_of_app. left. apply list_elem_of_singleton. reflexivity.
           ++ intros H. apply Hnotin. apply (subseteq_take n rest), H.
        -- apply bool_decide_eq_false in E.
           destruct (bool_decide (other ∈ take n rest)) eqn:E2.
           ++ apply bool_decide_eq_true in E2.
              rewrite bool_decide_eq_true_2; [reflexivity|].
              apply elem_of_app. now right.
           ++ apply bool_decide_eq_false in E2.
              rewrite bool_decide_eq_false_2; [reflexivity|].
              rewrite elem_of_app, list_elem_of_singleton. tauto.
Qed.

(** X22. A run of [startBulkDownload] of the first script goes through the
    checked rows that are not hidden, in table order, up to the row during
    whose wait Cancel is clicked: [current] rows in all, at least one, and all
    of them unless it was cancelled. For every such row with a View button it
    sends one [expect_download] message and afterwards holds the invoice id of
    the message as downloaded, whatever became of the download; the set of
    downloaded ids only grows, by exactly these ids. The rows gone through
    are unchecked (and show the downloaded status if they have a button), the
    other rows are as before, and [isDownloading] is reset. *)
Theorem startBulkDownload_records_processed_rows (downloadedText : string)
    (cancelAt : nat -> bool) (cs cs' : ContentScript)
    (current total : nat) (cancelled : bool) :
  startBulkDownload downloadedText cancelAt cs = (cs', Some (current, total, cancelled)) ->
  let selected := selectedCheckboxes (content_rows cs) in
  let processed := take current selected in
  let messages := omap (messageAt (content_rows cs)) processed in
  total = length selected
  /\ (1 <= current <= total)%nat
  /\ (cancelled = false -> current = total)
  /\ content_sent cs' = content_sent cs ++ messages
  /\ (forall id, id ∈ content_downloadedInvoices cs'
                 <-> id ∈ content_downloadedInvoices cs
                     \/ id ∈ map info_invoiceId messages)
  /\ (forall position, content_rows cs' !! position
        = if bool_decide (position ∈ processed)
          then content_processedRow downloadedText <$> content_rows cs !! position
          else content_rows cs !! position)
  /\ content_isDownloading cs' = false.
Proof.
  unfold startBulkDownload.
  destruct (content_isDownloading cs); [discriminate|].
  destruct (length (selectedCheckboxes (content_rows cs)) =? 0)%nat eqn:Hlen;
    [discriminate|].
  apply Nat.eqb_neq in Hlen.
  destruct (content_loop _ _ _ _ _ _) as [[cs1 current1] cancelled1] eqn:Hloop.
  intros [= <- <- <- <-]. cbn zeta.
  assert (Hnodup : NoDup (selectedCheckboxes (content_rows cs))).
  { apply StronglySorted_lt_NoDup.
    apply (positionsFrom_spec _ (content_rows cs) 0). }
  destruct (content_loop_spec _ _ _ Hnodup _ _ _ _ _ _ Hloop)
    as (n & Hn & Hcur & Hall & _ & Hsent & Hset & Hrows).
  cbn [content_rows content_sent content_downloadedInvoices] in Hsent, Hset, Hrows.
  destruct Hcur as [[Hnil _] | [Hpos ->]];
    [rewrite Hnil in Hlen; now cbn in Hlen|].
  cbn [Nat.add content_sent content_downloadedInvoices content_rows
       content_isDownloading].
  split; [reflexivity|]. split; [lia|]. split; [exact Hall|].
  split; [exact Hsent|]. split; [exact Hset|]. split; [exact Hrows | reflexivity].
Qed.

Lemma startBulkDownload_records_processed_rows_witness :
  let cs :=
    {| content_isDownloading := false;
       content_downloadedInvoices := [];
       content_rows :=
         [mkContentRow "GB-AEU-2025-0001 Amazon.DE" ["GB-AEU-2025-0001"; "Amazon.DE"]
            "Pending" ("GB-AEU-2025-0001", "2024-01-15", "2024-01-31")
            (Some (mkButton "doc-1" ∅)) false true;
          mkContentRow "GB-AEU-2025-0002" ["GB-AEU-2025-0002"]
            "Pending" ("GB-AEU-2025-0002", EmptyString, EmptyString)
            None false true]%string;
       content_stored := None;
       content_sent := [] |} in
  let result := startBulkDownload "Downloaded" (fun _ => false) cs in
  result.2 = Some (2, 2, false)%nat
  /\ content_sent result.1
     = [mkDownloadInfo "GB-AEU-2025-0001" "doc-1" "2024-01-31" "de"]
  /\ forall id, id ∈ content_downloadedInvoices result.1
                <-> id ∈ content_downloadedInvoices cs
                    \/ id ∈ map info_invoiceId
                             (omap (messageAt (content_rows cs))
                                (take 2 (selectedCheckboxes (content_rows cs)))).
Proof.
  intros cs result.
  assert (Hrun : startBulkDownload "Downloaded" (fun _ => false) cs
                 = (result.1, Some (2, 2, false)%nat)) by reflexivity.
  split; [reflexivity|]. split; [reflexivity|].
  exact (proj1 (proj2 (proj2 (proj2 (proj2
           (startBulkDownload_records_processed_rows _ _ _ _ _ _ _ Hrun)))))).
Defined.

(** * Properties of the request for the PDF URL *)

Lemma truthy_encodeURIComponent (s : string) :
  truthy (encodeURIComponent s) = truthy s.
Proof.
  destruct s as [|c s]; [reflexivity|].
  cbn [encodeURIComponent truthy]. unfold encodeURIChar.
  destruct (isUriUnreserved c); [reflexivity|].
  destruct (code c <? 128)%N; reflexivity.
Qed.

Lemma truthy_false_empty (s : string) : truthy s = false <-> s = EmptyString.
Proof. destruct s; cbn; split; congruence. Qed.

(** X23. The request of [getPdfUrlFromAmazon] names the document in exactly
    one of two ways: besides its five common fields it carries either [rarId]
    and [shedDocumentName], both non-empty, or [documentVersionId]. The guard
    of [downloadPdfDirect] does not make the second form usable: the download
    gets past the guard with an empty [documentVersionId] in the request
    exactly when the row has no document version id and a [rarId] that the
    test for the first form rejects (no [shedDocumentName], or the text
    [null] in either attribute). *)
Theorem request_names_document_one_way (invoiceData : RowData) (filename : string) :
  let buttonData := buttonData invoiceData in
  let payload := requestPayload (documentVersionId invoiceData) buttonData in
  let common := ["fileType"; "vatInvoiceNumber"; "endDate";
                 "payeeRegistrationNumber"; "filterName"]%string in
  (if usesShedFields buttonData
   then map fst payload = common ++ ["rarId"; "shedDocumentName"]%string
        /\ (exists rarId, Map_get "rarId" payload = Some rarId /\ rarId <> EmptyString)
        /\ (exists name, Map_get "shedDocumentName" payload = Some name
                         /\ name <> EmptyString)
   else map fst payload = common ++ ["documentVersionId"]%string
        /\ Map_get "documentVersionId" payload
           = Some (encodeURIComponent (documentVersionId invoiceData)))
  /\ (downloadPdfDirect invoiceData (Fetched filename) = Normal filename
      /\ Map_get "documentVersionId" payload = Some EmptyString
      <-> documentVersionId invoiceData = EmptyString
          /\ truthy (orEmpty (getProp buttonData "rarId")) = true
          /\ usesShedFields buttonData = false).
Proof.
  cbn zeta. unfold requestPayload, downloadPdfDirect.
  destruct (usesShedFields (buttonData invoiceData)) eqn:Hshed.
  - split.
    + split; [reflexivity|].
      unfold usesShedFields in Hshed. cbn zeta in Hshed.
      apply andb_true_iff in Hshed as [Hshed _].
      apply andb_true_iff in Hshed as [Hshed _].
      apply andb_true_iff in Hshed as [Hr Hs].
      split; eexists; (split; [reflexivity|]); intros He;
        apply truthy_false_empty in He; rewrite truthy_encodeURIComponent in He;
        congruence.
    + split; [intros [_ H]; discriminate H | intros (_ & _ & H); discriminate H].
  - split; [split; reflexivity|].
    cbn [app Map_get String.eqb Ascii.eqb Bool.eqb].
    split.
    + intros [Hguard Hid]. injection Hid as Hid.
      apply truthy_false_empty in Hid. rewrite truthy_encodeURIComponent in Hid.
      rewrite Hid in Hguard. cbn [negb andb] in Hguard.
      destruct (truthy (orEmpty (getProp (buttonData invoiceData) "rarId")));
        [|discriminate].
      split; [now apply truthy_false_empty | auto].
    + intros (Hid & Hr & _). rewrite Hid, Hr. cbn. auto.
Qed.

Lemma request_names_document_one_way_witness :
  exists data,
    @buildRowData refHost
      (mkRow ["GB-AEU-2025-0001"]%string "GB-AEU-2025-0001"
         (Some (mkButton EmptyString {["data-rarid" := "R-1"]}))%string) 0
    = Normal data
    /\ downloadPdfDirect data (Fetched "a.pdf") = Normal "a.pdf"%string
    /\ Map_get "documentVersionId"
         (requestPayload (documentVersionId data) (buttonData data))
       = Some EmptyString.
Proof.
  destruct (isNormal_Normal
              (@buildRowData refHost
                 (mkRow ["GB-AEU-2025-0001"]%string "GB-AEU-2025-0001"
                    (Some (mkButton EmptyString {["data-rarid" := "R-1"]}))%string) 0)
              eq_refl) as [data Hdata].
  exists data. split; [exact Hdata|].
  apply (proj2 (request_names_document_one_way data "a.pdf")).
  revert Hdata. vm_compute. intros [= <-]. vm_compute. auto.
Defined.

(** * Properties of the filter manager *)

Lemma applyFilters_view (filters : FilterSpec) (dm : InvoiceDataManager) :
  cacheCoherent dm ->
  let dm' := fst (applyFilters filters dm) in
  cacheCoherent dm'
  /\ allRows dm' = allRows dm
  /\ downloadedInvoices dm' = downloadedInvoices dm
  /\ downloadStatus dm' = downloadStatus dm
  /\ rowsOf dm' (filteredRows dm') = List.filter (passesFilters filters dm) (allRows dm).
Proof.
  intros Hco dm'.
  destruct (applyFilters_coherent filters dm Hco) as [Hco' Harr].
  destruct (applyFilters_keeps_store filters dm) as (Ha & Hd & Hs).
  fold dm' in Hco', Harr, Ha, Hd, Hs.
  assert (Hfr : filteredRows dm' = snd (applyFilters filters dm)).
  { subst dm'. unfold applyFilters.
    destruct (Map_has (JSON_stringify filters) (filterCache dm)); reflexivity. }
  repeat (split; [assumption|]).
  rewrite Hfr, <- Ha. apply rowsOf_filterRefs. now rewrite Ha.
Qed.

Lemma clearTimeout_own (id : nat) : clearTimeout (Some id) [id] = [].
Proof. cbn. now rewrite Nat.eqb_refl. Qed.

(** X24. The debounce of the filter inputs settles: after any sequence of
    [updateFilter] calls, [clearFilters] calls and timer callbacks on a new
    filter manager (the download statuses staying as they are), at most one
    timer is pending and it is the one in [debounceTimer]; whenever no timer
    is pending, the rows shown are exactly the rows of [allRows] that pass the
    current filter values, in their original order; and the filter has run at
    most once for each call made, a pending timer counting as a run to
    come. *)
Theorem debounce_settles (dm : InvoiceDataManager) (events : list FilterEvent) :
  cacheCoherent dm ->
  rowsOf dm (filteredRows dm) = allRows dm ->
  let fm := filterRun events (newFilterManager dm) in
  let dm' := fm_dataManager fm in
  (pendingTimers fm = []
   \/ exists id, pendingTimers fm = [id] /\ debounceTimer fm = Some id)
  /\ (pendingTimers fm = [] ->
      rowsOf dm' (filteredRows dm')
      = List.filter (passesFilters (currentFilters fm) dm) (allRows dm))
  /\ (updateCalls fm + length (pendingTimers fm)
      <= length (List.filter isFilterCall events))%nat
  /\ allRows dm' = allRows dm
  /\ downloadStatus dm' = downloadStatus dm
  /\ cacheCoherent dm'.
Proof.
  intros Hco Hview. cbn zeta.
  enough (Hinv :
    let fm := filterRun events (newFilterManager dm) in
    let dm' := fm_dataManager fm in
    (pendingTimers fm = []
     \/ exists id, pendingTimers fm = [id] /\ debounceTimer fm = Some id)
    /\ (pendingTimers fm = [] ->
        rowsOf dm' (filteredRows dm')
        = List.filter (passesFilters (currentFilters fm) dm) (allRows dm))
    /\ (updateCalls fm + length (pendingTimers fm)
        <= length (List.filter isFilterCall events))%nat
    /\ allRows dm' = allRows dm
    /\ downloadedInvoices dm' = downloadedInvoices dm
    /\ downloadStatus dm' = downloadStatus dm
    /\ cacheCoherent dm').
  { cbn zeta in Hinv. tauto. }
  cbn zeta.
  induction events as [|event events IH] using rev_ind.
  - cbn. split; [auto|]. split; [|split; [lia | auto]].
    intros _. rewrite Hview. symmetry.
    apply forallb_filter_id. now apply forallb_forall.
  - unfold filterRun in *. rewrite foldl_app, List.filter_app, length_app.
    cbn [foldl].
    set (fm := foldl filterStep (newFilterManager dm) events) in *.
    set (calls := length (List.filter isFilterCall events)) in *.
    destruct IH as (Hpending & Hshown & Hcount & Ha & Hd & Hs & Hco').
    assert (Happly : forall fm0,
              fm_dataManager fm0 = fm_dataManager fm ->
              let dm' := fm_dataManager (FilterManager_applyFilters fm0) in
              rowsOf dm' (filteredRows dm')
              = List.filter (passesFilters (currentFilters fm0) dm) (allRows dm)
              /\ allRows dm' = allRows dm
              /\ downloadedInvoices dm' = downloadedInvoices dm
              /\ downloadStatus dm' = downloadStatus dm
              /\ cacheCoherent dm').
    { intros fm0 Hdm. cbn [FilterManager_applyFilters fm_dataManager]. rewrite Hdm.
      destruct (applyFilters_view (currentFilters fm0) (fm_dataManager fm) Hco')
        as (Hc1 & Ha1 & Hd1 & Hs1 & Hrows1).
      rewrite Hrows1, Ha1, Hd1, Hs1, Ha, Hd, Hs.
      split; [|auto].
      apply filter_ext. intros data. now apply passesFilters_same_store. }
    destruct event as [filterType value | | id];
      cbn [filterStep List.filter isFilterCall length].
    + unfold updateFilter.
      cbn [pendingTimers debounceTimer fm_dataManager currentFilters updateCalls].
      assert (Hcleared : clearTimeout (debounceTimer fm) (pendingTimers fm) = []).
      { destruct Hpending as [-> | (id & -> & ->)];
          [now destruct (debounceTimer fm) | apply clearTimeout_own]. }
      rewrite Hcleared. cbn [app length].
      split; [right; eauto|]. split; [discriminate|]. split; [lia | auto].
    + unfold clearFilters.
      match goal with |- context [FilterManager_applyFilters ?f] =>
        destruct (Happly f eq_refl) as (Hrows1 & Ha1 & Hd1 & Hs1 & Hc1) end.
      cbn [FilterManager_applyFilters pendingTimers debounceTimer currentFilters
           fm_dataManager updateCalls] in *.
      split; [exact Hpending|]. split; [intros _; exact Hrows1|].
      split; [lia | auto].
    + unfold timerFires.
      destruct (existsb (Nat.eqb id) (pendingTimers fm)) eqn:Hex;
        [|split; [exact Hpending|]; split; [exact Hshown|]; split; [lia | auto]].
      match goal with |- context [FilterManager_applyFilters ?f] =>
        destruct (Happly f eq_refl) as (Hrows1 & Ha1 & Hd1 & Hs1 & Hc1) end.
      cbn [FilterManager_applyFilters pendingTimers debounceTimer currentFilters
           fm_dataManager updateCalls] in *.
      destruct Hpending as [Hnil | (id' & Hone & Htimer)];
        [rewrite Hnil in Hex; discriminate|].
      rewrite Hone in Hex, Hcount |- *. cbn in Hex. rewrite orb_false_r in Hex.
      apply Nat.eqb_eq in Hex. subst id'. rewrite clearTimeout_own.
      cbn [length] in *.
      split; [left; reflexivity|]. split; [intros _; exact Hrows1|].
      split; [lia | auto].
Qed.

Lemma debounce_settles_witness :
  let rows := [exampleData 0 "GB-AEU-2025-0001" "2025-01-10" false;
               exampleData 1 "GB-AEU-2025-0002" "2025-06-01" false]%string in
  let events := [UpdateFilter FilterMarketplace "0002";
                 UpdateFilter FilterDateFrom "2025-05-01";
                 TimerFires 1] in
  let fm := filterRun events (newFilterManager (managerOf rows)) in
  cacheCoherent (managerOf rows)
  /\ rowsOf (managerOf rows) (filteredRows (managerOf rows)) = rows
  /\ pendingTimers fm = []
  /\ updateCalls fm = 1%nat
  /\ map invoiceId (rowsOf (fm_dataManager fm) (filteredRows (fm_dataManager fm)))
     = ["GB-AEU-2025-0002"%string].
Proof.
  intros rows events fm.
  assert (Hco : cacheCoherent (managerOf rows)).
  { intros f r Hin. cbn in Hin. now apply elem_of_nil in Hin. }
  assert (Hview : rowsOf (managerOf rows) (filteredRows (managerOf rows))
                  = allRows (managerOf rows)) by reflexivity.
  assert (Hnone : pendingTimers fm = []) by reflexivity.
  split; [exact Hco|]. split; [exact Hview|]. split; [exact Hnone|].
  split; [reflexivity|].
  pose proof (proj1 (proj2 (debounce_settles (managerOf rows) events Hco Hview)) Hnone)
    as Hshown.
  cbn zeta in Hshown. fold fm in Hshown. rewrite Hshown.
  vm_compute. reflexivity.
Defined.

(** * Selection and filter in the first script *)

Lemma positionsFrom_map {A B : Type} (p : B -> bool) (g : A -> B) (l : list A) (i : nat) :
  positionsFrom p (map g l) i = positionsFrom (fun x => p (g x)) l i.
Proof.
  revert i. induction l as [|x l IH]; intros i; [reflexivity|].
  cbn. now rewrite IH.
Qed.

Lemma positionsFrom_ext {A : Type} (p q : A -> bool) (l : list A) (i : nat) :
  (forall x, p x = q x) -> positionsFrom p l i = positionsFrom q l i.
Proof.
  intros H. revert i. induction l as [|x l IH]; intros i; [reflexivity|].
  cbn. now rewrite H, IH.
Qed.

Lemma length_positionsFrom {A : Type} (p : A -> bool) (l : list A) (i : nat) :
  length (positionsFrom p l i) = length (List.filter p l).
Proof.
  revert i. induction l as [|x l IH]; intros i; [reflexivity|].
  cbn. destruct (p x); cbn; now rewrite IH.
Qed.

Lemma content_rowShown_empty (row : ContentRow) :
  content_rowShown EmptyString EmptyString EmptyString row = true.
Proof. unfold content_rowShown. now destruct (crow_dataset row) as [[? ?] ?]. Qed.

(** X25. Selection follows the filter in the first script, but only for the
    rows shown. Checking all rows after [filterRows] selects exactly the rows
    that the filter shows, and the count displayed is the number of rows that
    a download would go through. Unchecking all rows while a filter is set
    leaves the hidden rows checked: once the filter inputs are emptied, the
    selection is the rows that were checked before and hidden by the
    filter. *)
Theorem content_selection_follows_filter (marketplaceValue dateFrom dateTo : string)
    (rows : list ContentRow) :
  let filtered := filterRows marketplaceValue dateFrom dateTo rows in
  selectedCheckboxes (toggleAllVisible true filtered)
  = positionsFrom (content_rowShown marketplaceValue dateFrom dateTo) rows 0
  /\ updateSelectedCount (toggleAllVisible true filtered)
     = length (selectedCheckboxes (toggleAllVisible true filtered))
  /\ selectedCheckboxes
       (filterRows EmptyString EmptyString EmptyString (toggleAllVisible false filtered))
     = positionsFrom
         (fun row => crow_checked row
                     && negb (content_rowShown marketplaceValue dateFrom dateTo row))
         rows 0.
Proof.
  cbn zeta. unfold selectedCheckboxes, toggleAllVisible, filterRows, updateSelectedCount.
  split; [|split].
  - rewrite !positionsFrom_map. apply positionsFrom_ext. intros row.
    cbn [setHidden crow_hidden].
    destruct (content_rowShown marketplaceValue dateFrom dateTo row);
      cbn [negb setChecked setHidden crow_hidden crow_checked andb];
      [reflexivity | apply andb_false_r].
  - rewrite length_positionsFrom.
    generalize (map (fun row : ContentRow =>
                       if negb (crow_hidden row) then setChecked true row else row)
                  (map (fun row : ContentRow =>
                          setHidden
                            (negb (content_rowShown marketplaceValue dateFrom dateTo row))
                            row) rows)).
    intros l. induction l as [|row l IH]; [reflexivity|].
    cbn [List.filter]. destruct (crow_checked row); cbn [andb List.filter].
    + destruct (negb (crow_hidden row)); cbn [length]; now rewrite IH.
    + exact IH.
  - rewrite !positionsFrom_map. apply positionsFrom_ext. intros row.
    cbn [setHidden crow_hidden].
    destruct (content_rowShown marketplaceValue dateFrom dateTo row) eqn:E;
      cbn [negb setChecked setHidden crow_hidden crow_checked].
    + rewrite content_rowShown_empty. cbn. now rewrite andb_false_r.
    + rewrite content_rowShown_empty. cbn. now rewrite !andb_true_r.
Qed.

(** * A start request while a cancelled call is suspended *)

(** X26. The fields are read again after every [await]. When Cancel is
    clicked while a call of [startDirectDownload] waits between two downloads,
    the next start request is accepted, and it replaces the queue and sets
    [isDownloading] again; when its wait ends, the cancelled call finds the
    loop test true and goes on, with the item of the new queue at its own next
    index, beside the new call: the updates of that item are then made by the
    cancelled call. *)
Theorem cancelled_loop_resumes_on_new_queue (app : InvoiceDownloader)
    (run i : nat) (c : Counts) (next : RowData) :
  suspended app !! run = Some (mkActivation i c AwaitSleep) ->
  (run < runsStarted app)%nat ->
  selectedRows (dataManager app) !! S i = Some next ->
  let restarted := startDirectDownload (cancelDownload app) in
  let resumed := sleepEnds run restarted in
  runsStarted restarted = S (runsStarted app)
  /\ isDownloading restarted = true
  /\ downloadQueue restarted = selectedRows (dataManager app)
  /\ (exists first,
        selectedRows (dataManager app) !! 0%nat = Some first
        /\ suspended resumed !! runsStarted app
           = Some (mkActivation 0 {| successCount := 0; failureCount := 0 |}
                     (AwaitDownload first)))
  /\ suspended resumed !! run = Some (mkActivation (S i) c (AwaitDownload next))
  /\ (forall outcome,
        statusUpdates (downloadSettles run outcome resumed)
        = statusUpdates app ++ [(run, terminalUpdate next outcome)]).
Proof.
  intros Hsleep Hrun Hnext. cbn zeta.
  assert (Hrestart : exists first rest,
            selectedRows (dataManager app) = first :: rest
            /\ startDirectDownload (cancelDownload app)
               = suspend (runsStarted app)
                   (mkActivation 0 {| successCount := 0; failureCount := 0 |}
                      (AwaitDownload first))
                   (setCurrentDownloadIndex 0
                      (showProgress
                         {| dataManager := dataManager app;
                            isDownloading := true;
                            downloadQueue := first :: rest;
                            currentDownloadIndex := 0%nat;
                            downloadDisabled := false;
                            suspended := suspended app;
                            runsStarted := S (runsStarted app);
                            finished := finished app;
                            statusUpdates := statusUpdates app |}))).
  { unfold startDirectDownload. cbn [cancelDownload hideProgress setIsDownloading
      setDownloadDisabled isDownloading dataManager].
    destruct (selectedRows (dataManager app)) as [|first rest]; [discriminate|].
    exists first, rest. split; reflexivity. }
  destruct Hrestart as (first & rest & Hq & ->). rewrite Hq in *.
  assert (Hresumed :
            sleepEnds run
              (suspend (runsStarted app)
                 (mkActivation 0 {| successCount := 0; failureCount := 0 |}
                    (AwaitDownload first))
                 (setCurrentDownloadIndex 0
                    (showProgress
                       {| dataManager := dataManager app;
                          isDownloading := true;
                          downloadQueue := first :: rest;
                          currentDownloadIndex := 0%nat;
                          downloadDisabled := false;
                          suspended := suspended app;
                          runsStarted := S (runsStarted app);
                          finished := finished app;
                          statusUpdates := statusUpdates app |})))
            = suspend run (mkActivation (S i) c (AwaitDownload next))
                (setCurrentDownloadIndex (S i)
                   (suspend (runsStarted app)
                      (mkActivation 0 {| successCount := 0; failureCount := 0 |}
                         (AwaitDownload first))
                      (setCurrentDownloadIndex 0
                         (showProgress
                            {| dataManager := dataManager app;
                               isDownloading := true;
                               downloadQueue := first :: rest;
                               currentDownloadIndex := 0%nat;
                               downloadDisabled := false;
                               suspended := suspended app;
                               runsStarted := S (runsStarted app);
                               finished := finished app;
                               statusUpdates := statusUpdates app |}))))).
  { unfold sleepEnds.
    cbn [suspend suspended setCurrentDownloadIndex showProgress setDownloadDisabled].
    rewrite lookup_insert_ne by lia. rewrite Hsleep.
    unfold loopTest.
    cbn [suspend downloadQueue isDownloading setCurrentDownloadIndex showProgress
         setDownloadDisabled].
    now rewrite Hnext. }
  rewrite Hresumed.
  split; [reflexivity|]. split; [reflexivity|]. split; [reflexivity|].
  split; [|split].
  - exists first. split; [reflexivity|].
    cbn [suspend suspended setCurrentDownloadIndex showProgress setDownloadDisabled].
    rewrite lookup_insert_ne by lia. apply lookup_insert_eq.
  - cbn [suspend suspended setCurrentDownloadIndex]. apply lookup_insert_eq.
  - intros outcome. unfold downloadSettles.
    cbn [suspend suspended setCurrentDownloadIndex]. rewrite lookup_insert_eq.
    destruct (downloadOne next outcome _ c) as [dm c'].
    destruct (_ && _);
      [reflexivity | now rewrite (proj2 (proj2 (proj2 (loopTest_frame _ _ _ _))))].
Qed.

(** Three invoices are selected; Cancel is clicked in the wait after the
    first download and the download button again before that wait ends. The
    cancelled call then downloads the third invoice and, returning, resets
    [isDownloading]: the second call ends after one of its two invoices,
    though nobody cancelled it. *)
Lemma cancelled_loop_resumes_on_new_queue_witness :
  let rows := [exampleData 0 "GB-AEU-2025-0001" "2025-01-10" true;
               exampleData 1 "GB-AEU-2025-0002" "2025-06-01" true;
               exampleData 2 "GB-AEU-2025-0003" "2025-06-01" true]%string in
  let ok := mkSettlement (Fetched "f.pdf") 100 in
  let app := downloaderRun [StartClick; DownloadSettles 0 ok] (appOf rows) in
  let resumed := sleepEnds 0 (startDirectDownload (cancelDownload app)) in
  let final := downloaderRun [DownloadSettles 0 ok; DownloadSettles 1 ok] resumed in
  suspended app !! 0%nat
  = Some (mkActivation 0 {| successCount := 1; failureCount := 0 |} AwaitSleep)
  /\ map invoiceId (selectedRows (dataManager app))
     = ["GB-AEU-2025-0002"; "GB-AEU-2025-0003"]%string
  /\ (act_i <$> suspended resumed !! 0%nat) = Some 1%nat
  /\ statusUpdates final
     = [(0, RecordSuccess "GB-AEU-2025-0001" 100);
        (0, RecordSuccess "GB-AEU-2025-0003" 100);
        (1, RecordSuccess "GB-AEU-2025-0002" 100)]%nat%string
  /\ finished final
     = [(0, {| successCount := 2; failureCount := 0 |});
        (1, {| successCount := 1; failureCount := 0 |})]%nat
  /\ suspended final = ∅.
Proof.
  intros rows ok app resumed final.
  assert (Hsleep : suspended app !! 0%nat
                   = Some (mkActivation 0 {| successCount := 1; failureCount := 0 |}
                             AwaitSleep)) by reflexivity.
  assert (Hrun : (0 < runsStarted app)%nat) by (vm_compute; lia).
  assert (Hnext : selectedRows (dataManager app) !! 1%nat
                  = Some (exampleData 2 "GB-AEU-2025-0003" "2025-06-01" true))
    by reflexivity.
  pose proof (cancelled_loop_resumes_on_new_queue app 0 0 _ _ Hsleep Hrun Hnext)
    as (_ & _ & _ & _ & Hact & _).
  fold resumed in Hact.
  split; [exact Hsleep|]. split; [reflexivity|].
  split; [now rewrite Hact|]. split; [reflexivity|]. split; reflexivity.
Defined.
